(** * Exchange-rate sheet and customer import: a shallow embedding

    The development follows the Apps Script sources of the repository:
    the "Dolar" sheet engine (formatDate, parseCustomDate, validateDate,
    the two API normalizers, getCachedOrFetch, updateHistoricalValues)
    and the customer XML import (prepareAndImportXMLFileCust and its
    helpers); then the daily update (updateDollarsUntilToday), the
    removal of rows (removeDuplicateDates, deleteExistingRows) and the
    choice of the file to import (importCustomers).

    JavaScript numbers are IEEE-754 binary64 values, modelled by Rocq's
    primitive floats; time values are integers (milliseconds since the
    epoch) or an invalid Date; strings are sequences of code units.
    What the host environment decides (the script time zone, the way a
    text cell reads back as a Date, the order used by a range sort,
    JSON decoding) is gathered in the record [Host]. *)

From Stdlib Require Import ZArith Lia Bool Ascii String List.
From Stdlib Require Import DecimalString DecimalZ DecimalPos.
From Stdlib Require Import PrimFloat SpecFloat FloatOps.
From Stdlib Require FloatAxioms.
From stdpp Require Import base option list sorting gmap strings.

#[local] Set Warnings "-register-all".

Open Scope Z_scope.

(* ================================================================== *)
(** * Part I: the JavaScript values and built-ins the sources rely on  *)
(* ================================================================== *)

Module JS.

(** ** Numbers *)

Definition NaN : float := PrimFloat.nan.

(** The Number nearest to an integer (round to nearest, ties to even). *)
Definition Z2F (z : Z) : float :=
  SF2Prim (binary_normalize prec emax z 0 false).

(** ToIntegerOrInfinity restricted to finite values: truncation toward
    zero; [None] stands for NaN and the infinities. *)
Definition F2Z (f : float) : option Z :=
  match Prim2SF f with
  | S754_zero _ => Some 0
  | S754_finite s m e =>
      let v := if 0 <=? e then Z.pos m * 2 ^ e else Z.pos m / 2 ^ (- e) in
      Some (if s then - v else v)
  | S754_infinity _ | S754_nan => None
  end.

(** ToBoolean on a Number: NaN, +0 and -0 are falsy. *)
Definition truthy_num (f : float) : bool :=
  negb (PrimFloat.is_nan f || PrimFloat.is_zero f).

(** [x || 0] on Numbers. *)
Definition or_zero (f : float) : float :=
  if truthy_num f then f else PrimFloat.zero.

(** SameValueZero on Numbers (the equality of [Set] and [includes]). *)
Definition same_value_zero (a b : float) : bool :=
  (PrimFloat.is_nan a && PrimFloat.is_nan b) || PrimFloat.eqb a b.

(** The value a [Set] keeps when a Number is added: -0 becomes +0. *)
Definition set_key (f : float) : float :=
  if PrimFloat.is_zero f then PrimFloat.zero else f.

(** The Number denoted by the decimal [m * 10^e] with sign [neg]
    ([m >= 0]), correctly rounded. *)
Definition dec2float (neg : bool) (m e : Z) : float :=
  match m with
  | Z.pos p =>
      if 0 <=? e
      then SF2Prim (binary_normalize prec emax
                      (if neg then - (m * 10 ^ e) else m * 10 ^ e) 0 false)
      else match 10 ^ (- e) with
           | Z.pos q => SF2Prim (SFdiv prec emax (S754_finite neg p 0)
                                                 (S754_finite false q 0))
           | _ => NaN
           end
  | _ => if neg then PrimFloat.neg_zero else PrimFloat.zero
  end.

(** ** Characters and strings *)

Definition is_digit (c : ascii) : bool :=
  let n := nat_of_ascii c in (48 <=? n)%nat && (n <=? 57)%nat.

Definition digit_val (c : ascii) : Z := Z.of_nat (nat_of_ascii c) - 48.

Definition hex_val (c : ascii) : option Z :=
  let n := Z.of_nat (nat_of_ascii c) in
  if (48 <=? n) && (n <=? 57) then Some (n - 48)
  else if (65 <=? n) && (n <=? 70) then Some (n - 55)
  else if (97 <=? n) && (n <=? 102) then Some (n - 87)
  else None.

(** StrWhiteSpaceChar among the code units below 256: TAB, LF, VT, FF,
    CR, SP and NBSP. *)
Definition is_space (c : ascii) : bool :=
  let n := nat_of_ascii c in
  ((9 <=? n)%nat && (n <=? 13)%nat) || (n =? 32)%nat || (n =? 160)%nat.

Fixpoint trim_start (s : string) : string :=
  match s with
  | String c r => if is_space c then trim_start r else s
  | EmptyString => EmptyString
  end.

Definition rev_string (s : string) : string :=
  string_of_list_ascii (rev (list_ascii_of_string s)).

Definition trim (s : string) : string :=
  rev_string (trim_start (rev_string (trim_start s))).

(** String.prototype.toLowerCase on code units below 256. *)
Definition lower_char (c : ascii) : ascii :=
  let n := nat_of_ascii c in
  if ((65 <=? n)%nat && (n <=? 90)%nat)
     || ((192 <=? n)%nat && (n <=? 222)%nat && negb (n =? 215)%nat)
  then ascii_of_nat (n + 32) else c.

Fixpoint toLowerCase (s : string) : string :=
  match s with
  | String c r => String (lower_char c) (toLowerCase r)
  | EmptyString => EmptyString
  end.

(** [s.split(sep)] for a separator that matches exactly one code unit
    (a one-character string or a character class). *)
Fixpoint split_on (sep : ascii -> bool) (s : string) : list string :=
  match s with
  | EmptyString => [EmptyString]
  | String c r =>
      if sep c then EmptyString :: split_on sep r
      else match split_on sep r with
           | p :: ps => String c p :: ps
           | [] => [String c EmptyString]
           end
  end.

(** [s.slice(-2)]. *)
Definition slice_last2 (s : string) : string :=
  let n := String.length s in substring (n - 2) 2 s.

(** [s.replace('.', ',')]: the first occurrence only. *)
Fixpoint replace_dot (s : string) : string :=
  match s with
  | String c r =>
      if Ascii.eqb c "."%char then String ","%char r
      else String c (replace_dot r)
  | EmptyString => EmptyString
  end.

(** Decimal rendering of an integral Number. *)
Definition Z_to_string (z : Z) : string :=
  NilZero.string_of_int (Z.to_int z).

(** Number to string for the values the Date getters return:
    an integer, or NaN for an invalid Date. *)
Definition num_to_string (n : option Z) : string :=
  match n with
  | Some z => Z_to_string z
  | None => "NaN"
  end.

(** Number::toString for an integral Number [x >= 1e21] whose exact value
    is [X]: the shortest digit string [s] (of [k] digits) with
    [s * 10^(n-k)] rounding to [x], the nearest such, the even one on a
    tie; rendered in exponential notation. *)
Definition shortest_pick (X k : Z) (best : option (Z * Z)) (c : Z * Z)
  : option (Z * Z) :=
  match best with
  | None => Some c
  | Some b =>
      let db := Z.abs (fst b * 10 ^ (snd b - k) - X) in
      let dc := Z.abs (fst c * 10 ^ (snd c - k) - X) in
      if dc <? db then Some c
      else if (dc =? db) && Z.even (fst c) then Some c
      else Some b
  end.

Definition shortest_at (x : float) (X N k : Z) : option (Z * Z) :=
  let cands (n : Z) : list (Z * Z) :=
    let p := 10 ^ (n - k) in
    let lo := X / p in
    map (fun s => (s, n))
        (List.filter (fun s => (10 ^ (k - 1) <=? s) && (s <? 10 ^ k)
                               && PrimFloat.eqb (Z2F (s * p)) x)
                     [lo; lo + 1]) in
  fold_left (shortest_pick X k) (cands N ++ cands (N + 1)) None.

Fixpoint shortest_search (fuel : nat) (x : float) (X N k : Z)
  : option (Z * Z * Z) :=
  match fuel with
  | O => None
  | S f => match shortest_at x X N k with
           | Some (s, n) => Some (s, n, k)
           | None => shortest_search f x X N (k + 1)
           end
  end.

Definition toString_large (x : float) : string :=
  match F2Z x with
  | Some X =>
      let N := Z.of_nat (String.length (Z_to_string X)) in
      match shortest_search 17 x X N 1 with
      | Some (s, n, k) =>
          let ds := Z_to_string s in
          let mant := if k =? 1 then ds
                      else (substring 0 1 ds ++ "."
                            ++ substring 1 (String.length ds - 1) ds)%string in
          (mant ++ "e+" ++ Z_to_string (n - 1))%string
      | None => Z_to_string X
      end
  | None => "NaN"
  end.

(** ** Numeric literals in strings *)

(** Longest prefix of decimal digits: its value, its length, the rest. *)
Fixpoint scan_digits (s : string) (acc n : Z) : Z * Z * string :=
  match s with
  | String c r =>
      if is_digit c then scan_digits r (10 * acc + digit_val c) (n + 1)
      else (acc, n, s)
  | EmptyString => (acc, n, s)
  end.

(** Longest prefix of digits of the radix [R] (at most 16). *)
Fixpoint scan_radix (R : Z) (s : string) (acc n : Z) : Z * Z * string :=
  match s with
  | String c r =>
      match hex_val c with
      | Some d => if d <? R then scan_radix R r (R * acc + d) (n + 1)
                  else (acc, n, s)
      | None => (acc, n, s)
      end
  | EmptyString => (acc, n, s)
  end.

Definition scan_sign (s : string) : bool * string :=
  match s with
  | String "-" r => (true, r)
  | String "+" r => (false, r)
  | _ => (false, s)
  end.

Fixpoint strip_prefix (p s : string) : option string :=
  match p, s with
  | EmptyString, _ => Some s
  | String a p', String b s' =>
      if Ascii.eqb a b then strip_prefix p' s' else None
  | String _ _, EmptyString => None
  end.

(** ExponentPart, when at least one digit follows the indicator. *)
Definition scan_exponent (s : string) : Z * string :=
  match s with
  | String c r =>
      if Ascii.eqb c "e" || Ascii.eqb c "E" then
        let (eneg, r1) := scan_sign r in
        let '(v, n, r2) := scan_digits r1 0 0 in
        if n =? 0 then (0, s) else (if eneg then - v else v, r2)
      else (0, s)
  | EmptyString => (0, s)
  end.

(** Longest prefix that is a StrDecimalLiteral: its Number and the rest. *)
Definition scan_decimal (s : string) : option (float * string) :=
  let (neg, s1) := scan_sign s in
  match strip_prefix "Infinity" s1 with
  | Some r =>
      Some (if neg then PrimFloat.neg_infinity else PrimFloat.infinity, r)
  | None =>
      let '(ip, ni, s2) := scan_digits s1 0 0 in
      let '(m, nf, s3, ok) :=
        match s2 with
        | String "." r =>
            let '(m', nf, r') := scan_digits r ip 0 in
            if (ni =? 0) && (nf =? 0) then (ip, 0, s2, false)
            else (m', nf, r', true)
        | _ => (ip, 0, s2, negb (ni =? 0))
        end in
      if ok then
        let (ex, s4) := scan_exponent s3 in
        Some (dec2float neg m (ex - nf), s4)
      else None
  end.

(** [parseFloat] on a string. *)
Definition parseFloat_str (s : string) : float :=
  match scan_decimal (trim_start s) with
  | Some (f, _) => f
  | None => NaN
  end.

Definition signed (neg : bool) (v : Z) : float :=
  if neg then (if v =? 0 then PrimFloat.neg_zero else Z2F (- v)) else Z2F v.

(** [parseInt(s, 10)]. *)
Definition parseInt10 (s : string) : float :=
  let (neg, s1) := scan_sign (trim_start s) in
  let '(v, n, _) := scan_digits s1 0 0 in
  if n =? 0 then NaN else signed neg v.

(** [parseInt(s)] with no radix: a [0x] or [0X] prefix selects radix 16. *)
Definition parseInt (s : string) : float :=
  let (neg, s1) := scan_sign (trim_start s) in
  let hex := match strip_prefix "0x" s1 with
             | Some r => Some r
             | None => strip_prefix "0X" s1
             end in
  let '(v, n, _) := match hex with
                    | Some r => scan_radix 16 r 0 0
                    | None => scan_digits s1 0 0
                    end in
  if n =? 0 then NaN else signed neg v.

(** [parseInt] applied to what [getChildText] returns ([null] when the
    child is absent: ToString gives the text "null"). *)
Definition parseInt_text (t : option string) : float :=
  match t with
  | Some s => parseInt s
  | None => parseInt "null"
  end.

(** [Number(s)]: StringToNumber. *)
Definition Number_str (s : string) : float :=
  let t := trim s in
  let radix_lit (R : Z) (r : string) : float :=
    let '(v, n, rest) := scan_radix R r 0 0 in
    if negb (n =? 0) && String.eqb rest "" then Z2F v else NaN in
  match t with
  | EmptyString => PrimFloat.zero
  | String "0" (String c r) =>
      if Ascii.eqb c "x" || Ascii.eqb c "X" then radix_lit 16 r
      else if Ascii.eqb c "o" || Ascii.eqb c "O" then radix_lit 8 r
      else if Ascii.eqb c "b" || Ascii.eqb c "B" then radix_lit 2 r
      else match scan_decimal t with
           | Some (f, EmptyString) => f
           | _ => NaN
           end
  | _ => match scan_decimal t with
         | Some (f, EmptyString) => f
         | _ => NaN
         end
  end.

(** ** Values, property access, exceptions *)

Inductive JsError :=
  | TypeError
  | SyntaxError
  | ReferenceError (name : string)
  | Error (message : string).

Inductive result (A : Type) :=
  | Ok (a : A)
  | Throw (e : JsError).
Arguments Ok {A} a.
Arguments Throw {A} e.

(** Sequencing of computations that may throw. *)
Definition bind {A B} (r : result A) (k : A -> result B) : result B :=
  match r with
  | Ok a => k a
  | Throw e => Throw e
  end.

Notation "x <- e ;; k" := (bind e (fun x => k))
  (at level 100, e at next level, right associativity).

(** [error.message]. *)
Definition error_message (e : JsError) : string :=
  match e with
  | Error m => m
  | TypeError => "TypeError"
  | SyntaxError => "SyntaxError"
  | ReferenceError name => (name +:+ " is not defined")%string
  end.

(** A decoded JSON text, or [undefined]. *)
Inductive JsVal :=
  | VUndef
  | VNull
  | VBool (b : bool)
  | VNum (f : float)
  | VStr (s : string)
  | VArr (l : list JsVal)
  | VObj (fields : list (string * JsVal)).

Fixpoint assoc (k : string) (fs : list (string * JsVal)) : JsVal :=
  match fs with
  | (k', v) :: r => if String.eqb k k' then v else assoc k r
  | [] => VUndef
  end.

(** [v.k] for a name [k] that no built-in prototype defines: [None] is
    the TypeError raised on [null] and [undefined]. *)
Definition get_prop (v : JsVal) (k : string) : option JsVal :=
  match v with
  | VUndef | VNull => None
  | VObj fs => Some (assoc k fs)
  | _ => Some VUndef
  end.

(** [v?.k]. *)
Definition get_prop_opt (v : JsVal) (k : string) : JsVal :=
  match get_prop v k with
  | Some x => x
  | None => VUndef
  end.

Definition truthy (v : JsVal) : bool :=
  match v with
  | VUndef | VNull => false
  | VBool b => b
  | VNum f => truthy_num f
  | VStr s => negb (String.eqb s "")
  | VArr _ | VObj _ => true
  end.

(** [v === s] for a string [s]. *)
Definition is_string (v : JsVal) (s : string) : bool :=
  match v with
  | VStr t => String.eqb t s
  | _ => false
  end.

(** [parseFloat(v)]: the argument is first converted to a string.  A
    Number prints to a text that reads back as itself (-0 prints as
    "0"); [null], [undefined], booleans and objects print to texts with
    no numeric prefix; an array prints its elements separated by commas,
    so only its first element can contribute a numeric prefix. *)
Fixpoint parseFloat (v : JsVal) : float :=
  match v with
  | VNum f => if PrimFloat.is_zero f then PrimFloat.zero else f
  | VStr s => parseFloat_str s
  | VArr (x :: _) => parseFloat x
  | _ => NaN
  end.

(** [data[0]] on an array. *)
Definition first_elem (l : list JsVal) : JsVal :=
  match l with
  | x :: _ => x
  | [] => VUndef
  end.

(** An array index: the canonical decimal text of an integer from 0 to
    2^32 - 2. *)
Definition array_index (k : string) : option Z :=
  let '(v, n, rest) := scan_digits k 0 0 in
  if negb (n =? 0) && String.eqb rest "" && String.eqb (Z_to_string v) k
     && (v <=? 4294967294)
  then Some v else None.

(** The own properties of an object: one per key, the first field of the
    list that bears it (the one [assoc] reads). *)
Fixpoint own_fields (fs : list (string * JsVal)) : list (string * JsVal) :=
  match fs with
  | [] => []
  | (k, v) :: r =>
      (k, v) :: List.filter (fun kv => negb (String.eqb (fst kv) k))
                            (own_fields r)
  end.

Fixpoint insert_by_index (e : Z * JsVal) (l : list (Z * JsVal))
  : list (Z * JsVal) :=
  match l with
  | [] => [e]
  | x :: r => if fst e <? fst x then e :: l else x :: insert_by_index e r
  end.

(** The order in which the own properties are enumerated: those whose
    key is an array index first, by ascending index, then the others in
    the order of their creation. *)
Definition enumerate (fs : list (string * JsVal)) : list JsVal :=
  let own := own_fields fs in
  let indexed :=
    fold_right insert_by_index []
      (omap (fun kv => (fun i => (i, snd kv)) <$> array_index (fst kv)) own) in
  let named :=
    List.filter (fun kv => bool_decide (array_index (fst kv) = None)) own in
  map snd indexed ++ map snd named.

(** [Object.values(v)] for a value that is not an array. *)
Definition Object_values (v : JsVal) : result (list JsVal) :=
  match v with
  | VUndef | VNull => Throw TypeError
  | VObj fs => Ok (enumerate fs)
  | VStr s => Ok (map (fun c => VStr (String c EmptyString))
                      (list_ascii_of_string s))
  | VArr l => Ok l
  | VBool _ | VNum _ => Ok []
  end.

End JS.

(** ** Time values and Date objects (ECMA-262, "Date Objects") *)

Module Time.

Definition msPerDay : Z := 86400000.
Definition msPerHour : Z := 3600000.
Definition msPerMinute : Z := 60000.
Definition msPerSecond : Z := 1000.

Definition Day (t : Z) : Z := t / msPerDay.
Definition TimeWithinDay (t : Z) : Z := t mod msPerDay.

Definition DayFromYear (y : Z) : Z :=
  365 * (y - 1970) + (y - 1969) / 4 - (y - 1901) / 100 + (y - 1601) / 400.

Definition InLeapYear (y : Z) : bool :=
  (y mod 4 =? 0) && (negb (y mod 100 =? 0) || (y mod 400 =? 0)).

Definition DaysInYear (y : Z) : Z := if InLeapYear y then 366 else 365.

(** The largest [y] with [DayFromYear y <= d]: the mean year length
    gives an estimate that is off by one at most. *)
Definition YearFromDay (d : Z) : Z :=
  let y0 := 1970 + (400 * d) / 146097 in
  if DayFromYear (y0 + 1) <=? d then y0 + 1
  else if DayFromYear y0 <=? d then y0
  else y0 - 1.

(** Number of days before month [m] (0 = January) within its year. *)
Definition cumDays (leap : bool) (m : Z) : Z :=
  let L := if leap then 1 else 0 in
  match m with
  | 0 => 0 | 1 => 31 | 2 => 59 + L | 3 => 90 + L | 4 => 120 + L
  | 5 => 151 + L | 6 => 181 + L | 7 => 212 + L | 8 => 243 + L
  | 9 => 273 + L | 10 => 304 + L | _ => 334 + L
  end.

Definition MonthFromDayInYear (leap : bool) (dwy : Z) : Z :=
  if dwy <? cumDays leap 1 then 0
  else if dwy <? cumDays leap 2 then 1
  else if dwy <? cumDays leap 3 then 2
  else if dwy <? cumDays leap 4 then 3
  else if dwy <? cumDays leap 5 then 4
  else if dwy <? cumDays leap 6 then 5
  else if dwy <? cumDays leap 7 then 6
  else if dwy <? cumDays leap 8 then 7
  else if dwy <? cumDays leap 9 then 8
  else if dwy <? cumDays leap 10 then 9
  else if dwy <? cumDays leap 11 then 10
  else 11.

Definition YearFromTime (t : Z) : Z := YearFromDay (Day t).
Definition DayWithinYear (t : Z) : Z := Day t - DayFromYear (YearFromTime t).
Definition MonthFromTime (t : Z) : Z :=
  MonthFromDayInYear (InLeapYear (YearFromTime t)) (DayWithinYear t).
Definition DateFromTime (t : Z) : Z :=
  DayWithinYear t - cumDays (InLeapYear (YearFromTime t)) (MonthFromTime t) + 1.
Definition WeekDay (t : Z) : Z := (Day t + 4) mod 7.
Definition HourFromTime (t : Z) : Z := (t / msPerHour) mod 24.
Definition MinFromTime (t : Z) : Z := (t / msPerMinute) mod 60.
Definition SecFromTime (t : Z) : Z := (t / msPerSecond) mod 60.
Definition msFromTime (t : Z) : Z := t mod msPerSecond.

Definition MakeTime (h m s ms : Z) : Z :=
  h * msPerHour + m * msPerMinute + s * msPerSecond + ms.

Definition MakeDay (year month date : Z) : Z :=
  let ym := year + month / 12 in
  let mn := month mod 12 in
  DayFromYear ym + cumDays (InLeapYear ym) mn + date - 1.

Definition MakeDate (day time : Z) : Z := day * msPerDay + time.

(** A Date object: its time value, or [None] for an invalid Date. *)
Abbreviation Date := (option Z).

Definition TimeClip (t : Z) : Date :=
  if Z.abs t <=? 8640000000000000 then Some t else None.

(** Relational operators on Dates compare the time values; with an
    invalid Date (NaN) every comparison is false. *)
Definition date_lt (a b : Date) : bool :=
  match a, b with Some x, Some y => x <? y | _, _ => false end.
Definition date_le (a b : Date) : bool :=
  match a, b with Some x, Some y => x <=? y | _, _ => false end.
Definition date_gt (a b : Date) : bool := date_lt b a.
Definition date_ge (a b : Date) : bool := date_le b a.

(** The UTC getters. *)
Definition getUTCFullYear (d : Date) : option Z := YearFromTime <$> d.
Definition getUTCMonth (d : Date) : option Z := MonthFromTime <$> d.
Definition getUTCDate (d : Date) : option Z := DateFromTime <$> d.
Definition getUTCDay (d : Date) : option Z := WeekDay <$> d.
Definition getUTCHours (d : Date) : option Z := HourFromTime <$> d.
Definition getUTCMinutes (d : Date) : option Z := MinFromTime <$> d.
Definition getUTCSeconds (d : Date) : option Z := SecFromTime <$> d.

(** Local time under a fixed offset [tz] (milliseconds east of UTC;
    -10800000 for Argentina, which observes no daylight saving). *)
Definition LocalTime (tz t : Z) : Z := t + tz.
Definition UTC (tz t : Z) : Z := t - tz.

Definition getFullYear (tz : Z) (d : Date) : option Z :=
  (fun t => YearFromTime (LocalTime tz t)) <$> d.
Definition getDate (tz : Z) (d : Date) : option Z :=
  (fun t => DateFromTime (LocalTime tz t)) <$> d.

(** [d.setDate(dt)] for an integral [dt] (NaN when [dt] is [None]). *)
Definition setDate (tz : Z) (d : Date) (dt : option Z) : Date :=
  match d, dt with
  | Some t, Some n =>
      let lt := LocalTime tz t in
      TimeClip (UTC tz (MakeDate (MakeDay (YearFromTime lt) (MonthFromTime lt) n)
                                 (TimeWithinDay lt)))
  | _, _ => None
  end.

(** [new Date(year, month, date, hours, minutes, seconds)], local time.
    Every argument goes through ToNumber and ToIntegerOrInfinity; a
    year from 0 to 99 stands for 1900 + year. *)
Definition new_Date_fields (tz : Z) (year month date h mi s : float) : Date :=
  match JS.F2Z year, JS.F2Z month, JS.F2Z date,
        JS.F2Z h, JS.F2Z mi, JS.F2Z s with
  | Some y, Some m, Some dt, Some hh, Some mm, Some ss =>
      let yr := if (0 <=? y) && (y <=? 99) then 1900 + y else y in
      TimeClip (UTC tz (MakeDate (MakeDay yr m dt) (MakeTime hh mm ss 0)))
  | _, _, _, _, _, _ => None
  end.

(** [new Date(year, month, date)]. *)
Definition new_Date_ymd (tz : Z) (year month date : float) : Date :=
  new_Date_fields tz year month date PrimFloat.zero PrimFloat.zero PrimFloat.zero.

(** Left padding with zeros to [n] characters. *)
Fixpoint zeros (n : nat) : string :=
  match n with
  | O => EmptyString
  | S k => String "0" (zeros k)
  end.
Definition pad_left (n : nat) (s : string) : string :=
  (zeros (n - String.length s) +:+ s)%string.

(** [d.toISOString()] for a valid time value. *)
Definition toISOString (t : Z) : string :=
  let y := YearFromTime t in
  let sign : string := if y <? 0 then "-" else "+" in
  let ys := if (0 <=? y) && (y <=? 9999) then pad_left 4 (JS.Z_to_string y)
            else (sign +:+ pad_left 6 (JS.Z_to_string (Z.abs y)))%string in
  let p2 (n : Z) := pad_left 2 (JS.Z_to_string n) in
  (ys +:+ "-" +:+ p2 (MonthFromTime t + 1) +:+ "-" +:+ p2 (DateFromTime t)
   +:+ "T" +:+ p2 (HourFromTime t) +:+ ":" +:+ p2 (MinFromTime t)
   +:+ ":" +:+ p2 (SecFromTime t)
   +:+ "." +:+ pad_left 3 (JS.Z_to_string (msFromTime t)) +:+ "Z")%string.

End Time.

(* ================================================================== *)
(** * Part II: the host environment                                    *)
(* ================================================================== *)

(** A cell as [getValues] returns it and [setValues] receives it. *)
Inductive Cell :=
  | CEmpty
  | CText (s : string)
  | CNum (f : float)
  | CBool (b : bool)
  | CDate (d : Time.Date).

Abbreviation Row := (list Cell).

(** A sheet is its used range: row [i] of the list is row [i + 1] of the
    sheet, and [getLastRow] is the length of the list.  Every row this
    code writes holds text in some column, so writing never leaves the
    last row blank. *)
Abbreviation Sheet := (list (list Cell)).

Definition getLastRow (sheet : Sheet) : Z := Z.of_nat (length sheet).

(** [row[0]]. *)
Definition cell0 (r : Row) : Cell :=
  match r with
  | c :: _ => c
  | [] => CEmpty
  end.

(** What the sources leave to their environment. *)
Record Host := {
  (** offset of the script time zone, in milliseconds east of UTC *)
  tz : Z;
  (** the time value [new Date(v)] takes when [v] is what the sheet hands
      back for a cell entered as the text [s]: the store may have
      recognised the text as a date, otherwise [Date.parse] reads it *)
  readDate : string -> Time.Date;
  (** the order a range sort uses on the cells of the sort column *)
  cellLeb : Cell -> Cell -> bool;
  (** [JSON.parse]; [None] is its SyntaxError *)
  JSON_parse : string -> option JS.JsVal
}.

(** The instant and the network seen by one top-level action. *)
Record World := {
  (** [new Date()] *)
  now : Z;
  (** [UrlFetchApp.fetch(url).getContentText()]; [None] when the fetch
      fails (transport error or non-success status): [fetch] is called
      without [muteHttpExceptions] and throws *)
  net : string -> option string
}.

(* ================================================================== *)
(** * Part III: the exchange-rate sheet                                *)
(* ================================================================== *)

(** The calls to CustomLogger are left out: they write to the console
    only, read nothing the engine changes, and cannot fail on the Dates
    they format. *)

Module Dolar.
Import JS Time.

(** The accented letters of the messages, as single code units. *)
Definition a_acute : string := String "225"%char EmptyString.
Definition e_acute : string := String "233"%char EmptyString.

Definition daysOfWeek : list string :=
  ["Domingo"; "Lunes"; "Martes"; "Mi" +:+ e_acute +:+ "rcoles";
   "Jueves"; "Viernes"; "S" +:+ a_acute +:+ "bado"].

Definition months : list string :=
  ["Enero"; "Febrero"; "Marzo"; "Abril"; "Mayo"; "Junio"; "Julio";
   "Agosto"; "Septiembre"; "Octubre"; "Noviembre"; "Diciembre"].

(** [arr[i]] in a string concatenation: out of range or NaN gives
    [undefined]. *)
Definition index_str (arr : list string) (i : option Z) : string :=
  match i with
  | Some n => if n <? 0 then "undefined"
              else nth (Z.to_nat n) arr "undefined"
  | None => "undefined"
  end.

(** [('0' + n).slice(-2)]. *)
Definition pad2 (n : option Z) : string :=
  slice_last2 ("0" +:+ num_to_string n).

Definition formatDate (date : Date) (format : string) : string :=
  let format := if String.eqb format "" then "short" else format in
  (* Ajustar la fecha a la zona horaria de Argentina (GMT-3) *)
  let argentinaDate : Date :=
    date ≫= (fun t => TimeClip (t - 3 * 60 * 60 * 1000)) in
  let day := pad2 (getUTCDate argentinaDate) in
  let month := pad2 ((fun m => m + 1) <$> getUTCMonth argentinaDate) in
  let year := num_to_string (getUTCFullYear argentinaDate) in
  let shortYear := slice_last2 year in
  let hours := pad2 (getUTCHours argentinaDate) in
  let minutes := pad2 (getUTCMinutes argentinaDate) in
  let seconds := pad2 (getUTCSeconds argentinaDate) in
  let weekday := index_str daysOfWeek (getUTCDay argentinaDate) in
  let monthName := index_str months (getUTCMonth argentinaDate) in
  if String.eqb format "verbose" then
    weekday +:+ " " +:+ day +:+ " de " +:+ monthName +:+ " de " +:+ year
  else if String.eqb format "sheet" then
    year +:+ "-" +:+ month +:+ "-" +:+ day
  else if String.eqb format "api" then
    year +:+ "/" +:+ month +:+ "/" +:+ day
  else if String.eqb format "dateTime" then
    day +:+ "/" +:+ month +:+ "/" +:+ shortYear +:+ " "
        +:+ hours +:+ ":" +:+ minutes +:+ ":" +:+ seconds
  else if String.eqb format "verboseLong" then
    weekday +:+ " " +:+ day +:+ " de " +:+ monthName +:+ " "
            +:+ hours +:+ ":" +:+ minutes +:+ ":" +:+ seconds
  else if String.eqb format "dayColumn" then
    weekday +:+ " " +:+ day +:+ "/" +:+ month +:+ "/" +:+ year
  else if String.eqb format "fullLong" then
    weekday +:+ " " +:+ day +:+ "-" +:+ month +:+ "-" +:+ shortYear
  else if String.eqb format "time" then
    hours +:+ ":" +:+ minutes +:+ ":" +:+ seconds
  else if String.eqb format "fullLongWithTime" then
    weekday +:+ " " +:+ day +:+ "-" +:+ month +:+ "-" +:+ shortYear +:+ " "
            +:+ hours +:+ ":" +:+ minutes +:+ ":" +:+ seconds
  else
    day +:+ "/" +:+ month +:+ "/" +:+ year.

(** [new Date('2015-01-01')]: a date-only ISO text is read as UTC. *)
Definition minDate2015 : Date := Some 1420070400000.

Definition invalidDateMsg : string := "Fecha inv" +:+ a_acute +:+ "lida".

Definition validateDate (date minDate maxDate : Date) : result unit :=
  if negb (bool_decide (is_Some date)) then Throw (Error invalidDateMsg)
  else if date_lt date minDate || date_gt date maxDate then
    Throw (Error ("La fecha debe estar entre " +:+ formatDate minDate ""
                  +:+ " y " +:+ formatDate maxDate ""))
  else Ok tt.

Definition is_date_sep (c : ascii) : bool :=
  Ascii.eqb c "/" || Ascii.eqb c "-".

Definition invalidFormatMsg : string :=
  "Formato de fecha inv" +:+ a_acute +:+ "lido. Use dd/mm o dd/mm/yy.".

Definition parseCustomDate (H : Host) (w : World) (dateStr : string)
  : result Date :=
  let parts := split_on is_date_sep dateStr in
  if ((length parts <? 2) || (3 <? length parts))%nat then
    Throw (Error invalidFormatMsg)
  else
    let day := parseInt10 (nth 0 parts "") in
    let month := (parseInt10 (nth 1 parts "") - 1)%float in
    let year := match getFullYear (tz H) (Some (now w)) with
                | Some y => Z2F y
                | None => NaN
                end in
    let year :=
      if (length parts =? 3)%nat then
        let y := parseInt10 (nth 2 parts "") in
        (* Si el año tiene dos dígitos, asumimos que es del siglo XXI *)
        if (y <? 100)%float then (y + 2000)%float else y
      else year in
    let date := new_Date_ymd (tz H) year month day in
    (* Validar que la fecha sea válida *)
    if negb (bool_decide (is_Some date)) then Throw (Error invalidDateMsg)
    else Ok date.

Definition validateDateRange (w : World) (startDate endDate : Date)
  : result unit :=
  let minDate := minDate2015 in
  let maxDate := Some (now w) in
  if date_gt startDate endDate then
    Throw (Error "La fecha de inicio debe ser anterior o igual a la fecha de fin.")
  else
    match validateDate startDate minDate maxDate with
    | Throw e => Throw e
    | Ok _ => validateDate endDate minDate maxDate
    end.

(** ** Configuration *)

Definition API_CURRENT : string := "https://dolarapi.com/v1/dolares".
Definition API_HISTORICAL : string :=
  "https://api.argentinadatos.com/v1/cotizaciones/dolares/".
(** [Object.values(Config.COLUMN_NAMES).length] *)
Definition columnCount : nat := 15.

(** ** The HTTP client with its cache *)

(** The script cache and the list of network fetches performed so far.
    [put] stores [JSON.stringify(text)] and [get] is followed by
    [JSON.parse]: on a string the pair is the identity, so an entry holds
    the response text, with the instant at which it expires. *)
Record Store := {
  cache : gmap string (string * Z);
  fetches : list string
}.

Definition cache_get (w : World) (st : Store) (url : string) : option string :=
  match cache st !! url with
  | Some (v, expiry) => if now w <? expiry then Some v else None
  | None => None
  end.

Definition cache_put (w : World) (st : Store) (url v : string) (ttl : Z)
  : Store :=
  {| cache := <[url := (v, now w + ttl * 1000)]> (cache st);
     fetches := fetches st |}.

Definition fetchFailed : JsError := Error "UrlFetchApp.fetch".

Definition getCachedOrFetch (w : World) (url : string) (cacheTime : Z)
  (st : Store) : result string * Store :=
  match cache_get w st url with
  | Some cached => (Ok cached, st)
  | None =>
      let st1 := {| cache := cache st; fetches := fetches st ++ [url] |} in
      match net w url with
      | None => (Throw fetchFailed, st1)
      | Some data => (Ok data, cache_put w st1 url data cacheTime)
      end
  end.

(** The default of the second parameter. *)
Definition defaultCacheTime : Z := 3600.

Record ApiResponse := {
  data : JsVal;
  apiType : string
}.

Definition fetchDataFromApis (H : Host) (w : World) (date : Date)
  (apiType : string) (st : Store) : option ApiResponse * Store :=
  let url := if String.eqb apiType "current" then API_CURRENT
             else API_HISTORICAL +:+ formatDate date "api" in
  match getCachedOrFetch w url defaultCacheTime st with
  | (Throw _, st') => (None, st')
  | (Ok response, st') =>
      if String.eqb response "" then (None, st')
      else match JSON_parse H response with
           | None => (None, st')
           | Some d => (Some {| data := d; apiType := apiType |}, st')
           end
  end.

(** ** The normalizers *)

Record Values := {
  oficialCompra : float;
  oficialVenta : float;
  blueCompra : float;
  blueVenta : float;
  mepCompra : float;
  mepVenta : float;
  criptoCompra : float;
  criptoVenta : float;
  mayoristaCompra : float;
  mayoristaVenta : float;
  fechaActualizacion : JsVal;
  blueOficialBreach : float;
  blueMepBreach : float
}.

(** [data.find(d => d.casa === casa)]; [undefined] when nothing matches. *)
Fixpoint find_casa (casa : string) (l : list JsVal) : result JsVal :=
  match l with
  | [] => Ok VUndef
  | d :: r =>
      match get_prop d "casa" with
      | None => Throw TypeError
      | Some c => if is_string c casa then Ok d else find_casa casa r
      end
  end.

Definition findValue (l : list JsVal) (casa : string)
  : result (float * float) :=
  item <- find_casa casa l ;;
  if truthy item then
    match get_prop item "compra", get_prop item "venta" with
    | Some c, Some v => Ok (parseFloat c, parseFloat v)
    | _, _ => Throw TypeError
    end
  else Ok (PrimFloat.zero, PrimFloat.zero).

Definition processCurrentApiData (H : Host) (w : World) (data : JsVal)
  : result Values :=
  (* Si data es un string, intentamos parsearlo como JSON *)
  data <- match data with
          | VStr s => match JSON_parse H s with
                      | Some v => Ok v
                      | None => Throw SyntaxError
                      end
          | _ => Ok data
          end ;;
  (* Si data es un objeto, lo convertimos en un array *)
  l <- match data with
       | VArr l => Ok l
       | _ => Object_values data
       end ;;
  oficial <- findValue l "oficial" ;;
  blue <- findValue l "blue" ;;
  mep <- findValue l "bolsa" ;;
  cripto <- findValue l "cripto" ;;
  mayorista <- findValue l "mayorista" ;;
  fecha <- (if truthy (first_elem l) then
              match get_prop (first_elem l) "fechaActualizacion" with
              | Some v => Ok v
              | None => Throw TypeError
              end
            else Ok (VStr (toISOString (now w)))) ;;
  Ok {| oficialCompra := fst oficial; oficialVenta := snd oficial;
        blueCompra := fst blue; blueVenta := snd blue;
        mepCompra := fst mep; mepVenta := snd mep;
        criptoCompra := fst cripto; criptoVenta := snd cripto;
        mayoristaCompra := fst mayorista; mayoristaVenta := snd mayorista;
        fechaActualizacion := fecha;
        blueOficialBreach :=
          (((snd blue - snd oficial) / snd oficial) * 100)%float;
        blueMepBreach :=
          (((snd blue - snd mep) / snd mep) * 100)%float |}.

Definition processHistoricalApiData (w : World) (data : JsVal)
  : result Values :=
  match data with
  | VArr l =>
      oficialData <- find_casa "oficial" l ;;
      blueData <- find_casa "blue" l ;;
      bolsaData <- find_casa "bolsa" l ;;
      mayoristaData <- find_casa "mayorista" l ;;
      criptoData <- find_casa "cripto" l ;;
      let num (d : JsVal) (k : string) : float :=
        or_zero (parseFloat (get_prop_opt d k)) in
      let fecha := get_prop_opt (first_elem l) "fecha" in
      let oV := num oficialData "venta" in
      let bV := num blueData "venta" in
      let mV := num bolsaData "venta" in
      Ok {| oficialCompra := num oficialData "compra"; oficialVenta := oV;
            blueCompra := num blueData "compra"; blueVenta := bV;
            mepCompra := num bolsaData "compra"; mepVenta := mV;
            criptoCompra := num criptoData "compra";
            criptoVenta := num criptoData "venta";
            mayoristaCompra := num mayoristaData "compra";
            mayoristaVenta := num mayoristaData "venta";
            fechaActualizacion :=
              if truthy fecha then fecha else VStr (toISOString (now w));
            blueOficialBreach :=
              if negb (oV =? 0)%float then ((bV - oV) / oV)%float
              else PrimFloat.zero;
            blueMepBreach :=
              if negb (mV =? 0)%float then ((bV - mV) / mV)%float
              else PrimFloat.zero |}
  | _ => Throw TypeError   (* [data.find] is not a function *)
  end.

(** ** The row codec *)

(** [n.toFixed(f)] digits for a non-negative integer [n] = round(x * 10^f). *)
Definition fixed_digits (n : Z) (f : nat) : string :=
  let m := Z_to_string n in
  let m := if (String.length m <=? f)%nat then pad_left (f + 1) m else m in
  let k := String.length m in
  if (f =? 0)%nat then m
  else substring 0 (k - f) m +:+ "." +:+ substring (k - f) f m.

(** [x.toFixed(f)]: the decimal with [f] fraction digits nearest to the
    exact value of [x], the larger one on a tie. *)
Definition toFixed (x : float) (f : nat) : string :=
  match Prim2SF x with
  | S754_nan => "NaN"
  | S754_infinity s => if s then "-Infinity" else "Infinity"
  | S754_zero _ => fixed_digits 0 f
  | S754_finite s m e =>
      let sign : string := if s then "-" else "" in
      if (1e21 <=? PrimFloat.abs x)%float
      then sign +:+ toString_large (PrimFloat.abs x)
      else
        let num := Z.pos m * 10 ^ Z.of_nat f in
        let n := if 0 <=? e then num * 2 ^ e
                 else (2 * num + 2 ^ (- e)) / (2 * 2 ^ (- e)) in
        sign +:+ fixed_digits n f
  end.

(** The local helpers of [prepareHistoricalRowData]. *)
Definition formatNumber (value : float) : string :=
  replace_dot (toFixed value 2).

Definition formatPercentage (value : float) : string :=
  replace_dot (toFixed (value * 100)%float 2) +:+ "%".

Definition prepareHistoricalRowData (w : World) (date : Date)
  (apiResponse : ApiResponse) : option Row :=
  if negb (truthy (data apiResponse)) then None
  else
    match processHistoricalApiData w (data apiResponse) with
    | Throw _ => None
    | Ok values =>
        let currentDateTime : Date := Some (now w) in
        Some [ CText (formatDate date "dayColumn");
               CText (formatNumber (oficialCompra values));
               CText (formatNumber (oficialVenta values));
               CText (formatNumber (blueCompra values));
               CText (formatNumber (blueVenta values));
               CText (formatNumber (mepCompra values));
               CText (formatNumber (mepVenta values));
               CText (formatNumber (criptoCompra values));
               CText (formatNumber (criptoVenta values));
               CText (formatNumber (mayoristaCompra values));
               CText (formatNumber (mayoristaVenta values));
               CText (formatPercentage (blueOficialBreach values));
               CText (formatPercentage (blueMepBreach values));
               CText (formatDate currentDateTime "dateTime");
               CText (formatDate currentDateTime "dateTime") ]
    end.

(** [new Date(row[0])]. *)
Definition newDateOfCell (H : Host) (c : Cell) : Date :=
  match c with
  | CEmpty => readDate H ""
  | CText s => readDate H s
  | CNum f => F2Z f ≫= TimeClip
  | CBool b => Some (if b then 1 else 0)
  | CDate d => d
  end.

(** The sortable key of a stored row:
    [formatDate(new Date(row[0]), 'sheet')]. *)
Definition rowKey (H : Host) (r : Row) : string :=
  formatDate (newDateOfCell H (cell0 r)) "sheet".

(** ** The sheet operations *)

Definition noDataMsg : string :=
  "Error al obtener datos de la hoja: No hay datos en el rango especificado".

(** [getSheetData(sheet)] with the default start row and column. *)
Definition getSheetData (sheet : Sheet) : result (list Row) :=
  if getLastRow sheet <? 1 then Throw (Error noDataMsg) else Ok sheet.

(** [sheet.getRange(r, 1, 1, data.length).setValues([data])] on a used
    row: the leading cells are replaced, the others stay. *)
Definition setRow (sheet : Sheet) (r : Z) (data : Row) : Sheet :=
  alter (fun old => data ++ drop (length data) old) (Z.to_nat (r - 1)) sheet.

(** [arr.findIndex(p)]. *)
Fixpoint findIndex {A} (p : A -> bool) (l : list A) : Z :=
  match l with
  | [] => -1
  | x :: r => if p x then 0
              else let i := findIndex p r in if i <? 0 then -1 else i + 1
  end.

Definition rowLe (H : Host) (r1 r2 : Row) : Prop :=
  cellLeb H (cell0 r1) (cell0 r2) = true.

#[export] Instance rowLe_dec H r1 r2 : Decision (rowLe H r1 r2).
Proof. unfold rowLe. apply _. Defined.

(** Rows 2 to the last are sorted on the first column, in the order of
    the host. *)
Definition sortSheetByDate (H : Host) (sheet : Sheet) : Sheet :=
  match sheet with
  | header :: rest => header :: merge_sort (rowLe H) rest
  | [] => []
  end.

(** ** The range reconciliation *)

Record Update := {
  row : Z;
  rowData : Row
}.

(** The outcome of [updateHistoricalValues]; the success message is
    represented by the two counts it reports. *)
Inductive HistResult :=
  | HistSuccess (updated added : nat)
  | HistError (message : string).

(** The [new Map(...)] of the snapshot: later rows override earlier ones. *)
Definition existingDatesOf (H : Host) (existingData : list Row)
  : gmap string Row :=
  list_to_map (rev (map (fun r => (rowKey H r, r)) existingData)).

Definition has (m : gmap string Row) (k : string) : bool :=
  bool_decide (is_Some (m !! k)).

Record Queues := {
  rowsToUpdate : list Update;
  rowsToAdd : list Row;
  store : Store
}.

(** One turn of the [while (currentDate <= endDate)] loop body. *)
Definition visitDay (H : Host) (w : World) (existingData : list Row)
  (currentDate : Date) (q : Queues) : Queues :=
  let (apiResponse, st) := fetchDataFromApis H w currentDate "historical" (store q) in
  match apiResponse with
  | Some r =>
      match prepareHistoricalRowData w currentDate r with
      | Some rd =>
          let dateKey := formatDate currentDate "sheet" in
          if has (existingDatesOf H existingData) dateKey then
            {| rowsToUpdate := rowsToUpdate q ++
                 [{| row := findIndex (fun r => String.eqb (rowKey H r) dateKey)
                                      existingData + 1;
                     rowData := rd |}];
               rowsToAdd := rowsToAdd q; store := st |}
          else
            {| rowsToUpdate := rowsToUpdate q;
               rowsToAdd := rowsToAdd q ++ [rd]; store := st |}
      | None =>
          {| rowsToUpdate := rowsToUpdate q; rowsToAdd := rowsToAdd q;
             store := st |}
      end
  | None =>
      {| rowsToUpdate := rowsToUpdate q; rowsToAdd := rowsToAdd q;
         store := st |}
  end.

(** [currentDate.setDate(currentDate.getDate() + 1)]. *)
Definition nextDay (H : Host) (currentDate : Date) : Date :=
  setDate (tz H) currentDate ((fun d => d + 1) <$> getDate (tz H) currentDate).

(** The loop, with a bound on the number of turns. *)
Fixpoint collectDays (fuel : nat) (H : Host) (w : World)
  (existingData : list Row) (endDate currentDate : Date) (q : Queues)
  : Queues :=
  match fuel with
  | O => q
  | S k =>
      if date_le currentDate endDate then
        collectDays k H w existingData endDate (nextDay H currentDate)
                    (visitDay H w existingData currentDate q)
      else q
  end.

(** Turns the loop takes between two valid dates: one per day. *)
Definition dayCount (startDate endDate : Date) : nat :=
  match startDate, endDate with
  | Some s, Some e => Z.to_nat ((e - s) / msPerDay + 1)
  | _, _ => O
  end.

(** [rowsToUpdate.forEach(...)]: an update is written in place when its
    row lies in the used range, otherwise its data joins [rowsToAdd]. *)
Definition applyUpdate (acc : Sheet * list Row) (u : Update)
  : Sheet * list Row :=
  let (sheet, adds) := acc in
  if (0 <? row u) && (row u <=? getLastRow sheet)
  then (setRow sheet (row u) (rowData u), adds)
  else (sheet, adds ++ [rowData u]).

Definition applyUpdates (sheet : Sheet) (updates : list Update)
  (adds : list Row) : Sheet * list Row :=
  fold_left applyUpdate updates (sheet, adds).

(** The bulk append at [getLastRow() + 1]; the rows have the 15 columns
    of the range written, as [prepareHistoricalRowData] builds them. *)
Definition appendRows (sheet : Sheet) (adds : list Row) : Sheet :=
  if (0 <? length adds)%nat then sheet ++ adds else sheet.

(** Everything after the loop: writes, sort, and the reported counts. *)
Definition writeBack (H : Host) (sheet : Sheet) (updates : list Update)
  (adds : list Row) : HistResult * Sheet :=
  let (sheet1, adds1) := applyUpdates sheet updates adds in
  let sheet2 := appendRows sheet1 adds1 in
  (HistSuccess (length updates) (length adds1), sortSheetByDate H sheet2).

Definition updateHistoricalValues (H : Host) (w : World) (sheet : Sheet)
  (startDate endDate : Date) (st : Store) : HistResult * Sheet * Store :=
  match validateDate startDate minDate2015 (Some (now w)) with
  | Throw e => (HistError (error_message e), sheet, st)
  | Ok _ =>
  match validateDate endDate startDate (Some (now w)) with
  | Throw e => (HistError (error_message e), sheet, st)
  | Ok _ =>
  match getSheetData sheet with
  | Throw e => (HistError (error_message e), sheet, st)
  | Ok existingData =>
      let q := collectDays (dayCount startDate endDate) H w existingData
                 endDate startDate
                 {| rowsToUpdate := []; rowsToAdd := []; store := st |} in
      let (res, sheet') := writeBack H sheet (rowsToUpdate q) (rowsToAdd q) in
      (res, sheet', store q)
  end end end.

(** A run on a sheet that other users of the spreadsheet edit meanwhile.
    The function reads the sheet at two moments: when [getSheetData]
    takes the snapshot, and from [rowsToUpdate.forEach] on, once every
    day has been fetched; [sheet] is what the sheet holds at the first
    moment and [later] what it holds at the second. *)
Definition updateHistoricalValuesShared (H : Host) (w : World)
  (sheet later : Sheet) (startDate endDate : Date) (st : Store)
  : HistResult * Sheet * Store :=
  match validateDate startDate minDate2015 (Some (now w)) with
  | Throw e => (HistError (error_message e), sheet, st)
  | Ok _ =>
  match validateDate endDate startDate (Some (now w)) with
  | Throw e => (HistError (error_message e), sheet, st)
  | Ok _ =>
  match getSheetData sheet with
  | Throw e => (HistError (error_message e), sheet, st)
  | Ok existingData =>
      let q := collectDays (dayCount startDate endDate) H w existingData
                 endDate startDate
                 {| rowsToUpdate := []; rowsToAdd := []; store := st |} in
      let (res, sheet') := writeBack H later (rowsToUpdate q) (rowsToAdd q) in
      (res, sheet', store q)
  end end end.

(** ** The menu entry "Actualizar un Rango de Fechas Histórico" *)

(** The alerts shown to the user. *)
Inductive Alert :=
  | AlertDatesProblem (detail : string)
      (** 'Hubo un problema al procesar las fechas: ' + message *)
  | AlertCompleted (updated added : nat)
      (** 'Actualización Completada' with the success message *)
  | AlertUpdateError (detail : string).
      (** 'Error en la Actualización' with the error message *)

(** [updateHistoricalRange(startDate, endDate)]; [sheet] is [None] when
    [getSheet()] finds no sheet named 'Dolar'. *)
Definition updateHistoricalRange (H : Host) (w : World) (sheet : option Sheet)
  (startDate endDate : Date) (st : Store)
  : list Alert * option Sheet * Store :=
  match sheet with
  | None => ([], None, st)
  | Some sh =>
      match updateHistoricalValues H w sh startDate endDate st with
      | (HistSuccess u a, sh', st') => ([AlertCompleted u a], Some sh', st')
      | (HistError m, sh', st') => ([AlertUpdateError m], Some sh', st')
      end
  end.

(** [updateDollarsByRange()]: each prompt yields the text entered, or
    [None] when the dialog is not closed with OK. *)
Definition updateDollarsByRange (H : Host) (w : World) (sheet : option Sheet)
  (startPrompt endPrompt : option string) (st : Store)
  : list Alert * option Sheet * Store :=
  match startPrompt with
  | None => ([], sheet, st)
  | Some startDateStr =>
  match endPrompt with
  | None => ([], sheet, st)
  | Some endDateStr =>
      match parseCustomDate H w startDateStr with
      | Throw e => ([AlertDatesProblem (error_message e)], sheet, st)
      | Ok startDate =>
      match parseCustomDate H w endDateStr with
      | Throw e => ([AlertDatesProblem (error_message e)], sheet, st)
      | Ok endDate =>
      match validateDateRange w startDate endDate with
      | Throw e => ([AlertDatesProblem (error_message e)], sheet, st)
      | Ok _ => updateHistoricalRange H w sheet startDate endDate st
      end end end
  end end.

End Dolar.

(* ================================================================== *)
(** * Part IV: the customer import                                     *)
(* ================================================================== *)

Module Clientes.
Import JS Time.

(** ** The XML document *)

(** A child element of a record: its name and its text. *)
Record Element := {
  ename : string;
  etext : string
}.

(** A [DATO] element: its children, in document order. *)
Abbreviation Entry := (list Element).

(** [entry.getChildText(name)]: the text of the first child with that
    name, [null] when there is none. *)
Fixpoint getChildText (entry : Entry) (name : string) : option string :=
  match entry with
  | [] => None
  | c :: r => if String.eqb (ename c) name then Some (etext c)
              else getChildText r name
  end.

(** A file: its name and what
    [XmlService.parse(...).getRootElement().getChildren('DATO')] yields;
    [Throw] when the text is not well-formed XML. *)
Record XmlFile := {
  fileName : string;
  entriesOf : result (list Entry)
}.

(** ** The field transforms *)

(** [convertToBoolean]: a missing field ([null]) has no [toLowerCase]. *)
Definition convertToBoolean (value : option string) : result bool :=
  match value with
  | Some s => Ok (String.eqb (toLowerCase s) "verdadero")
  | None => Throw TypeError
  end.

(** An array element that may be missing: [undefined] acts as NaN in
    every use [convertToDateTime] makes of it. *)
Definition nth_num (l : list float) (i : nat) : float := nth i l NaN.

(** [convertToDateTime]: [None] is [null], [Some d] a Date object. *)
Definition convertToDateTime (H : Host) (dateTimeStr : option string)
  : option Date :=
  match dateTimeStr with
  | None => None
  | Some s =>
      if String.eqb s "" then None
      else
        match split_on (fun c => Ascii.eqb c " ") s with
        | [datePart; timePart; period] =>
            let dmy := map Number_str
                         (split_on (fun c => Ascii.eqb c "/") datePart) in
            let hms := map Number_str
                         (split_on (fun c => Ascii.eqb c ":") timePart) in
            let day := nth_num dmy 0 in
            let month := nth_num dmy 1 in
            let year := nth_num dmy 2 in
            let hours := nth_num hms 0 in
            let minutes := nth_num hms 1 in
            let seconds := nth_num hms 2 in
            let adjustedHours :=
              if String.eqb (toLowerCase period) "p.m." && (hours <? 12)%float
              then (hours + 12)%float      (* Convertir a formato 24 horas *)
              else if String.eqb (toLowerCase period) "a.m."
                      && (hours =? 12)%float
              then PrimFloat.zero           (* Ajustar 12 a.m. a 0 horas *)
              else hours in
            Some (new_Date_fields (tz H) year (month - 1)%float day
                                  adjustedHours minutes seconds)
        | _ => None
        end
  end.

(** A text value handed to [setValues]; [null] leaves the cell empty. *)
Definition textCell (t : option string) : Cell :=
  match t with
  | Some s => CText s
  | None => CEmpty
  end.

Definition dateCell (d : option Date) : Cell :=
  match d with
  | Some x => CDate x
  | None => CEmpty
  end.

(** The row built from one entry by the callback of [entries.map]; the
    cells are evaluated from left to right. *)
Definition rowOfEntry (H : Host) (entry : Entry) : result Row :=
  let txt (name : string) : Cell := textCell (getChildText entry name) in
  let int (name : string) : Cell := CNum (parseInt_text (getChildText entry name)) in
  let boolean (name : string) : result Cell :=
    b <- convertToBoolean (getChildText entry name) ;; Ok (CBool b) in
  c19 <- boolean "ControlaCredito" ;;
  c26 <- boolean "SF_Moroso" ;;
  c27 <- boolean "SF_Engestionjudicial" ;;
  c28 <- boolean "SF_Incobrable" ;;
  c31 <- boolean "Habilitado" ;;
  Ok [ int "CodCliente";
       txt "RazonSocialdelCliente";
       txt "TipoDoc";
       txt "NroDocumento";
       txt "Direccion";
       txt "CodPostal";
       txt "Localidad";
       txt "Zona";
       txt "Provincia";
       txt "Pais";
       txt "TipodeCliente";
       txt "CategoriaCliente";
       txt "SubCategoriaCliente";
       int "CodVendedor";
       txt "Vendedor";
       txt "ListadePrecios";
       txt "CondiciondeVentaPredeterminada";
       txt "SF_FechadeActualizacion";
       c19;
       txt "SF_CreditoMaximo";
       txt "SF_PenddeFacturar";
       txt "SF_ChequesenCartera";
       txt "SF_ChequesRechazados";
       txt "SF_CreditoaVencer";
       txt "SF_CreditoVencido";
       c26;
       c27;
       c28;
       txt "FechaUltimaCompra";
       dateCell (convertToDateTime H (getChildText entry "FechaUltModificacion"));
       c31 ].

(** [entries.map(...)]: the first failing entry aborts the whole map. *)
Fixpoint mapEntries (H : Host) (entries : list Entry) : result (list Row) :=
  match entries with
  | [] => Ok []
  | e :: r =>
      row <- rowOfEntry H e ;;
      rows <- mapEntries H r ;;
      Ok (row :: rows)
  end.

(** ** Duplicates *)

Definition mem (v : float) (s : list float) : bool :=
  existsb (same_value_zero v) s.

(** The [forEach] of [findDuplicatesCust] over the two sets, each held
    in the order of insertion. *)
Fixpoint scanDuplicates (values seen duplicates : list float) : list float :=
  match values with
  | [] => duplicates
  | v :: r =>
      if mem v seen then
        scanDuplicates r seen
          (if mem v duplicates then duplicates else duplicates ++ [set_key v])
      else scanDuplicates r (seen ++ [set_key v]) duplicates
  end.

Definition findDuplicatesCust (values : list float) : list float :=
  scanDuplicates values [] [].

(** [row[0]] of an imported row, as the Number it is. *)
Definition firstNumber (r : Row) : float :=
  match cell0 r with
  | CNum f => f
  | _ => NaN
  end.

(** ** The sheet 'Clientes' and the user interface *)

(** The used range of a sheet together with the height of its grid. *)
Record CustSheet := {
  rows : Sheet;
  maxRows : Z
}.

(** What [insertSheet] creates. *)
Definition newSheet : CustSheet := {| rows := []; maxRows := 1000 |}.

Inductive Alert :=
  | FormatAlert
      (** 'Formato de archivo incorrecto. El XML debe tener 31 campos
          por registro.' *)
  | ConfirmAlert (records : nat) (name : string)
      (** 'Confirmar importación' *)
  | NoDataAlert
      (** 'No hay datos para importar.' *)
  | CompletedAlert (imported duplicates : nat)
      (** 'Importación Completada' *)
  | ImportErrorAlert (detail : string).
      (** 'Error en la Importación' *)

Record State := {
  (** the sheet named 'Clientes', when it exists *)
  clientes : option CustSheet;
  (** the alerts shown so far *)
  alerts : list Alert;
  (** what [console.error] received *)
  console : list JsError;
  (** the rows of the sheet 'Error Log', when it exists *)
  errorLog : option (list (Z * string))
}.

Definition isBlank (c : Cell) : bool :=
  match c with
  | CEmpty => true
  | CText s => String.eqb s ""
  | _ => false
  end.

Definition blankRow (r : Row) : bool := forallb isBlank r.

Fixpoint dropBlankPrefix (l : list Row) : list Row :=
  match l with
  | r :: rest => if blankRow r then dropBlankPrefix rest else l
  | [] => []
  end.

(** The used range ends at the last row that holds content. *)
Definition trimBlankRows (s : Sheet) : Sheet := rev (dropBlankPrefix (rev s)).

(** [getRange('A2:Q' + lastRow).clearContent()]: columns 1 to 17 of every
    row but the first. *)
Definition clearAQ (r : Row) : Row :=
  replicate (Nat.min 17 (length r)) CEmpty ++ drop 17 r.

Definition clearContentA2Q (s : Sheet) : Sheet :=
  match s with
  | header :: rest => trimBlankRows (header :: map clearAQ rest)
  | [] => []
  end.

Fixpoint overwrite (olds data : list Row) : list Row :=
  match data with
  | [] => olds
  | d :: ds =>
      match olds with
      | o :: os => (d ++ drop (length d) o) :: overwrite os ds
      | [] => d :: overwrite [] ds
      end
  end.

(** [getRange(2, 1, data.length, data[0].length).setValues(data)]. *)
Definition setValuesFromRow2 (s : Sheet) (data : list Row) : Sheet :=
  match s with
  | header :: rest => header :: overwrite rest data
  | [] => [] :: overwrite [] data
  end.

Definition withSheet (st : State) (cs : CustSheet) : State :=
  {| clientes := Some cs; alerts := alerts st; console := console st;
     errorLog := errorLog st |}.

Definition alert (st : State) (a : Alert) : State :=
  {| clientes := clientes st; alerts := alerts st ++ [a];
     console := console st; errorLog := errorLog st |}.

Definition importXMLFileDataCust (H : Host) (entries : list Entry) (st : State)
  : result (list Row) * State :=
  let sheetCust := match clientes st with
                   | Some cs => cs
                   | None => newSheet
                   end in
  let lastRow := getLastRow (rows sheetCust) in
  let sheetCust :=
    if 1 <? lastRow
    then {| rows := clearContentA2Q (rows sheetCust);
            maxRows := maxRows sheetCust |}             (* Limpiar columnas A a Q *)
    else sheetCust in
  match mapEntries H entries with
  | Throw e => (Throw e, withSheet st sheetCust)
  | Ok data =>
      if (0 <? length data)%nat then
        let written := setValuesFromRow2 (rows sheetCust) data in
        let grid := Z.max (maxRows sheetCust) (Z.of_nat (length data) + 1) in
        (* Eliminar filas excedentes *)
        let newLastRow := getLastRow written in
        let grid := if newLastRow <? grid then newLastRow else grid in
        (Ok data, withSheet st {| rows := written; maxRows := grid |})
      else (Ok [], alert (withSheet st sheetCust) NoDataAlert)
  end.

(** [logErrorCust(error)]. *)
Definition logErrorCust (w : World) (e : JsError) (st : State) : State :=
  {| clientes := clientes st; alerts := alerts st; console := console st;
     errorLog := (fun l => l ++ [(now w, error_message e)]) <$> errorLog st |}.

(** The [catch] branch of [prepareAndImportXMLFileCust]. *)
Definition onImportError (w : World) (e : JsError) (st : State)
  : option Z * State :=
  let st := alert st (ImportErrorAlert (error_message e)) in
  let st := {| clientes := clientes st; alerts := alerts st;
               console := console st ++ [e]; errorLog := errorLog st |} in
  (Some 0, logErrorCust w e st).

(** [prepareAndImportXMLFileCust(file, ui)]; [confirm] tells whether the
    user answers YES to the confirmation.  The result is the value
    returned, [None] for [undefined]. *)
Definition prepareAndImportXMLFileCust (H : Host) (w : World) (file : XmlFile)
  (confirm : bool) (st : State) : option Z * State :=
  match entriesOf file with
  | Throw e => onImportError w e st
  | Ok entries =>
      (* Verificar si el XML tiene 31 campos (nuevo número de campos) *)
      let badFirst := match entries with
                      | firstEntry :: _ => negb (length firstEntry =? 31)%nat
                      | [] => false
                      end in
      if badFirst then (None, alert st FormatAlert)
      else
        let st := alert st (ConfirmAlert (length entries) (fileName file)) in
        if negb confirm then (None, st)
        else
          match importXMLFileDataCust H entries st with
          | (Throw e, st) => onImportError w e st
          | (Ok importedData, st) =>
              (* Verificar duplicados en la columna A (Campo 1) *)
              let duplicates :=
                findDuplicatesCust (map firstNumber importedData) in
              if (0 <? length duplicates)%nat then
                (* [sheetCust] is a constant of importXMLFileDataCust and
                   no global of that name exists: evaluating the argument
                   of highlightDuplicatesCust raises a ReferenceError *)
                onImportError w (ReferenceError "sheetCust") st
              else
                (Some (Z.of_nat (length importedData)),
                 alert st (CompletedAlert (length importedData)
                                          (length duplicates)))
          end
  end.

End Clientes.

(* ================================================================== *)
(** * Part V: concrete environments and inputs                         *)
(* ================================================================== *)

Module Samples.
Import JS Time.

(** Argentina: three hours west of UTC. *)
Definition tzAR : Z := -10800000.

(** A store that recognises the text "weekday dd/mm/yyyy" as that day
    (midnight in the script time zone) and hands any other text back as
    text no Date can be read from. *)
Definition labelReader (s : string) : Date :=
  match split_on (fun c => Ascii.eqb c " ") s with
  | [_; d] =>
      match split_on (fun c => Ascii.eqb c "/") d with
      | [dd; mm; yy] =>
          new_Date_ymd tzAR (parseInt10 yy) (parseInt10 mm - 1)%float
                       (parseInt10 dd)
      | _ => None
      end
  | _ => None
  end.

(** A sort order: dates and numbers first, then text in code-unit
    order, then booleans, blanks last. *)
Definition cellRank (c : Cell) : Z :=
  match c with
  | CNum _ | CDate _ => 0
  | CText _ => 1
  | CBool _ => 2
  | CEmpty => 3
  end.

Definition cellOrder (a b : Cell) : bool :=
  match a, b with
  | CDate (Some x), CDate (Some y) => x <=? y
  | CText s, CText t => String.leb s t
  | _, _ => cellRank a <=? cellRank b
  end.

Definition quote : string := String (ascii_of_nat 34) EmptyString.
Definition jstr (s : string) : string := quote +:+ s +:+ quote.
Definition jentry (casa compra venta : string) : string :=
  "{" +:+ jstr "casa" +:+ ":" +:+ jstr casa +:+ ","
      +:+ jstr "compra" +:+ ":" +:+ compra +:+ ","
      +:+ jstr "venta" +:+ ":" +:+ venta +:+ "}".

(** The JSON text of a day with two instruments, and its decoding. *)
Definition payloadText : string :=
  "[" +:+ jentry "oficial" "980" "1000" +:+ ","
      +:+ jentry "blue" "1480" "1500" +:+ "]".

Definition entry (casa : string) (compra venta : JsVal) : JsVal :=
  VObj [("casa", VStr casa); ("compra", compra); ("venta", venta)].

Definition payload : JsVal :=
  VArr [entry "oficial" (VNum 980) (VNum 1000);
        entry "blue" (VNum 1480) (VNum 1500)].

(** [JSON.parse] on the one text the sample network serves. *)
Definition decodeSample (s : string) : option JsVal :=
  if String.eqb s payloadText then Some payload else None.

Definition hostAR : Host :=
  {| tz := tzAR; readDate := labelReader; cellLeb := cellOrder;
     JSON_parse := decodeSample |}.

(** 2024-03-15T02:00:00Z. *)
Definition instant_20240315_0200 : Z := 1710468000000.

(** Local midnight of 5 March 2024 (03:00 UTC). *)
Definition day_20240305 : Z := 1709607600000.

Definition url_20240305 : string :=
  Dolar.API_HISTORICAL +:+ "2024/03/05".

(** The historical endpoint serves 5 March 2024 only; every other fetch
    fails. *)
Definition netSample (url : string) : option string :=
  if String.eqb url url_20240305 then Some payloadText else None.

Definition worldSample : World :=
  {| now := instant_20240315_0200; net := netSample |}.

(** A later instant with the same network. *)
Definition worldLater : World :=
  {| now := instant_20240315_0200 + 60000; net := netSample |}.

Definition emptyStore : Dolar.Store :=
  {| Dolar.cache := ∅; Dolar.fetches := [] |}.

(** A network that never answers. *)
Definition worldOffline : World :=
  {| now := instant_20240315_0200; net := fun _ => None |}.

Definition headerRow : Row := [CText "Fecha"; CText "Oficial Compra"].

(** A sheet holding the header and two rows dated 4 March 2024. *)
Definition day_20240304 : Z := 1709521200000.
Definition sheetTwice : Sheet :=
  [headerRow; [CDate (Some day_20240304); CText "970,00"];
              [CDate (Some day_20240304); CText "975,00"]].

(** A sheet holding the header only. *)
Definition sheetHeader : Sheet := [headerRow].

(** A payload whose official buy price is [null]. *)
Definition payloadNullCompra : JsVal :=
  VArr [entry "oficial" VNull (VNum 1000);
        entry "blue" (VNum 1480) (VNum 1500)].

(** The 31 field names of a customer record, in document order. *)
Definition fieldNames : list string :=
  ["CodCliente"; "RazonSocialdelCliente"; "TipoDoc"; "NroDocumento";
   "Direccion"; "CodPostal"; "Localidad"; "Zona"; "Provincia"; "Pais";
   "TipodeCliente"; "CategoriaCliente"; "SubCategoriaCliente";
   "CodVendedor"; "Vendedor"; "ListadePrecios";
   "CondiciondeVentaPredeterminada"; "SF_FechadeActualizacion";
   "ControlaCredito"; "SF_CreditoMaximo"; "SF_PenddeFacturar";
   "SF_ChequesenCartera"; "SF_ChequesRechazados"; "SF_CreditoaVencer";
   "SF_CreditoVencido"; "SF_Moroso"; "SF_Engestionjudicial";
   "SF_Incobrable"; "FechaUltimaCompra"; "FechaUltModificacion";
   "Habilitado"].

Definition fieldText (cod name : string) : string :=
  if String.eqb name "CodCliente" then cod
  else if String.eqb name "CodVendedor" then "7"
  else if String.eqb name "FechaUltModificacion" then "15/03/2024 02:30:00 p.m."
  else if existsb (String.eqb name)
            ["ControlaCredito"; "SF_Moroso"; "SF_Engestionjudicial";
             "SF_Incobrable"]
  then "Falso"
  else if String.eqb name "Habilitado" then "Verdadero"
  else "x".

(** A record with all 31 fields, for the customer code [cod]. *)
Definition customer (cod : string) : Clientes.Entry :=
  map (fun n => {| Clientes.ename := n; Clientes.etext := fieldText cod n |})
      fieldNames.

(** The same record without its [Zona] field: 30 children. *)
Definition customerNoZona (cod : string) : Clientes.Entry :=
  List.filter (fun c => negb (String.eqb (Clientes.ename c) "Zona"))
              (customer cod).

Definition fileMixed : Clientes.XmlFile :=
  {| Clientes.fileName := "clientes.xml";
     Clientes.entriesOf := Ok [customer "4521"; customerNoZona "4522"] |}.

Definition fileDuplicated : Clientes.XmlFile :=
  {| Clientes.fileName := "clientes.xml";
     Clientes.entriesOf := Ok [customer "4521"; customer "4521"] |}.

Definition stateEmpty : Clientes.State :=
  {| Clientes.clientes := Some {| Clientes.rows := [[CText "CodCliente"]];
                                  Clientes.maxRows := 1000 |};
     Clientes.alerts := []; Clientes.console := [];
     Clientes.errorLog := Some [] |}.

(** A store that keeps every text as text, under a [Date.parse] that
    reads none of the texts the engine writes. *)
Definition hostTextOnly : Host :=
  {| tz := tzAR; readDate := fun _ => None; cellLeb := cellOrder;
     JSON_parse := decodeSample |}.

(** The row the engine builds for 5 March 2024 from the sample payload,
    at the instant of [worldSample]. *)
Definition row_20240305 : Row :=
  [CText "Martes 05/03/2024"; CText "980,00"; CText "1000,00";
   CText "1480,00"; CText "1500,00"; CText "0,00"; CText "0,00";
   CText "0,00"; CText "0,00"; CText "0,00"; CText "0,00";
   CText "50,00%"; CText "0,00%"; CText "14/03/24 23:00:00";
   CText "14/03/24 23:00:00"].

End Samples.

(* ================================================================== *)
(** * Part VI: the specification's wording, where a claim compares     *)
(** the code with it                                                   *)
(* ================================================================== *)

Module Spec.
Import JS Time Dolar.

(** Section 4.1: the modes of [format(instant, mode)], laid out from the
    fields of an instant [a] read in UTC.  The names are spelled out
    and the digits computed here, independently of the code. *)
Definition weekdayName (n : Z) : string :=
  match n with
  | 0 => "Domingo"
  | 1 => "Lunes"
  | 2 => "Martes"
  | 3 => "Mi" +:+ String "233"%char "rcoles"
  | 4 => "Jueves"
  | 5 => "Viernes"
  | 6 => "S" +:+ String "225"%char "bado"
  | _ => "undefined"
  end.

Definition monthName (n : Z) : string :=
  match n with
  | 0 => "Enero"
  | 1 => "Febrero"
  | 2 => "Marzo"
  | 3 => "Abril"
  | 4 => "Mayo"
  | 5 => "Junio"
  | 6 => "Julio"
  | 7 => "Agosto"
  | 8 => "Septiembre"
  | 9 => "Octubre"
  | 10 => "Noviembre"
  | 11 => "Diciembre"
  | _ => "undefined"
  end.

Definition digitChar (n : Z) : ascii := ascii_of_nat (48 + Z.to_nat n).

(** A number below 100 in two decimal digits. *)
Definition twoDigits (n : Z) : string :=
  String (digitChar (n / 10)) (String (digitChar (n mod 10)) EmptyString).

(** The decimal numeral of an integer. *)
Definition numeral (z : Z) : string := NilZero.string_of_int (Z.to_int z).

(** The last two characters of a text (the text itself when shorter). *)
Fixpoint lastTwo (s : string) : string :=
  match s with
  | String _ ((String _ (String _ _)) as r) => lastTwo r
  | _ => s
  end.

Definition civilRender (a : Z) (mode : string) : string :=
  let dd := twoDigits (DateFromTime a) in
  let mm := twoDigits (MonthFromTime a + 1) in
  let yyyy := numeral (YearFromTime a) in
  let yy := lastTwo yyyy in
  let clock := twoDigits (HourFromTime a) +:+ ":" +:+ twoDigits (MinFromTime a)
                 +:+ ":" +:+ twoDigits (SecFromTime a) in
  let weekday := weekdayName (WeekDay a) in
  let month := monthName (MonthFromTime a) in
  let modes : list (string * string) :=
    [ ("sheet", yyyy +:+ "-" +:+ mm +:+ "-" +:+ dd);
      ("api", yyyy +:+ "/" +:+ mm +:+ "/" +:+ dd);
      ("verbose", weekday +:+ " " +:+ dd +:+ " de " +:+ month +:+ " de "
                  +:+ yyyy);
      ("dayColumn", weekday +:+ " " +:+ dd +:+ "/" +:+ mm +:+ "/" +:+ yyyy);
      ("dateTime", dd +:+ "/" +:+ mm +:+ "/" +:+ yy +:+ " " +:+ clock);
      ("verboseLong", weekday +:+ " " +:+ dd +:+ " de " +:+ month +:+ " "
                      +:+ clock);
      ("fullLong", weekday +:+ " " +:+ dd +:+ "-" +:+ mm +:+ "-" +:+ yy);
      ("time", clock);
      ("fullLongWithTime", weekday +:+ " " +:+ dd +:+ "-" +:+ mm +:+ "-"
                           +:+ yy +:+ " " +:+ clock) ] in
  match List.find (fun p => String.eqb mode (fst p)) modes with
  | Some p => snd p
  | None => dd +:+ "/" +:+ mm +:+ "/" +:+ yyyy
  end.

(** The instants of the Dates that are still Dates three hours
    earlier: all but those of the first three hours of the range. *)
Definition shiftable (t : Z) : Prop :=
  -8639999989200000 <= t <= 8640000000000000.

(** Section 4.3: a payload is a sequence of [{casa, compra, venta}]
    entries, that is, of objects. *)
Definition isEntry (v : JsVal) : bool :=
  match v with
  | VObj _ => true
  | _ => false
  end.

(** An entry named [casa] occurs in the payload. *)
Definition named (casa : string) (v : JsVal) : bool :=
  is_string (get_prop_opt v "casa") casa.

(** Section 4.5: a date outside [2015-01-01, now]; a Date object that
    holds no instant lies outside every range. *)
Definition outOfRange (w : World) (d : Date) : Prop :=
  match d with
  | Some t => t < 1420070400000 \/ now w < t
  | None => True
  end.

(** The row recorded for an update lies within the used range. *)
Definition inUsedRange (sheet : Sheet) (u : Update) : bool :=
  (0 <? row u) && (row u <=? getLastRow sheet).

(** Section 3: the sortable date key of an instant. *)
Definition sheetKey (t : Z) : string := formatDate (Some t) "sheet".

(** The civil day [formatDate] shows for an instant. *)
Definition civilDay (t : Z) : Z := Day (t - 10800000).

(** The same for any time value: none when the Date moved back by three
    hours is invalid. *)
Definition shownDay (t : Z) : option Z := Day <$> TimeClip (t - 10800000).


(** The queues the loop of a run over [s, e] builds from the snapshot
    [sheet]: one row for each day for which data was obtained. *)
Definition queued (H : Host) (w : World) (sheet : Sheet) (s e : Z)
  (st : Store) : Queues :=
  collectDays (dayCount (Some s) (Some e)) H w sheet (Some e) (Some s)
              {| rowsToUpdate := []; rowsToAdd := []; store := st |}.

(** The row the engine builds for a day, when the API has data for it. *)
Definition dayRow (H : Host) (w : World) (st : Store) (t : Z) : option Row :=
  match fetchDataFromApis H w (Some t) "historical" st with
  | (Some r, _) => prepareHistoricalRowData w (Some t) r
  | (None, _) => None
  end.

End Spec.

(** The invariants of the range reconciliation. *)
Module Inv.
Import JS Time Dolar Spec.

(** What [formatDate] lays out when the Date moved back by three hours
    is valid and holds the instant [a]. *)
Definition layout (a : Z) (mode : string) : string :=
  let two (n : Z) : string := pad2 (Some n) in
  let day := two (DateFromTime a) in
  let month := two (MonthFromTime a + 1) in
  let year := Z_to_string (YearFromTime a) in
  let shortYear := slice_last2 year in
  let clock := two (HourFromTime a) +:+ ":" +:+ two (MinFromTime a)
                   +:+ ":" +:+ two (SecFromTime a) in
  let weekday := index_str daysOfWeek (Some (WeekDay a)) in
  let monthName := index_str months (Some (MonthFromTime a)) in
  if String.eqb mode "verbose" then
    weekday +:+ " " +:+ day +:+ " de " +:+ monthName +:+ " de " +:+ year
  else if String.eqb mode "sheet" then year +:+ "-" +:+ month +:+ "-" +:+ day
  else if String.eqb mode "api" then year +:+ "/" +:+ month +:+ "/" +:+ day
  else if String.eqb mode "dateTime" then
    day +:+ "/" +:+ month +:+ "/" +:+ shortYear +:+ " " +:+ clock
  else if String.eqb mode "verboseLong" then
    weekday +:+ " " +:+ day +:+ " de " +:+ monthName +:+ " " +:+ clock
  else if String.eqb mode "dayColumn" then
    weekday +:+ " " +:+ day +:+ "/" +:+ month +:+ "/" +:+ year
  else if String.eqb mode "fullLong" then
    weekday +:+ " " +:+ day +:+ "-" +:+ month +:+ "-" +:+ shortYear
  else if String.eqb mode "time" then clock
  else if String.eqb mode "fullLongWithTime" then
    weekday +:+ " " +:+ day +:+ "-" +:+ month +:+ "-" +:+ shortYear
            +:+ " " +:+ clock
  else day +:+ "/" +:+ month +:+ "/" +:+ year.

(** A queued update that targets a row of the snapshot [E] bearing the
    key of the new data. *)
Definition updateOk (H : Host) (E : list Row) (u : Update) : Prop :=
  exists i r0 c rest,
    row u = Z.of_nat i + 1 /\ E !! i = Some r0
    /\ rowData u = c :: rest
    /\ rowKey H (rowData u) = rowKey H r0.

(** The time values that are those of a Date once moved back by three
    hours. *)
Definition kept (t : Z) : Prop := Z.abs (t - 10800000) <= 8640000000000000.

(** What the loop maintains, relative to the snapshot [E]: every queued
    update targets a row of the snapshot that has the key of the new
    data, and the queued additions have keys that are pairwise distinct,
    absent from the snapshot, and belong to days already visited. *)
Definition queuesOk (H : Host) (E : list Row) (bound : Z) (q : Queues) : Prop :=
  Forall (updateOk H E) (rowsToUpdate q)
  /\ Forall (fun r => (rowKey H r ∉ map (rowKey H) E)
                      /\ exists t', rowKey H r = sheetKey t' /\ kept t'
                                    /\ civilDay t' < bound)
            (rowsToAdd q)
  /\ NoDup (map (rowKey H) (rowsToAdd q)).


(** Rows in the used range of the snapshot, with the 15 columns. *)
Definition wellQueued (E : list Row) (q : Queues) : Prop :=
  Forall (fun u => inUsedRange E u = true
                   /\ length (rowData u) = columnCount) (rowsToUpdate q)
  /\ Forall (fun r => length r = columnCount) (rowsToAdd q).

End Inv.

(* ================================================================== *)
(** * Part VII: the other actions of the two scripts                   *)
(* ================================================================== *)

(** ** Removing rows: [removeDuplicateDates] and [deleteExistingRows] *)

Module Cleanup.
Import JS Time Dolar.

(** The used range of the sheet 'Dolar' together with the height of its
    grid; the used range may end with rows that have become blank. *)
Record Grid := {
  used : Sheet;
  height : Z
}.

(** [sheet.deleteRow(r)]: the rows below move up.  A position outside the
    grid is refused, and so is the removal of the only row. *)
Definition deleteRow (g : Grid) (r : Z) : result Grid :=
  if (r <? 1) || (height g <? r) then
    Throw (Error "Those rows are out of bounds.")
  else if height g <=? 1 then
    Throw (Error "It is not possible to delete all the rows of a sheet.")
  else Ok {| used := delete (Z.to_nat (r - 1)) (used g);
             height := height g - 1 |}.

(** [for (i = rowsToDelete.length - 1; i >= 0; i--)
      sheet.deleteRow(rowsToDelete[i])], given the row numbers in the
    order the loop visits them.  The rows deleted before an exception
    stay deleted. *)
Fixpoint deleteEach (g : Grid) (rs : list Z) : Grid * option JsError :=
  match rs with
  | [] => (g, None)
  | r :: rest =>
      match deleteRow g r with
      | Ok g' => deleteEach g' rest
      | Throw e => (g, Some e)
      end
  end.

(** The indices [data.length - 1], ..., [1] with their rows: what
    [for (i = data.length - 1; i > 0; i--)] visits. *)
Definition fromBottom (data : list Row) : list (nat * Row) :=
  rev (drop 1 (imap (fun i r => (i, r)) data)).

(** One turn of the scan of [removeDuplicateDates]. *)
Definition scanRow (H : Host) (acc : gset string * list Z) (ir : nat * Row)
  : gset string * list Z :=
  let (uniqueDates, rowsToDelete) := acc in
  let dateStr := rowKey H (snd ir) in
  if bool_decide (dateStr ∈ uniqueDates)
  then (uniqueDates, rowsToDelete ++ [Z.of_nat (fst ir) + 1])
  else ({[ dateStr ]} ∪ uniqueDates, rowsToDelete).

Definition duplicateRows (H : Host) (data : list Row) : list Z :=
  snd (fold_left (scanRow H) (fromBottom data) (∅, [])).

Inductive Message :=
  | Removed (n : nat)
      (** 'Se eliminaron n filas duplicadas.' *)
  | RemoveFailed.
      (** 'Ocurrió un error al eliminar filas duplicadas. ...' *)

(** [removeDuplicateDates()]; [sheet] is [None] when there is no sheet
    named 'Dolar'. *)
Definition removeDuplicateDates (H : Host) (sheet : option Grid)
  : list Message * option Grid :=
  match sheet with
  | None => ([], None)
  | Some g =>
      let data := used g in
      let rowsToDelete := duplicateRows H data in
      match deleteEach g (rev rowsToDelete) with
      | (g', None) => ([Removed (length rowsToDelete)], Some g')
      | (g', Some _) => ([RemoveFailed], Some g')
      end
  end.

(** The test of [deleteExistingRows] on a row. *)
Definition inRange (H : Host) (startDate endDate : Date) (r : Row) : bool :=
  let rowDate := newDateOfCell H (cell0 r) in
  date_ge rowDate startDate && date_le rowDate endDate.

Definition rowsInRange (H : Host) (startDate endDate : Date) (data : list Row)
  : list Z :=
  fold_left (fun rowsToDelete ir =>
               if inRange H startDate endDate (snd ir)
               then rowsToDelete ++ [Z.of_nat (fst ir) + 1]
               else rowsToDelete)
            (fromBottom data) [].

(** [deleteExistingRows(sheet, startDate, endDate)]: it has no handler, so
    an exception of [deleteRow] reaches the caller. *)
Definition deleteExistingRows (H : Host) (g : Grid) (startDate endDate : Date)
  : Grid * option JsError :=
  deleteEach g (rev (rowsInRange H startDate endDate (used g))).

End Cleanup.

(** ** The menu entry "Actualizar desde Última Fila Hasta Hoy" *)

Module Daily.
Import JS Time Dolar.

(** *** More of the Date object *)

Definition dayNames : list string :=
  ["Sun"; "Mon"; "Tue"; "Wed"; "Thu"; "Fri"; "Sat"].

Definition monthNames : list string :=
  ["Jan"; "Feb"; "Mar"; "Apr"; "May"; "Jun"; "Jul"; "Aug"; "Sep"; "Oct";
   "Nov"; "Dec"].

(** [d.toDateString()], in the script time zone. *)
Definition toDateString (tz : Z) (d : Date) : string :=
  match d with
  | None => "Invalid Date"
  | Some t =>
      let lt := LocalTime tz t in
      let yv := YearFromTime lt in
      let yearSign : string := if yv <? 0 then "-" else "" in
      nth (Z.to_nat (WeekDay lt)) dayNames "" +:+ " "
      +:+ nth (Z.to_nat (MonthFromTime lt)) monthNames "" +:+ " "
      +:+ pad_left 2 (Z_to_string (DateFromTime lt)) +:+ " "
      +:+ yearSign +:+ pad_left 4 (Z_to_string (Z.abs yv))
  end.

Definition getHours (tz : Z) (d : Date) : option Z :=
  (fun t => HourFromTime (LocalTime tz t)) <$> d.

(** [d.setHours(h)]: minutes, seconds and milliseconds are kept. *)
Definition setHours (tz : Z) (d : Date) (h : option Z) : Date :=
  match d, h with
  | Some t, Some hh =>
      let lt := LocalTime tz t in
      TimeClip (UTC tz (MakeDate (Day lt)
                          (MakeTime hh (MinFromTime lt) (SecFromTime lt)
                                    (msFromTime lt))))
  | _, _ => None
  end.

(** [d.setHours(0, 0, 0, 0)]. *)
Definition startOfDay (tz : Z) (d : Date) : Date :=
  match d with
  | Some t => TimeClip (UTC tz (MakeDate (Day (LocalTime tz t)) (MakeTime 0 0 0 0)))
  | None => None
  end.

(** What [new Date(v)] needs beyond [Host] when [v] is a decoded JSON
    value. *)
Record Clock := {
  (** [Date.parse] *)
  Date_parse : string -> Date;
  (** [new Date(v)] for an array or an object: the value is first
      converted to a primitive, which may fail *)
  Date_of_compound : JsVal -> result Date
}.

(** [new Date(v)]. *)
Definition newDateOfVal (K : Clock) (v : JsVal) : result Date :=
  match v with
  | VUndef => Ok None
  | VNull => Ok (Some 0)
  | VBool b => Ok (Some (if b then 1 else 0))
  | VNum f => Ok (F2Z f ≫= TimeClip)
  | VStr s => Ok (Date_parse K s)
  | VArr _ | VObj _ => Date_of_compound K v
  end.

(** *** The state of one action and its monad *)

(** The dialogs shown to the user. *)
Inductive Notice :=
  | AskToday
      (** 'La tabla tiene valores actualizados para hoy. ...' *)
  | AskYesterday
      (** 'La tabla tiene valores hasta ayer. ...' *)
  | AskHistorical (lastDate : string)
      (** 'La tabla tiene valores hasta ' + lastDate + '. ...' *)
  | TodayUpdated
      (** 'Datos actualizados correctamente con la última información
          disponible.' *)
  | TodayUnavailable
      (** 'No se pudieron obtener los datos actualizados. ...' *)
  | YesterdayAdded
      (** 'Se han agregado los datos de hoy basados en el cierre de ayer.' *)
  | YesterdayUnavailable
      (** 'No se pudieron obtener los datos de ayer. ...' *)
  | HistoricalFailed (detail : string)
      (** 'Error al actualizar datos históricos: ' + detail *)
  | UpToToday
      (** 'Datos actualizados correctamente hasta hoy.' *)
  | TodayMissing
      (** 'No se pudieron obtener los datos de hoy. ...' *)
  | ErrorNotice (detail : string).
      (** the alert of [handleError], with 'Error en ' + functionName +
          ': ' + message *)

Record Desk := {
  sheetOf : Sheet;
  storeOf : Store;
  shown : list Notice
}.

(** A computation that reads and changes the desk and may throw; what
    it changed before throwing stays changed. *)
Definition Action (A : Type) : Type := Desk -> result A * Desk.

#[export] Instance Action_ret : MRet Action :=
  fun A (a : A) (d : Desk) => (Ok a, d).

#[export] Instance Action_bind : MBind Action :=
  fun A B (k : A -> Action B) (m : Action A) (d : Desk) =>
    match m d with
    | (Ok a, d') => k a d'
    | (Throw e, d') => (Throw e, d')
    end.

Definition lift {A} (r : result A) : Action A := fun d => (r, d).

Definition notify (n : Notice) : Action unit :=
  fun d => (Ok tt, {| sheetOf := sheetOf d; storeOf := storeOf d;
                      shown := shown d ++ [n] |}).

Definition readSheet : Action Sheet := fun d => (Ok (sheetOf d), d).

Definition writeSheet (s : Sheet) : Action unit :=
  fun d => (Ok tt, {| sheetOf := s; storeOf := storeOf d; shown := shown d |}).

(** [fetchDataFromApis(date, apiType)], on the store of the desk. *)
Definition fetchData (H : Host) (w : World) (date : Date) (apiType : string)
  : Action (option ApiResponse) :=
  fun d =>
    let (r, st) := fetchDataFromApis H w date apiType (storeOf d) in
    (Ok r, {| sheetOf := sheetOf d; storeOf := st; shown := shown d |}).

(** *** Writing one row *)

(** [sheet.getRange(r, 1, 1, 15).setValues([data])]: a row of the used
    range is overwritten; a row below it is filled, the rows in between
    staying blank. *)
Definition putRow (sheet : Sheet) (r : Z) (data : Row) : result Sheet :=
  if r <? 1 then Throw (Error "The starting row of the range is too small.")
  else if r <=? getLastRow sheet then Ok (setRow sheet r data)
  else Ok (sheet ++ replicate (Z.to_nat (r - getLastRow sheet - 1)) []
                 ++ [data]).

(** [x.toFixed(1).replace('.', ',') + '%']. *)
Definition formatBreach (x : float) : string :=
  replace_dot (toFixed x 1) +:+ "%".

(** The row [updateDolarData] builds. *)
Definition dolarRow (H : Host) (K : Clock) (w : World) (values : Values)
  (date : Date) : result Row :=
  fechaActualizacion <- newDateOfVal K (fechaActualizacion values) ;;
  (* Sumamos 3 horas a la fecha de actualización *)
  let fechaActualizacion :=
    setHours (tz H) fechaActualizacion
             ((fun h => h + 3) <$> getHours (tz H) fechaActualizacion) in
  Ok [ CText (formatDate date "dayColumn");
       CNum (oficialCompra values);
       CNum (oficialVenta values);
       CNum (blueCompra values);
       CNum (blueVenta values);
       CNum (mepCompra values);
       CNum (mepVenta values);
       CNum (criptoCompra values);
       CNum (criptoVenta values);
       CNum (mayoristaCompra values);
       CNum (mayoristaVenta values);
       CText (formatBreach (blueOficialBreach values));
       CText (formatBreach (blueMepBreach values));
       CText (formatDate fechaActualizacion "dateTime");
       CText (formatDate (Some (now w)) "dateTime") ].

Definition updateDolarData (H : Host) (K : Clock) (w : World) (row : Z)
  (values : Values) (date : Date) : Action unit :=
  rowData ← lift (dolarRow H K w values date);
  sheet ← readSheet;
  sheet' ← lift (putRow sheet row rowData);
  writeSheet sheet'.

(** *** The three cases *)

Definition isToday (H : Host) (w : World) (date : Date) : bool :=
  String.eqb (toDateString (tz H) date) (toDateString (tz H) (Some (now w))).

(** [yesterday.setDate(yesterday.getDate() - 1)]. *)
Definition dayBefore (H : Host) (d : Date) : Date :=
  setDate (tz H) d ((fun n => n - 1) <$> getDate (tz H) d).

Definition isYesterday (H : Host) (w : World) (date : Date) : bool :=
  String.eqb (toDateString (tz H) date)
             (toDateString (tz H) (dayBefore H (Some (now w)))).

(** In the three handlers [confirm] tells whether the user answers YES. *)
Definition handleTodayUpdate (H : Host) (K : Clock) (w : World)
  (confirm : bool) (lastRow : Z) : Action unit :=
  _ ← notify AskToday;
  if confirm then
    let today := Some (now w) in
    apiResponse ← fetchData H w today "current";
    match apiResponse with
    | Some r =>
        values ← lift (processCurrentApiData H w (data r));
        _ ← updateDolarData H K w lastRow values today;
        notify TodayUpdated
    | None => notify TodayUnavailable
    end
  else mret tt.

Definition handleYesterdayUpdate (H : Host) (K : Clock) (w : World)
  (confirm : bool) (lastRow : Z) : Action unit :=
  _ ← notify AskYesterday;
  if confirm then
    let today := Some (now w) in
    let yesterday := dayBefore H today in
    apiResponse ← fetchData H w yesterday "historical";
    match apiResponse with
    | Some r =>
        values ← lift (processHistoricalApiData w (data r));
        _ ← updateDolarData H K w (lastRow + 1) values today;
        notify YesterdayAdded
    | None => notify YesterdayUnavailable
    end
  else mret tt.

(** [updateHistoricalValues(sheet, lastDate, yesterday)], on the desk;
    the result is [historicResult.error] when it is truthy. *)
Definition runHistorical (H : Host) (w : World) (startDate endDate : Date)
  : Action (option string) :=
  fun d =>
    match updateHistoricalValues H w (sheetOf d) startDate endDate (storeOf d) with
    | (res, sheet', st') =>
        (Ok match res with
            | HistError m => if String.eqb m "" then None else Some m
            | HistSuccess _ _ => None
            end,
         {| sheetOf := sheet'; storeOf := st'; shown := shown d |})
    end.

Definition handleHistoricalUpdate (H : Host) (K : Clock) (w : World)
  (confirm : bool) (lastDate today : Date) : Action unit :=
  _ ← notify (AskHistorical (formatDate lastDate "verbose"));
  if confirm then
    let yesterday := dayBefore H today in
    (* Actualizar datos históricos hasta ayer *)
    failure ← (if date_lt lastDate yesterday
               then runHistorical H w lastDate yesterday
               else mret None);
    match failure with
    | Some m => notify (HistoricalFailed m)
    | None =>
        (* Agregar datos de hoy *)
        apiResponse ← fetchData H w today "current";
        match apiResponse with
        | Some r =>
            values ← lift (processCurrentApiData H w (data r));
            sheet ← readSheet;
            _ ← updateDolarData H K w (getLastRow sheet + 1) values today;
            notify UpToToday
        | None => notify TodayMissing
        end
    end
  else mret tt.

(** [data[lastRow - 1][0]]. *)
Definition lastCell (data : list Row) : Cell :=
  match last data with
  | Some r => cell0 r
  | None => CEmpty
  end.

Definition dispatch (H : Host) (K : Clock) (w : World) (confirm : bool)
  : Action unit :=
  sheet ← readSheet;
  data ← lift (getSheetData sheet);
  let lastRow := Z.of_nat (length data) in
  let lastDate := newDateOfCell H (lastCell data) in
  let today := startOfDay (tz H) (Some (now w)) in
  if isToday H w lastDate then handleTodayUpdate H K w confirm lastRow
  else if isYesterday H w lastDate then handleYesterdayUpdate H K w confirm lastRow
  else handleHistoricalUpdate H K w confirm lastDate today.

(** [updateDollarsUntilToday()]; [sheet] is [None] when there is no
    sheet named 'Dolar'. *)
Definition updateDollarsUntilToday (H : Host) (K : Clock) (w : World)
  (confirm : bool) (sheet : option Sheet) (st : Store)
  : list Notice * option Sheet * Store :=
  match sheet with
  | None => ([], None, st)
  | Some sh =>
      let d0 := {| sheetOf := sh; storeOf := st; shown := [] |} in
      match dispatch H K w confirm d0 with
      | (Ok _, d) => (shown d, Some (sheetOf d), storeOf d)
      | (Throw e, d) =>
          (shown d ++ [ErrorNotice ("Error en updateDollarsUntilToday: "
                                    +:+ error_message e)],
           Some (sheetOf d), storeOf d)
      end
  end.

End Daily.

(** ** Choosing the file to import: [importCustomers] *)

Module Drive.
Import JS Clientes.

(** A file of Google Drive: its name and parsed content, the instant of
    its last update and its identifier. *)
Record DriveFile := {
  xml : XmlFile;
  lastUpdated : Z;
  fileId : string
}.

Definition getName (f : DriveFile) : string := fileName (xml f).

(** [DriveApp]: the files of a folder, in the order its iterator yields
    them, and the file with a given identifier; [None] when the service
    throws (no such folder or file, no access). *)
Record DriveApp := {
  filesOfFolder : string -> option (list DriveFile);
  getFileById : string -> option DriveFile
}.

Definition CUST_FOLDER_ID : string :=
  "1jFAEy1VhshwOkM2p9IHa0LwSEUEIEKGF2jm-nQxIV-c".

(** [s.endsWith(suffix)]. *)
Definition endsWith (s suffix : string) : bool :=
  let n := String.length s in
  let m := String.length suffix in
  (m <=? n)%nat && String.eqb (substring (n - m) m s) suffix.

Definition getFilesFromFolderCust (D : DriveApp) (folderId extension : string)
  : result (list DriveFile) :=
  match filesOfFolder D folderId with
  | Some all => Ok (List.filter (fun file => endsWith (getName file) extension) all)
  | None => Throw (Error "No se pudo acceder a la carpeta especificada.")
  end.

(** [files.reduce((a, b) => a.getLastUpdated() > b.getLastUpdated() ? a : b)];
    without an initial value [reduce] throws on an empty array. *)
Definition getLatestFileCust (files : list DriveFile) : result DriveFile :=
  match files with
  | [] => Throw TypeError
  | first :: rest =>
      Ok (fold_left (fun a b => if lastUpdated b <? lastUpdated a then a else b)
                    rest first)
  end.

(** The longest prefix without a slash: what [[^\/]+] takes. *)
Fixpoint takeNonSlash (s : string) : string :=
  match s with
  | String c r => if Ascii.eqb c "/" then EmptyString
                  else String c (takeNonSlash r)
  | EmptyString => EmptyString
  end.

(** [fileUrl.match(/\/d\/([^\/]+)/)]: the first capture of the leftmost
    match, [None] when nothing matches. *)
Fixpoint matchFileId (s : string) : option string :=
  match s with
  | EmptyString => None
  | String _ r =>
      match strip_prefix "/d/" s with
      | Some rest =>
          let id := takeNonSlash rest in
          if String.eqb id "" then matchFileId r else Some id
      | None => matchFileId r
      end
  end.

Inductive Dialog :=
  | NoFilesAlert
      (** 'No se encontraron archivos XML en la carpeta especificada.' *)
  | OfferLatest (name : string)
      (** 'El último archivo encontrado es: ...' *)
  | InvalidUrlAlert
      (** 'La URL no es válida. ...' *)
  | FileErrorAlert
      (** 'Ocurrió un error al obtener el archivo. ...' *)
  | CancelledAlert.
      (** 'El usuario canceló la selección del archivo.' *)

(** How the prompt loop stands after the answers given so far. *)
Inductive Pick :=
  | Chosen (file : DriveFile)
  | Cancelled
  | Waiting.

(** [getFileFromUserCust(ui, files)]: [answers] are the texts the
    successive prompts return. *)
Fixpoint getFileFromUserCust (D : DriveApp) (answers : list string)
  : list Dialog * Pick :=
  match answers with
  | [] => ([], Waiting)
  | fileUrl :: more =>
      if String.eqb fileUrl "" then ([CancelledAlert], Cancelled)
      else
        match matchFileId fileUrl with
        | Some fileId =>
            match getFileById D fileId with
            | Some file => ([], Chosen file)
            | None =>
                let (shown, pick) := getFileFromUserCust D more in
                (FileErrorAlert :: shown, pick)
            end
        | None =>
            let (shown, pick) := getFileFromUserCust D more in
            (InvalidUrlAlert :: shown, pick)
        end
  end.

Inductive Button := YES | NO | CLOSE.

(** How a run of [importCustomers] ends. *)
Inductive Outcome :=
  | Uncaught (e : JsError)
      (** the exception of [getFilesFromFolderCust] reaches the caller *)
  | Returned (result : option Z)
      (** the value of [prepareAndImportXMLFileCust], when it is called *)
  | Stopped
      (** no file to import, or the selection cancelled *)
  | Prompting.
      (** the selection prompt still open *)

(** [importCustomers()]: [answer] is the button of the first dialog,
    [answers] the texts given to the selection prompts and [confirm] the
    answer to the confirmation of the import. *)
Definition importCustomers (H : Host) (w : World) (D : DriveApp)
  (answer : Button) (answers : list string) (confirm : bool) (st : State)
  : list Dialog * Outcome * State :=
  match getFilesFromFolderCust D CUST_FOLDER_ID ".xml" with
  | Throw e => ([], Uncaught e, st)
  | Ok files =>
      if (length files =? 0)%nat then ([NoFilesAlert], Stopped, st)
      else
        match getLatestFileCust files with
        | Throw e => ([], Uncaught e, st)
        | Ok latestFile =>
            let offer := OfferLatest (getName latestFile) in
            match answer with
            | NO =>
                match getFileFromUserCust D answers with
                | (shown, Chosen selectedFile) =>
                    let (r, st') :=
                      prepareAndImportXMLFileCust H w (xml selectedFile)
                                                  confirm st in
                    (offer :: shown, Returned r, st')
                | (shown, Cancelled) => (offer :: shown, Stopped, st)
                | (shown, Waiting) => (offer :: shown, Prompting, st)
                end
            | _ =>
                let (r, st') :=
                  prepareAndImportXMLFileCust H w (xml latestFile) confirm st in
                ([offer], Returned r, st')
            end
        end
  end.

End Drive.

(** ** Further concrete inputs *)

Module Cases.
Import JS Time Dolar Clientes Daily Drive.

(** A row dated [t] with one quote. *)
Definition dated (t : Z) (v : string) : Row := [CDate (Some t); CText v].

(** Two days, each recorded twice, interleaved. *)
Definition gridInterleaved : Cleanup.Grid :=
  {| Cleanup.used := [Samples.headerRow;
                      dated Samples.day_20240304 "970,00";
                      dated Samples.day_20240305 "980,00";
                      dated Samples.day_20240304 "975,00";
                      dated Samples.day_20240305 "985,00"];
     Cleanup.height := 1000 |}.

(** One day recorded twice. *)
Definition gridOneRepeat : Cleanup.Grid :=
  {| Cleanup.used := [Samples.headerRow;
                      dated Samples.day_20240304 "970,00";
                      dated Samples.day_20240305 "980,00";
                      dated Samples.day_20240304 "975,00"];
     Cleanup.height := 1000 |}.

(** Local midnight of 6 March 2024. *)
Definition day_20240306 : Z := 1709694000000.

(** Three consecutive days, one row each. *)
Definition gridThreeDays : Cleanup.Grid :=
  {| Cleanup.used := [Samples.headerRow;
                      dated Samples.day_20240304 "970,00";
                      dated Samples.day_20240305 "980,00";
                      dated day_20240306 "990,00"];
     Cleanup.height := 1000 |}.

(** Local midnights of 13 and 14 March 2024, and noon of 2 June 2014 (UTC). *)
Definition day_20240313 : Z := 1710298800000.
Definition day_20240314 : Z := 1710385200000.
Definition day_20140602 : Z := 1401710400000.

Definition url_20240313 : string := API_HISTORICAL +:+ "2024/03/13".

(** A network that serves the current quotes and the close of 13 March
    2024, at 2024-03-15T02:00:00Z (23:00 of 14 March in Argentina). *)
Definition worldOpen : World :=
  {| now := Samples.instant_20240315_0200;
     net := fun url => if String.eqb url API_CURRENT || String.eqb url url_20240313
                       then Some Samples.payloadText else None |}.

(** A clock that reads the ISO text of the current instant of
    [worldOpen], the one text the sample payloads make it read. *)
Definition clockOpen : Clock :=
  {| Date_parse := fun s => if String.eqb s (toISOString (now worldOpen))
                            then Some (now worldOpen) else None;
     Date_of_compound := fun _ => Ok None |}.

Definition sheetUntil (t : Z) : Sheet :=
  [Samples.headerRow; [CDate (Some t); CNum 970; CNum 990]].

(** A record that lacks its [Habilitado] field. *)
Definition customerNoHabilitado (cod : string) : Entry :=
  List.filter (fun c => negb (String.eqb (ename c) "Habilitado"))
              (Samples.customer cod).

Definition fileNoFlag : XmlFile :=
  {| fileName := "clientes.xml";
     entriesOf := Ok [Samples.customer "4521"; customerNoHabilitado "4522"] |}.

(** A sheet left by an earlier import of three records, 31 columns wide. *)
Definition oldRow (cod : float) : Row := CNum cod :: replicate 30 (CText "x").

Definition stateThree : State :=
  {| clientes := Some {| rows := [[CText "CodCliente"]; oldRow 1; oldRow 2; oldRow 3];
                         maxRows := 4 |};
     alerts := []; console := []; errorLog := Some [] |}.

Definition fileTwo : XmlFile :=
  {| fileName := "clientes.xml";
     entriesOf := Ok [Samples.customer "4521"; Samples.customer "4522"] |}.

Definition fileFebruary : DriveFile :=
  {| xml := {| fileName := "clientes_febrero.xml";
               entriesOf := Ok [Samples.customer "4521"] |};
     lastUpdated := 1709000000000;
     fileId := "1AbC" |}.

Definition fileMarch : DriveFile :=
  {| xml := {| fileName := "clientes_marzo.xml";
               entriesOf := Ok [Samples.customer "4521"; Samples.customer "4522"] |};
     lastUpdated := 1710400000000;
     fileId := "2DeF" |}.

(** A more recent file that is no XML export. *)
Definition fileNotes : DriveFile :=
  {| xml := {| fileName := "notas.txt"; entriesOf := Throw SyntaxError |};
     lastUpdated := 1710460000000;
     fileId := "3GhI" |}.

Definition driveSample : DriveApp :=
  {| filesOfFolder := fun id => if String.eqb id CUST_FOLDER_ID
                                then Some [fileFebruary; fileNotes; fileMarch]
                                else None;
     getFileById := fun id => if String.eqb id "1AbC" then Some fileFebruary
                              else if String.eqb id "2DeF" then Some fileMarch
                              else None |}.

End Cases.

(* ================================================================== *)
(** * Part VIII: notions used to state the properties                  *)
(* ================================================================== *)

Module Notions.
Import JS Time Dolar Clientes Cleanup Daily Drive.

(** The URLs a run may request: the historical endpoint, for instants of
    the range. *)
Definition dayUrl (s e : Z) (url : string) : Prop :=
  exists t, s <= t <= e /\ url = API_HISTORICAL +:+ formatDate (Some t) "api".

(** The class of a Number under SameValueZero. *)
Definition svz_class (f : float) : spec_float :=
  match Prim2SF f with
  | S754_zero _ => S754_zero false
  | x => x
  end.

Definition flagNames : list string :=
  ["ControlaCredito"; "SF_Moroso"; "SF_Engestionjudicial"; "SF_Incobrable";
   "Habilitado"].

Definition codeOf (e : Entry) : float :=
  parseInt_text (getChildText e "CodCliente").

(** The sheet as [importXMLFileDataCust] leaves it before any row is
    written: columns A to Q cleared below the header. *)
Definition clearedSheet (st : State) : CustSheet :=
  let cs := match clientes st with Some cs => cs | None => newSheet end in
  if 1 <? getLastRow (rows cs)
  then {| rows := clearContentA2Q (rows cs); maxRows := maxRows cs |}
  else cs.

(** The row numbers, from [off + 1] on, of the rows of [l] whose key
    occurs again further down. *)
Fixpoint repeatedBelow (H : Host) (off : nat) (l : list Row) : list Z :=
  match l with
  | [] => []
  | r :: rest =>
      (if bool_decide (rowKey H r ∈ map (rowKey H) rest)
       then [Z.of_nat off + 1] else [])
      ++ repeatedBelow H (S off) rest
  end.

(** The row numbers, from [off + 1] on, of the rows of [l] that pass
    the test [p]. *)
Fixpoint passing (p : Row -> bool) (off : nat) (l : list Row) : list Z :=
  match l with
  | [] => []
  | r :: rest =>
      (if p r then [Z.of_nat off + 1] else []) ++ passing p (S off) rest
  end.

(** The integer a string of decimal digits denotes, leading zeros
    allowed. *)
Definition readZ (s : string) : Z :=
  match NilZero.uint_of_string s with
  | Some u => Z.of_uint u
  | None => -1
  end.

(** Local times of the years 0 to 9999. *)
Definition fourDigitYear (lt : Z) : Prop :=
  -62167219200000 <= lt < 253402300800000.

(** A zone at most one day away from UTC and an instant from 1970 to the
    last days of the year 9999. *)
Definition plausible (tz t : Z) : Prop :=
  Z.abs tz <= msPerDay /\ 0 <= t < 253402214400000.

Definition noSlash (s : string) : Prop :=
  Forall (fun c => c <> "/"%char) (list_ascii_of_string s).

(** A string of decimal digits. *)
Definition digitsOnly (s : string) : bool :=
  forallb is_digit (list_ascii_of_string s).

(** No character of [s] is a separator. *)
Definition free (p : ascii -> bool) (s : string) : bool :=
  forallb (fun c => negb (p c)) (list_ascii_of_string s).

(** What [parseInt(s, 10)] and [Number(s)] make of the two-digit texts,
    as far as [new Date] looks at them. *)
Definition reads_two (n : Z) : bool :=
  let s := pad2 (Some n) in
  digitsOnly s
  && bool_decide (F2Z (parseInt10 s) = Some n)
  && bool_decide (F2Z (parseInt10 s - 1)%float = Some (n - 1))
  && bool_decide (F2Z (Number_str s) = Some n)
  && bool_decide (F2Z (Number_str s - 1)%float = Some (n - 1))
  && bool_decide (F2Z (Number_str s + 12)%float = Some (n + 12))
  && Bool.eqb (Number_str s <? 12)%float (n <? 12)
  && Bool.eqb (Number_str s =? 12)%float (n =? 12).

(** [p] holds of the [n] integers from [lo] on. *)
Fixpoint allFrom (p : Z -> bool) (lo : Z) (n : nat) : bool :=
  match n with
  | O => true
  | S k => p lo && allFrom p (lo + 1) k
  end.

End Notions.

(* ================================================================== *)
(** * Part IX: properties                                              *)
(* ================================================================== *)

Import JS Time Dolar.

(** ** Calendar arithmetic *)

Lemma DayFromYear_step y : DayFromYear (y + 1) - DayFromYear y = DaysInYear y.
Proof.
  unfold DayFromYear, DaysInYear, InLeapYear.
  destruct (y mod 4 =? 0) eqn:E4; destruct (y mod 100 =? 0) eqn:E100;
    destruct (y mod 400 =? 0) eqn:E400; simpl;
    rewrite ?Z.eqb_eq, ?Z.eqb_neq in *; Z.div_mod_to_equations; lia.
Qed.

Lemma YearFromDay_spec d :
  DayFromYear (YearFromDay d) <= d < DayFromYear (YearFromDay d + 1).
Proof.
  unfold YearFromDay.
  set (y0 := 1970 + 400 * d / 146097).
  destruct (DayFromYear (y0 + 1) <=? d) eqn:E1;
    [apply Z.leb_le in E1 | apply Z.leb_gt in E1].
  - split; [lia|]. revert E1. unfold DayFromYear, y0.
    Z.div_mod_to_equations; lia.
  - destruct (DayFromYear y0 <=? d) eqn:E2;
      [apply Z.leb_le in E2 | apply Z.leb_gt in E2].
    + lia.
    + replace (y0 - 1 + 1) with y0 by lia. split; [|lia].
      revert E2. unfold DayFromYear, y0. Z.div_mod_to_equations; lia.
Qed.

Lemma DayWithinYear_range t :
  0 <= DayWithinYear t < DaysInYear (YearFromTime t).
Proof.
  unfold DayWithinYear, YearFromTime.
  pose proof (YearFromDay_spec (Day t)) as Hs.
  pose proof (DayFromYear_step (YearFromDay (Day t))). lia.
Qed.

Lemma MonthFromTime_range t : 0 <= MonthFromTime t <= 11.
Proof.
  unfold MonthFromTime, MonthFromDayInYear.
  repeat match goal with |- context [if ?b then _ else _] => destruct b end; lia.
Qed.

Lemma DateFromTime_range t : 1 <= DateFromTime t <= 31.
Proof.
  pose proof (DayWithinYear_range t) as Hr.
  unfold DateFromTime, MonthFromTime, MonthFromDayInYear, DaysInYear in *.
  destruct (InLeapYear (YearFromTime t)); simpl in *;
    repeat match goal with
           | |- context [if ?x <? ?y then _ else _] =>
               destruct (Z.ltb_spec x y)
           end; simpl; lia.
Qed.

(** The fields determine the day: MakeDay inverts the three readers. *)
Lemma MakeDay_fields t :
  MakeDay (YearFromTime t) (MonthFromTime t) (DateFromTime t) = Day t.
Proof.
  pose proof (MonthFromTime_range t) as Hm.
  unfold MakeDay.
  rewrite (Z.div_small (MonthFromTime t) 12), (Z.mod_small (MonthFromTime t) 12) by lia.
  rewrite Z.add_0_r. unfold DateFromTime, DayWithinYear. lia.
Qed.

Lemma Day_add_days t k : Day (t + k * msPerDay) = Day t + k.
Proof. unfold Day, msPerDay. Z.div_mod_to_equations; lia. Qed.

Lemma TimeWithinDay_add_days t k :
  TimeWithinDay (t + k * msPerDay) = TimeWithinDay t.
Proof. unfold TimeWithinDay, msPerDay. Z.div_mod_to_equations; lia. Qed.

Lemma Day_TimeWithinDay t : Day t * msPerDay + TimeWithinDay t = t.
Proof. unfold Day, TimeWithinDay, msPerDay. Z.div_mod_to_equations; lia. Qed.

Lemma HourFromTime_add_days t k :
  HourFromTime (t + k * msPerDay) = HourFromTime t.
Proof.
  unfold HourFromTime, msPerDay, msPerHour. Z.div_mod_to_equations; lia.
Qed.

Lemma MinFromTime_add_days t k :
  MinFromTime (t + k * msPerDay) = MinFromTime t.
Proof.
  unfold MinFromTime, msPerDay, msPerMinute. Z.div_mod_to_equations; lia.
Qed.

Lemma SecFromTime_add_days t k :
  SecFromTime (t + k * msPerDay) = SecFromTime t.
Proof.
  unfold SecFromTime, msPerDay, msPerSecond. Z.div_mod_to_equations; lia.
Qed.

(** ** Rendering of dates *)

Lemma WeekDay_range (t : Z) : 0 <= WeekDay t < 7.
Proof. unfold WeekDay. apply Z.mod_pos_bound. lia. Qed.

Lemma clock_fields_range (t : Z) :
  0 <= HourFromTime t < 24 /\ 0 <= MinFromTime t < 60 /\ 0 <= SecFromTime t < 60.
Proof.
  unfold HourFromTime, MinFromTime, SecFromTime.
  repeat split; apply Z.mod_pos_bound; lia.
Qed.

(** [formatDate] on a Date that is still valid three hours earlier. *)
Lemma formatDate_layout (t : Z) (mode : string) :
  Z.abs (t - 10800000) <= 8640000000000000 ->
  formatDate (Some t) mode = Inv.layout (t - 10800000) mode.
Proof.
  intros Hv. unfold formatDate, Inv.layout. cbn [mbind option_bind].
  replace (t - 3 * 60 * 60 * 1000) with (t - 10800000) by lia.
  unfold TimeClip.
  destruct (Z.leb_spec (Z.abs (t - 10800000)) 8640000000000000); [|lia].
  cbn [fmap option_fmap option_map getUTCDate getUTCMonth getUTCFullYear
       getUTCHours getUTCMinutes getUTCSeconds getUTCDay num_to_string].
  destruct (String.eqb mode "") eqn:E.
  - apply String.eqb_eq in E. subst mode. reflexivity.
  - reflexivity.
Qed.

(** Otherwise the Date moved back is invalid, and so are all its fields. *)
Lemma formatDate_clipped (t : Z) (mode : string) :
  8640000000000000 < Z.abs (t - 10800000) ->
  formatDate (Some t) mode = formatDate None mode.
Proof.
  intros Hv. unfold formatDate. cbn [mbind option_bind].
  replace (t - 3 * 60 * 60 * 1000) with (t - 10800000) by lia.
  unfold TimeClip.
  destruct (Z.leb_spec (Z.abs (t - 10800000)) 8640000000000000); [lia|].
  reflexivity.
Qed.

Lemma pad2_twoDigits (n : Z) : 0 <= n < 100 -> pad2 (Some n) = Spec.twoDigits n.
Proof.
  assert (Hall : forallb (fun z => String.eqb (pad2 (Some z)) (Spec.twoDigits z))
                         (map Z.of_nat (seq 0 100)) = true)
    by (vm_compute; reflexivity).
  rewrite forallb_forall in Hall. intros Hn.
  apply String.eqb_eq, Hall, in_map_iff. exists (Z.to_nat n).
  split; [lia|]. apply in_seq. lia.
Qed.

Lemma slice_last2_lastTwo (s : string) : slice_last2 s = Spec.lastTwo s.
Proof.
  unfold slice_last2.
  induction s as [|a [|b [|c r]] IH]; try reflexivity.
  change (Spec.lastTwo (String a (String b (String c r))))
    with (Spec.lastTwo (String b (String c r))).
  rewrite <- IH. cbn [String.length].
  replace (S (S (S (String.length r))) - 2)%nat with (S (String.length r)) by lia.
  replace (S (S (String.length r)) - 2)%nat with (String.length r) by lia.
  reflexivity.
Qed.

Lemma weekday_name (n : Z) :
  0 <= n < 7 -> index_str daysOfWeek (Some n) = Spec.weekdayName n.
Proof.
  intros Hn.
  assert (In n [0; 1; 2; 3; 4; 5; 6]) as Hin by (simpl; lia).
  simpl in Hin. repeat destruct Hin as [<-|Hin]; try reflexivity. contradiction.
Qed.

Lemma month_name (n : Z) :
  0 <= n <= 11 -> index_str months (Some n) = Spec.monthName n.
Proof.
  intros Hn.
  assert (In n [0; 1; 2; 3; 4; 5; 6; 7; 8; 9; 10; 11]) as Hin by (simpl; lia).
  simpl in Hin. repeat destruct Hin as [<-|Hin]; try reflexivity. contradiction.
Qed.

(** The layout of the code, field by field, is the one of Section 4.1. *)
Lemma layout_civilRender (a : Z) (mode : string) :
  Inv.layout a mode = Spec.civilRender a mode.
Proof.
  pose proof (MonthFromTime_range a). pose proof (DateFromTime_range a).
  pose proof (WeekDay_range a). pose proof (clock_fields_range a) as (? & ? & ?).
  unfold Inv.layout, Spec.civilRender.
  rewrite !pad2_twoDigits by lia.
  rewrite slice_last2_lastTwo, weekday_name, month_name by lia.
  change (Z_to_string (YearFromTime a)) with (Spec.numeral (YearFromTime a)).
  cbn [List.find fst snd].
  repeat match goal with
         | |- context [String.eqb mode ?m] =>
             let E := fresh "E" in
             destruct (String.eqb mode m) eqn:E;
             [apply String.eqb_eq in E; subst mode; reflexivity|]
         end.
  reflexivity.
Qed.

(** The fields read in UTC are those of the calendar date and of the
    time of day that make up the instant. *)
Lemma fields_recompose (a : Z) :
  MakeDate (MakeDay (YearFromTime a) (MonthFromTime a) (DateFromTime a))
           (MakeTime (HourFromTime a) (MinFromTime a) (SecFromTime a)
                     (msFromTime a))
  = a.
Proof.
  rewrite MakeDay_fields.
  unfold MakeDate, MakeTime, Day, HourFromTime, MinFromTime, SecFromTime,
    msFromTime, msPerDay, msPerHour, msPerMinute, msPerSecond.
  Z.div_mod_to_equations. lia.
Qed.

(** C6 (amended): for every Date from three hours after the earliest
    one on and for every mode, [formatDate] lays out the UTC fields
    (day, month, year, hours, minutes, seconds, weekday) of the instant
    three hours earlier, as Section 4.1 names and prints them, whatever
    the script time zone; these fields are the calendar date and the
    time of day that make up that instant; the clock shown repeats
    every 24 hours all year round (no daylight-saving adjustment);
    2024-03-15T02:00:00Z gives "14/03/24 23:00:00" in mode 'dateTime'
    and the texts below in the other modes, and the days around it and
    the last evening of 2024 get their Spanish names. *)
Theorem formatDate_civil_projection :
  (forall (t : Z) (mode : string),
      Spec.shiftable t ->
      formatDate (Some t) mode = Spec.civilRender (t - 10800000) mode)
  /\ (forall a : Z,
         MakeDate (MakeDay (YearFromTime a) (MonthFromTime a) (DateFromTime a))
                  (MakeTime (HourFromTime a) (MinFromTime a) (SecFromTime a)
                            (msFromTime a)) = a
         /\ 0 <= MonthFromTime a <= 11 /\ 1 <= DateFromTime a <= 31
         /\ 0 <= HourFromTime a < 24 /\ 0 <= MinFromTime a < 60
         /\ 0 <= SecFromTime a < 60 /\ 0 <= msFromTime a < 1000)
  /\ (forall (t k : Z),
         Spec.shiftable t -> Spec.shiftable (t + k * msPerDay) ->
         formatDate (Some (t + k * msPerDay)) "time" = formatDate (Some t) "time")
  /\ formatDate (Some 1710468000000) "dateTime" = "14/03/24 23:00:00"
  /\ formatDate (Some 1710468000000) "verbose" = "Jueves 14 de Marzo de 2024"
  /\ formatDate (Some 1710468000000) "sheet" = "2024-03-14"
  /\ formatDate (Some 1710468000000) "api" = "2024/03/14"
  /\ formatDate (Some 1710468000000) "dayColumn" = "Jueves 14/03/2024"
  /\ formatDate (Some 1710468000000) "verboseLong" = "Jueves 14 de Marzo 23:00:00"
  /\ formatDate (Some 1710468000000) "fullLong" = "Jueves 14-03-24"
  /\ formatDate (Some 1710468000000) "time" = "23:00:00"
  /\ formatDate (Some 1710468000000) "fullLongWithTime"
     = "Jueves 14-03-24 23:00:00"
  /\ formatDate (Some 1710468000000) "" = "14/03/2024"
  /\ formatDate (Some 1710381600000) "verbose"
     = "Mi" +:+ String "233"%char "rcoles 13 de Marzo de 2024"
  /\ formatDate (Some 1710640800000) "verbose"
     = "S" +:+ String "225"%char "bado 16 de Marzo de 2024"
  /\ formatDate (Some 1735695000000) "verbose" = "Martes 31 de Diciembre de 2024".
Proof.
  split; [|split; [|split]].
  - intros t mode Ht. unfold Spec.shiftable in Ht.
    rewrite formatDate_layout by lia. apply layout_civilRender.
  - intros a. pose proof (clock_fields_range a) as (? & ? & ?).
    split; [apply fields_recompose|].
    split; [apply MonthFromTime_range|]. split; [apply DateFromTime_range|].
    repeat split; try lia;
      unfold msFromTime, msPerSecond; apply Z.mod_pos_bound; lia.
  - intros t k Ht Hk. unfold Spec.shiftable in Ht, Hk.
    rewrite !formatDate_layout by lia. unfold Inv.layout.
    cbn [String.eqb Ascii.eqb Bool.eqb].
    replace (t + k * msPerDay - 10800000)
      with (t - 10800000 + k * msPerDay) by lia.
    rewrite HourFromTime_add_days, MinFromTime_add_days, SecFromTime_add_days.
    reflexivity.
  - repeat split; vm_compute; reflexivity.
Qed.

(** C6 (as stated, refuted): a Date of the first three hours of the
    range is not a Date any more once moved back by three hours, so
    [formatDate] prints the fields of an invalid Date; the earliest Date
    gets the key "NaN-aN-aN", while the UTC fields of the instant three
    hours before it are those of 19 April of the year -271821. *)
Lemma formatDate_earliest_dates :
  (forall (t : Z) (mode : string),
      -8640000000000000 <= t < -8639999989200000 ->
      formatDate (Some t) mode = formatDate None mode)
  /\ TimeClip (-8640000000000000) = Some (-8640000000000000)
  /\ formatDate (Some (-8640000000000000)) "sheet" = "NaN-aN-aN"
  /\ formatDate (Some (-8640000000000000)) "dateTime" = "aN/aN/aN aN:aN:aN"
  /\ Spec.civilRender (-8640000000000000 - 10800000) "sheet" = "-271821-04-19".
Proof.
  split.
  - intros t mode Ht. apply formatDate_clipped. lia.
  - repeat split; vm_compute; reflexivity.
Qed.

(** ** The normalizers *)

Lemma find_casa_entries casa l :
  Forall (fun v => Spec.isEntry v = true) l ->
  exists v, find_casa casa l = Ok v /\ (v = VUndef \/ Spec.isEntry v = true).
Proof.
  induction 1 as [|d r Hd Hr IH]; simpl.
  - eauto.
  - destruct d; try discriminate. simpl.
    destruct (is_string (assoc "casa" fields) casa); eauto.
Qed.

Lemma findValue_entries casa l :
  Forall (fun v => Spec.isEntry v = true) l ->
  exists p, findValue l casa = Ok p.
Proof.
  intros Hl. unfold findValue.
  destruct (find_casa_entries casa l Hl) as (v & -> & [-> | Hv]); simpl.
  - eauto.
  - destruct v; try discriminate. simpl. eauto.
Qed.

(** On a payload of entries the historical normalizer returns a record:
    each price is the parsed value, or 0 when that value is NaN or
    zero, and 0 when no entry bears the name. *)
Lemma processHistoricalApiData_entries (w : World) (l : list JsVal) :
  Forall (fun v => Spec.isEntry v = true) l ->
  exists v, processHistoricalApiData w (VArr l) = Ok v.
Proof.
  intros Hl. unfold processHistoricalApiData.
  destruct (find_casa_entries "oficial" l Hl) as (a & -> & _).
  destruct (find_casa_entries "blue" l Hl) as (b & -> & _).
  destruct (find_casa_entries "bolsa" l Hl) as (c & -> & _).
  destruct (find_casa_entries "mayorista" l Hl) as (d & -> & _).
  destruct (find_casa_entries "cripto" l Hl) as (e & -> & _).
  simpl. eauto.
Qed.

Lemma processCurrentApiData_entries (H : Host) (w : World) (l : list JsVal) :
  Forall (fun v => Spec.isEntry v = true) l ->
  exists v, processCurrentApiData H w (VArr l) = Ok v.
Proof.
  intros Hl. unfold processCurrentApiData. simpl.
  destruct (findValue_entries "oficial" l Hl) as (a & ->).
  destruct (findValue_entries "blue" l Hl) as (b & ->).
  destruct (findValue_entries "bolsa" l Hl) as (c & ->).
  destruct (findValue_entries "cripto" l Hl) as (d & ->).
  destruct (findValue_entries "mayorista" l Hl) as (e & ->).
  simpl.
  destruct l as [|x r]; simpl; [eauto|].
  inversion Hl as [|? ? Hx _]; subst. destruct x; try discriminate. simpl. eauto.
Qed.

Lemma processHistoricalApiData_breach (w : World) (data : JsVal) (v : Values) :
  processHistoricalApiData w data = Ok v ->
  blueOficialBreach v
  = (if (oficialVenta v =? 0)%float then PrimFloat.zero
     else ((blueVenta v - oficialVenta v) / oficialVenta v)%float)
  /\ blueMepBreach v
     = (if (mepVenta v =? 0)%float then PrimFloat.zero
        else ((blueVenta v - mepVenta v) / mepVenta v)%float).
Proof.
  unfold processHistoricalApiData. destruct data; try discriminate.
  destruct (find_casa "oficial" l); [|discriminate].
  destruct (find_casa "blue" l); [|discriminate].
  destruct (find_casa "bolsa" l); [|discriminate].
  destruct (find_casa "mayorista" l); [|discriminate].
  destruct (find_casa "cripto" l); [|discriminate].
  simpl. intros [= <-]. simpl.
  split.
  - destruct (PrimFloat.eqb _ _); reflexivity.
  - destruct (PrimFloat.eqb _ _); reflexivity.
Qed.

Lemma processCurrentApiData_breach (H : Host) (w : World) (data : JsVal)
  (v : Values) :
  processCurrentApiData H w data = Ok v ->
  blueOficialBreach v
  = (((blueVenta v - oficialVenta v) / oficialVenta v) * 100)%float
  /\ blueMepBreach v = (((blueVenta v - mepVenta v) / mepVenta v) * 100)%float.
Proof.
  unfold processCurrentApiData.
  destruct (match data with VStr s => _ | _ => _ end) as [d1|]; [|discriminate].
  cbn [bind].
  destruct (match d1 with VArr l => _ | _ => _ end) as [l|]; [|discriminate].
  cbn [bind].
  destruct (findValue l "oficial"); [|discriminate]. cbn [bind].
  destruct (findValue l "blue"); [|discriminate]. cbn [bind].
  destruct (findValue l "bolsa"); [|discriminate]. cbn [bind].
  destruct (findValue l "cripto"); [|discriminate]. cbn [bind].
  destruct (findValue l "mayorista"); [|discriminate]. cbn [bind].
  destruct (if truthy (first_elem l) then _ else _); [|discriminate].
  cbn [bind]. intros [= <-]. simpl. split; reflexivity.
Qed.

(** Two Numbers that the IEEE comparison tells apart are different. *)
Ltac float_discriminate :=
  let E := fresh in
  intro E;
  match type of E with
  | ?a = ?b => apply (f_equal (fun x => PrimFloat.eqb x b)) in E
  end;
  vm_compute in E; discriminate E.

(** C2 (as stated, refuted): on a payload with oficial venta = 1000 and
    blue venta = 1500, processCurrentApiData yields blueOficialBreach =
    50, not 0.5. *)
Lemma spread_current_is_percentage :
  exists v, processCurrentApiData Samples.hostAR Samples.worldSample
                                  Samples.payload = Ok v
            /\ oficialVenta v = 1000%float /\ blueVenta v = 1500%float
            /\ blueOficialBreach v = 50%float
            /\ blueOficialBreach v <> 0.5%float.
Proof.
  eexists. split; [vm_compute; reflexivity|].
  cbn [oficialVenta blueVenta blueOficialBreach].
  repeat split. float_discriminate.
Qed.

(** C2 (amended): on every payload of entries both normalizers return a
    record; processHistoricalApiData sets each spread to
    (blue.venta - x.venta) / x.venta, and to 0 when x.venta is zero;
    processCurrentApiData sets it, when x.venta is not zero, to that
    ratio times 100.  With oficial venta = 1000 and blue venta = 1500 the
    historical spread is 0.5 and the current one 50. *)
Theorem spread_computation (H : Host) (w : World) (l : list JsVal) :
  Forall (fun v => Spec.isEntry v = true) l ->
  (exists v, processHistoricalApiData w (VArr l) = Ok v
     /\ blueOficialBreach v
        = (if (oficialVenta v =? 0)%float then PrimFloat.zero
           else ((blueVenta v - oficialVenta v) / oficialVenta v)%float)
     /\ blueMepBreach v
        = (if (mepVenta v =? 0)%float then PrimFloat.zero
           else ((blueVenta v - mepVenta v) / mepVenta v)%float))
  /\ (exists v, processCurrentApiData H w (VArr l) = Ok v
        /\ ((oficialVenta v =? 0)%float = false ->
            blueOficialBreach v
            = (((blueVenta v - oficialVenta v) / oficialVenta v) * 100)%float)
        /\ ((mepVenta v =? 0)%float = false ->
            blueMepBreach v
            = (((blueVenta v - mepVenta v) / mepVenta v) * 100)%float))
  /\ (exists v, processHistoricalApiData w Samples.payload = Ok v
        /\ oficialVenta v = 1000%float /\ blueVenta v = 1500%float
        /\ blueOficialBreach v = 0.5%float)
  /\ (exists v, processCurrentApiData H w Samples.payload = Ok v
        /\ oficialVenta v = 1000%float /\ blueVenta v = 1500%float
        /\ blueOficialBreach v = 50%float).
Proof.
  intros Hl. repeat split.
  - destruct (processHistoricalApiData_entries w l Hl) as (v & Hv).
    exists v. split; [exact Hv|]. exact (processHistoricalApiData_breach _ _ _ Hv).
  - destruct (processCurrentApiData_entries H w l Hl) as (v & Hv).
    exists v. split; [exact Hv|].
    destruct (processCurrentApiData_breach _ _ _ _ Hv) as [E1 E2].
    split; intros _; assumption.
  - eexists. split; [reflexivity|]. repeat split.
  - eexists. split; [reflexivity|]. repeat split.
Qed.

Lemma spread_computation_witness :
  Forall (fun v => Spec.isEntry v = true)
         [Samples.entry "oficial" (VNum 980) (VNum 1000);
          Samples.entry "blue" (VNum 1480) (VNum 1500)]
  /\ exists v, processHistoricalApiData Samples.worldSample Samples.payload = Ok v
               /\ blueOficialBreach v = 0.5%float.
Proof.
  assert (Hl : Forall (fun v => Spec.isEntry v = true)
                 [Samples.entry "oficial" (VNum 980) (VNum 1000);
                  Samples.entry "blue" (VNum 1480) (VNum 1500)])
    by (repeat constructor).
  split; [exact Hl|].
  destruct (spread_computation Samples.hostAR Samples.worldSample _ Hl)
    as (_ & _ & (v & Hv & _ & _ & Hb) & _).
  exists v. split; assumption.
Defined.

(** C3 (the code at the failing input): with the official buy price
    [null], processCurrentApiData returns a record whose oficialCompra
    is NaN, where processHistoricalApiData returns 0. *)
Theorem current_normalizer_keeps_NaN :
  (exists v, processCurrentApiData Samples.hostAR Samples.worldSample
                                   Samples.payloadNullCompra = Ok v
             /\ PrimFloat.is_nan (oficialCompra v) = true)
  /\ (exists v, processHistoricalApiData Samples.worldSample
                                         Samples.payloadNullCompra = Ok v
                /\ oficialCompra v = PrimFloat.zero).
Proof.
  split; eexists; (split; [vm_compute; reflexivity|]); reflexivity.
Qed.

Lemma find_casa_absent casa l :
  Forall (fun v => Spec.isEntry v = true) l ->
  Forall (fun v => Spec.named casa v = false) l ->
  find_casa casa l = Ok VUndef.
Proof.
  induction 1 as [|d r Hd Hr IH]; intros Hn; simpl; [reflexivity|].
  inversion Hn as [|? ? Hd' Hr']; subst.
  destruct d; try discriminate. simpl in *.
  unfold Spec.named, get_prop_opt, get_prop in Hd'. rewrite Hd'. auto.
Qed.

Lemma or_zero_not_nan f : PrimFloat.is_nan (or_zero f) = false.
Proof.
  unfold or_zero, truthy_num.
  destruct (PrimFloat.is_nan f) eqn:E; simpl; [reflexivity|].
  destruct (PrimFloat.is_zero f); simpl; [reflexivity|assumption].
Qed.

(** The sibling path: what processHistoricalApiData does on a sparse
    payload.  No price is ever NaN, and an instrument with no entry gets
    0 for both prices; processCurrentApiData agrees on the second. *)
Lemma normalizers_sparse (H : Host) (w : World) (l : list JsVal) :
  Forall (fun v => Spec.isEntry v = true) l ->
  (exists v, processHistoricalApiData w (VArr l) = Ok v
     /\ Forall (fun f => PrimFloat.is_nan f = false)
          [oficialCompra v; oficialVenta v; blueCompra v; blueVenta v;
           mepCompra v; mepVenta v; criptoCompra v; criptoVenta v;
           mayoristaCompra v; mayoristaVenta v]
     /\ (Forall (fun e => Spec.named "cripto" e = false) l ->
         criptoCompra v = PrimFloat.zero /\ criptoVenta v = PrimFloat.zero))
  /\ (exists v, processCurrentApiData H w (VArr l) = Ok v
        /\ (Forall (fun e => Spec.named "cripto" e = false) l ->
            criptoCompra v = PrimFloat.zero /\ criptoVenta v = PrimFloat.zero)).
Proof.
  intros Hl. split.
  - unfold processHistoricalApiData.
    destruct (find_casa_entries "oficial" l Hl) as (a & -> & _).
    destruct (find_casa_entries "blue" l Hl) as (b & -> & _).
    destruct (find_casa_entries "bolsa" l Hl) as (c & -> & _).
    destruct (find_casa_entries "mayorista" l Hl) as (d & -> & _).
    destruct (find_casa "cripto" l) as [e|] eqn:Ee;
      [|destruct (find_casa_entries "cripto" l Hl) as (? & ? & _); congruence].
    cbn [bind]. eexists. split; [reflexivity|]. cbn -[or_zero parseFloat].
    split.
    + repeat constructor; apply or_zero_not_nan.
    + intros Hn. rewrite (find_casa_absent _ _ Hl Hn) in Ee.
      injection Ee as <-. split; reflexivity.
  - unfold processCurrentApiData. cbn [bind].
    destruct (findValue_entries "oficial" l Hl) as (a & ->).
    destruct (findValue_entries "blue" l Hl) as (b & ->).
    destruct (findValue_entries "bolsa" l Hl) as (c & ->).
    destruct (findValue l "cripto") as [d|] eqn:Ed;
      [|destruct (findValue_entries "cripto" l Hl) as (? & ?); congruence].
    destruct (findValue_entries "mayorista" l Hl) as (e & ->).
    cbn [bind].
    assert (Hf : exists f, (if truthy (first_elem l)
                            then match get_prop (first_elem l) "fechaActualizacion" with
                                 | Some v => Ok v
                                 | None => Throw TypeError
                                 end
                            else Ok (VStr (toISOString (now w)))) = Ok f).
    { destruct l as [|x r]; simpl; [eauto|].
      inversion Hl as [|? ? Hx _]; subst. destruct x; try discriminate.
      simpl. eauto. }
    destruct Hf as (f & ->). cbn [bind].
    eexists. split; [reflexivity|]. cbn.
    intros Hn. unfold findValue in Ed.
    rewrite (find_casa_absent _ _ Hl Hn) in Ed. cbn in Ed.
    injection Ed as <-. split; reflexivity.
Qed.

(** ** The HTTP client *)

Lemma getCachedOrFetch_hit (w : World) (url v : string) (ttl : Z) (st : Store) :
  cache_get w st url = Some v ->
  getCachedOrFetch w url ttl st = (Ok v, st).
Proof. intros E. unfold getCachedOrFetch. rewrite E. reflexivity. Qed.

(** A miss followed by a successful fetch: one network call, and the text
    stays served from the cache until [ttl] seconds have passed. *)
Lemma getCachedOrFetch_miss (w : World) (url text : string) (ttl : Z) (st : Store) :
  cache_get w st url = None -> net w url = Some text ->
  exists st', getCachedOrFetch w url ttl st = (Ok text, st')
    /\ fetches st' = fetches st ++ [url]
    /\ forall w', now w' < now w + ttl * 1000 -> cache_get w' st' url = Some text.
Proof.
  intros E N. unfold getCachedOrFetch. rewrite E, N.
  eexists. split; [reflexivity|]. split; [reflexivity|].
  intros w' Hw. unfold cache_get, cache_put. cbn [cache].
  rewrite lookup_insert_eq.
  destruct (Z.ltb_spec (now w') (now w + ttl * 1000)); [reflexivity|lia].
Qed.

Lemma getCachedOrFetch_miss_failure (w : World) (url : string) (ttl : Z)
  (st : Store) :
  cache_get w st url = None -> net w url = None ->
  getCachedOrFetch w url ttl st
  = (Throw fetchFailed, {| cache := cache st; fetches := fetches st ++ [url] |}).
Proof.
  intros E N. unfold getCachedOrFetch. rewrite E, N. reflexivity.
Qed.

(** C7 (the code at the failing input): on a cache miss with a failing
    fetch, getCachedOrFetch performs the one fetch and then throws; it
    does not return null, and nothing is cached. *)
Theorem getCachedOrFetch_throws_on_failure (w : World) (url : string)
  (ttl : Z) (st : Store) :
  cache_get w st url = None -> net w url = None ->
  exists st',
    getCachedOrFetch w url ttl st = (Throw fetchFailed, st')
    /\ fetches st' = fetches st ++ [url]
    /\ cache st' = cache st.
Proof.
  intros E N. rewrite getCachedOrFetch_miss_failure by assumption.
  eexists. repeat split.
Qed.

Lemma getCachedOrFetch_throws_witness :
  exists st',
    getCachedOrFetch Samples.worldOffline Samples.url_20240305 defaultCacheTime
                     Samples.emptyStore = (Throw fetchFailed, st')
    /\ fetches st' = [Samples.url_20240305].
Proof.
  destruct (getCachedOrFetch_throws_on_failure Samples.worldOffline
              Samples.url_20240305 defaultCacheTime Samples.emptyStore)
    as (st' & E & F & _); [reflexivity|reflexivity|].
  exists st'. split; assumption.
Defined.

(** The caller turns that exception into its "no data" answer. *)
Lemma fetchDataFromApis_offline (H : Host) (w : World) (d : Date)
  (apiType : string) (st : Store) :
  (forall url, net w url = None) -> (forall url, cache_get w st url = None) ->
  fst (fetchDataFromApis H w d apiType st) = None.
Proof.
  intros N C. unfold fetchDataFromApis.
  rewrite getCachedOrFetch_miss_failure by auto. reflexivity.
Qed.

(** ** User-entered dates *)

(** The accepted shapes, at an instant of the year 2024. *)
Lemma parseCustomDate_shapes :
  let midnight_15_march : result Date := Ok (Some 1710471600000) in
  parseCustomDate Samples.hostAR Samples.worldSample "15/03" = midnight_15_march
  /\ parseCustomDate Samples.hostAR Samples.worldSample "15-03" = midnight_15_march
  /\ parseCustomDate Samples.hostAR Samples.worldSample "15/03/24" = midnight_15_march
  /\ parseCustomDate Samples.hostAR Samples.worldSample "15-03-2024" = midnight_15_march
  /\ parseCustomDate Samples.hostAR Samples.worldSample "15032024"
     = Throw (Error invalidFormatMsg)
  /\ parseCustomDate Samples.hostAR Samples.worldSample "1/2/3/4"
     = Throw (Error invalidFormatMsg)
  /\ parseCustomDate Samples.hostAR Samples.worldSample "dd/mm"
     = Throw (Error invalidDateMsg).
Proof. repeat split; vm_compute; reflexivity. Qed.

(** C5 (the code at the failing input): "31/04/2024" names a day April
    does not have; parseCustomDate does not throw, it returns local
    midnight of 1 May 2024. *)
Theorem parseCustomDate_rolls_over :
  parseCustomDate Samples.hostAR Samples.worldSample "31/04/2024"
  = Ok (Some 1714532400000)
  /\ formatDate (Some 1714532400000) "sheet" = "2024-05-01"
  /\ parseCustomDate Samples.hostAR Samples.worldSample "01/05/2024"
     = Ok (Some 1714532400000).
Proof. repeat split; vm_compute; reflexivity. Qed.

(** ** Validation of a range *)

Lemma validateDate_cases (d lo hi : Date) :
  (exists m, validateDate d lo hi = Throw (Error m))
  \/ (validateDate d lo hi = Ok tt
      /\ exists t, d = Some t /\ date_lt d lo = false /\ date_gt d hi = false).
Proof.
  unfold validateDate. destruct d as [t|].
  - rewrite bool_decide_eq_true_2 by eauto. cbn [negb].
    destruct (date_lt (Some t) lo) eqn:E1; cbn [orb]; [eauto|].
    destruct (date_gt (Some t) hi) eqn:E2; [eauto|].
    right. split; [reflexivity|]. exists t. auto.
  - rewrite bool_decide_eq_false_2 by (intros [? ?]; discriminate).
    cbn [negb]. eauto.
Qed.

Lemma validateDate_outOfRange (w : World) (d : Date) :
  Spec.outOfRange w d ->
  exists m, validateDate d minDate2015 (Some (now w)) = Throw (Error m).
Proof.
  intros Ho.
  destruct (validateDate_cases d minDate2015 (Some (now w)))
    as [Hs | (_ & t & -> & Hlo & Hhi)]; [exact Hs|].
  exfalso. unfold date_gt, date_lt, minDate2015 in *. simpl in Ho.
  apply Z.ltb_ge in Hlo. apply Z.ltb_ge in Hhi. lia.
Qed.

(** The first two statements of [updateHistoricalValues] reject a range
    whose start exceeds its end, or with a bound outside
    [2015-01-01, now]. *)
Lemma range_rejected (w : World) (s e : Date) :
  date_gt s e = true \/ Spec.outOfRange w s \/ Spec.outOfRange w e ->
  (exists m, validateDate s minDate2015 (Some (now w)) = Throw (Error m))
  \/ (validateDate s minDate2015 (Some (now w)) = Ok tt
      /\ exists m, validateDate e s (Some (now w)) = Throw (Error m)).
Proof.
  intros Hbad.
  destruct (validateDate_cases s minDate2015 (Some (now w)))
    as [Hs | (Hs & ts & -> & Hlo & Hhi)]; [left; exact Hs|].
  right. split; [exact Hs|].
  destruct (validateDate_cases e (Some ts) (Some (now w)))
    as [He | (_ & te & -> & Hlo' & Hhi')]; [exact He|].
  exfalso. unfold date_gt, date_lt, minDate2015 in *.
  apply Z.ltb_ge in Hlo, Hhi, Hlo', Hhi'.
  destruct Hbad as [Hg | [Ho | Ho]].
  - apply Z.ltb_lt in Hg. lia.
  - simpl in Ho. lia.
  - simpl in Ho. lia.
Qed.

(** C4: when the start date is after the end date, or either date is
    outside [2015-01-01, now], updateHistoricalValues returns an error
    result and leaves the sheet (and the cache) as they were; on the
    updateDollarsByRange path the same dates end in the date-problem
    alert, again with the sheet untouched. *)
Theorem range_validation_atomic (H : Host) (w : World) (sheet : Sheet)
  (st : Store) (s e : Date) :
  date_gt s e = true \/ Spec.outOfRange w s \/ Spec.outOfRange w e ->
  (exists msg,
      updateHistoricalValues H w sheet s e st = (HistError msg, sheet, st))
  /\ (forall (target : option Sheet) (sText eText : string),
         parseCustomDate H w sText = Ok s ->
         parseCustomDate H w eText = Ok e ->
         exists msg,
           updateDollarsByRange H w target (Some sText) (Some eText) st
           = ([AlertDatesProblem msg], target, st)).
Proof.
  intros Hbad. split.
  - unfold updateHistoricalValues.
    destruct (range_rejected w s e Hbad) as [(m & ->) | (-> & m & ->)];
      simpl; eauto.
  - intros target sText eText Ps Pe.
    unfold updateDollarsByRange. rewrite Ps, Pe.
    unfold validateDateRange.
    destruct (date_gt s e) eqn:Eg; [eauto|].
    destruct Hbad as [Hg | [Ho | Ho]]; [discriminate| |].
    + destruct (validateDate_outOfRange w s Ho) as (m & ->). eauto.
    + destruct (validateDate_cases s minDate2015 (Some (now w)))
        as [(m & ->) | (-> & _)]; [eauto|].
      destruct (validateDate_outOfRange w e Ho) as (m & ->). eauto.
Qed.

Lemma range_validation_atomic_witness :
  exists msg,
    updateHistoricalValues Samples.hostAR Samples.worldSample Samples.sheetTwice
      (Some Samples.day_20240305) (Some Samples.day_20240304) Samples.emptyStore
    = (HistError msg, Samples.sheetTwice, Samples.emptyStore).
Proof.
  apply (range_validation_atomic Samples.hostAR Samples.worldSample
           Samples.sheetTwice Samples.emptyStore
           (Some Samples.day_20240305) (Some Samples.day_20240304)).
  left. reflexivity.
Defined.

(** ** The write-back phase *)

Lemma setRow_length (sheet : Sheet) (r : Z) (d : Row) :
  length (setRow sheet r d) = length sheet.
Proof. unfold setRow. apply length_alter. Qed.

Lemma applyUpdates_spec (updates : list Update) (sheet : Sheet) (adds : list Row) :
  exists sheet1,
    applyUpdates sheet updates adds
    = (sheet1,
       adds ++ map rowData
                 (List.filter (fun u => negb (Spec.inUsedRange sheet u)) updates))
    /\ length sheet1 = length sheet.
Proof.
  unfold applyUpdates.
  revert sheet adds. induction updates as [|u us IH]; intros sheet adds.
  - simpl. exists sheet. rewrite app_nil_r. auto.
  - cbn [fold_left applyUpdate List.filter].
    unfold Spec.inUsedRange at 1.
    destruct ((0 <? row u) && (row u <=? getLastRow sheet)) eqn:E; cbn [negb].
    + destruct (IH (setRow sheet (row u) (rowData u)) adds) as (s1 & E1 & L1).
      exists s1. rewrite E1. split.
      * f_equal. f_equal. f_equal. apply filter_ext. intros a.
        unfold Spec.inUsedRange, getLastRow. rewrite setRow_length. reflexivity.
      * rewrite L1. apply setRow_length.
    + destruct (IH sheet (adds ++ [rowData u])) as (s1 & E1 & L1).
      exists s1. rewrite E1. split; [|exact L1].
      f_equal. cbn [map]. rewrite <- app_assoc. reflexivity.
Qed.

Lemma sortSheetByDate_Permutation (H : Host) (sheet : Sheet) :
  sortSheetByDate H sheet ≡ₚ sheet.
Proof.
  destruct sheet as [|h r]; simpl; [reflexivity|].
  constructor. apply merge_sort_Permutation.
Qed.

(** In the write-back, an update whose row is not between 1 and the
    last used row keeps its place in the update list and its data joins
    the rows appended in bulk. *)
Lemma writeBack_redirects (H : Host) (sheet : Sheet) (updates : list Update)
  (adds : list Row) :
  let redirected :=
    List.filter (fun x => negb (Spec.inUsedRange sheet x)) updates in
  exists sheet',
    writeBack H sheet updates adds
    = (HistSuccess (length updates) (length adds + length redirected), sheet')
    /\ Forall (fun x => rowData x ∈ sheet') redirected.
Proof.
  intros redirected. unfold writeBack.
  destruct (applyUpdates_spec updates sheet adds) as (s1 & -> & L1).
  fold redirected.
  eexists. split.
  - rewrite length_app, length_map. reflexivity.
  - apply Forall_forall. intros x Hx.
    rewrite (sortSheetByDate_Permutation H).
    unfold appendRows.
    assert (Hne : (0 <? length (adds ++ map rowData redirected))%nat = true).
    { apply Nat.ltb_lt. rewrite length_app, length_map.
      destruct redirected; [inversion Hx|simpl; lia]. }
    rewrite Hne. apply elem_of_app. right. apply elem_of_app. right.
    apply list_elem_of_fmap. exists x. auto.
Qed.

(** ** The customer import *)

Import Clientes.

Lemma scanDuplicates_grows (vs seen dups : list float) :
  dups <> [] -> scanDuplicates vs seen dups <> [].
Proof.
  revert seen dups. induction vs as [|v r IH]; intros seen dups Hd; simpl.
  - exact Hd.
  - destruct (mem v seen).
    + apply IH. destruct (mem v dups); [exact Hd|].
      destruct dups; [congruence|discriminate].
    + apply IH. exact Hd.
Qed.

Lemma mem_app_l (v : float) (s t : list float) :
  mem v s = true -> mem v (s ++ t) = true.
Proof. unfold mem. rewrite existsb_app. intros ->. reflexivity. Qed.

Lemma mem_last (v x : float) (s : list float) :
  same_value_zero v x = true -> mem v (s ++ [x]) = true.
Proof.
  unfold mem. rewrite existsb_app. intros E. simpl. rewrite E.
  rewrite orb_true_r. reflexivity.
Qed.

Lemma record_duplicate_nonempty (v x : float) (dups : list float) :
  (if mem v dups then dups else dups ++ [x]) <> [].
Proof.
  destruct dups as [|d ds]; [simpl; discriminate|].
  destruct (mem v (d :: ds)); discriminate.
Qed.

(** A [Set] holds a value equal, for its own equality, to the one added. *)
Lemma svz_set_key (a b : float) :
  same_value_zero a (set_key b) = same_value_zero a b.
Proof.
  unfold set_key. destruct (PrimFloat.is_zero b) eqn:Hz; [|reflexivity].
  unfold same_value_zero, PrimFloat.is_nan, PrimFloat.is_zero in *.
  rewrite !FloatAxioms.eqb_spec in *.
  change (Prim2SF PrimFloat.zero) with (S754_zero false) in *.
  destruct (Prim2SF b) as [sb|sb| |sb mb eb]; try destruct sb;
    cbv in Hz; try discriminate Hz;
    destruct (Prim2SF a) as [sa|sa| |sa ma ea]; reflexivity.
Qed.

Lemma scanDuplicates_seen (vs seen dups : list float) (b : float) :
  b ∈ vs -> mem b seen = true -> scanDuplicates vs seen dups <> [].
Proof.
  revert seen dups. induction vs as [|v r IH]; intros seen dups Hb Hm.
  - inversion Hb.
  - simpl. destruct (mem v seen) eqn:Ev.
    + apply scanDuplicates_grows, record_duplicate_nonempty.
    + apply elem_of_cons in Hb as [-> | Hb]; [congruence|].
      apply IH; [exact Hb|]. apply mem_app_l. exact Hm.
Qed.

Lemma scanDuplicates_pair (vs seen dups : list float) (i j : nat) (a b : float) :
  (i < j)%nat -> vs !! i = Some a -> vs !! j = Some b ->
  same_value_zero b a = true ->
  scanDuplicates vs seen dups <> [].
Proof.
  revert i j seen dups.
  induction vs as [|v r IH]; intros i j seen dups Hij Hi Hj E.
  - discriminate.
  - destruct j as [|j]; [lia|]. simpl in Hj. simpl.
    destruct i as [|i].
    + injection Hi as ->. destruct (mem a seen).
      * apply scanDuplicates_grows, record_duplicate_nonempty.
      * apply (scanDuplicates_seen r _ _ b).
        -- apply list_elem_of_lookup. eauto.
        -- apply mem_last. rewrite svz_set_key. exact E.
    + simpl in Hi. destruct (mem v seen); eapply (IH i j); eauto; lia.
Qed.

(** A value that repeats an earlier one (for the equality of [Set])
    makes [findDuplicatesCust] return a non-empty array. *)
Lemma findDuplicatesCust_nonempty (vs : list float) (i j : nat) (a b : float) :
  (i < j)%nat -> vs !! i = Some a -> vs !! j = Some b ->
  same_value_zero b a = true ->
  findDuplicatesCust vs <> [].
Proof. unfold findDuplicatesCust. apply scanDuplicates_pair. Qed.

Lemma overwrite_lookup (data olds : list Row) (k : nat) (r : Row) :
  data !! k = Some r ->
  exists r', overwrite olds data !! k = Some r' /\ take (length r) r' = r.
Proof.
  revert olds k. induction data as [|d ds IH]; intros olds k Hk.
  - discriminate.
  - destruct k as [|k]; simpl in Hk.
    + injection Hk as ->. destruct olds as [|o os]; simpl.
      * exists r. split; [reflexivity|]. apply firstn_all.
      * exists (r ++ drop (length r) o). split; [reflexivity|].
        rewrite take_app_length. reflexivity.
    + destruct olds as [|o os]; simpl; apply IH; exact Hk.
Qed.

(** When the import returns rows, they are the rows of [mapEntries] and
    each lies in the sheet, from row 2 on. *)
Lemma importXMLFileDataCust_written (H : Host) (entries : list Entry)
  (st st1 : State) (data : list Row) :
  importXMLFileDataCust H entries st = (Ok data, st1) ->
  data <> [] ->
  mapEntries H entries = Ok data
  /\ alerts st1 = alerts st /\ console st1 = console st
  /\ errorLog st1 = errorLog st
  /\ exists cs, clientes st1 = Some cs
       /\ forall k r, data !! k = Some r ->
            exists r', rows cs !! S k = Some r' /\ take (length r) r' = r.
Proof.
  unfold importXMLFileDataCust. intros E Hne.
  destruct (mapEntries H entries) as [rows0|]; [|discriminate].
  destruct (0 <? length rows0)%nat eqn:El.
  - injection E as <- <-. cbn [withSheet alerts console errorLog clientes].
    repeat split. eexists. split; [reflexivity|].
    intros k r Hk. cbn [rows]. unfold setValuesFromRow2.
    match goal with |- context [match ?s with [] => _ | _ => _ end] =>
      destruct s as [|h rest] end; simpl; apply overwrite_lookup; exact Hk.
  - injection E as <- <-. congruence.
Qed.

(** C8 (as stated, refuted): a file whose second record has 30 children
    is not rejected: with the user confirming, both records are written
    and the completion summary is shown. *)
Lemma schema_gate_checks_first_only :
  (exists e, e ∈ [Samples.customer "4521"; Samples.customerNoZona "4522"]
             /\ length e <> 31%nat)
  /\ exists st',
       prepareAndImportXMLFileCust Samples.hostAR Samples.worldSample
         Samples.fileMixed true Samples.stateEmpty = (Some 2, st')
       /\ alerts st' = [ConfirmAlert 2 "clientes.xml"; CompletedAlert 2 0]
       /\ exists cs, clientes st' = Some cs /\ length (rows cs) = 3%nat
            /\ (cell0 <$> rows cs !! 2%nat) = Some (CNum 4522).
Proof.
  split.
  - exists (Samples.customerNoZona "4522"). split.
    + apply elem_of_cons. right. apply elem_of_cons. left. reflexivity.
    + vm_compute. discriminate.
  - eexists. split; [vm_compute; reflexivity|].
    split; [reflexivity|]. eexists. split; [reflexivity|].
    split; reflexivity.
Qed.

(** C8 (amended): if the first record of a parsed file does not have
    exactly 31 children, prepareAndImportXMLFileCust shows the format
    alert and returns without asking, importing or writing anything:
    the sheet, the console and the error log stay as they were. *)
Theorem schema_gate_first_record (H : Host) (w : World) (file : XmlFile)
  (confirm : bool) (st : State) (first : Entry) (rest : list Entry) :
  entriesOf file = Ok (first :: rest) ->
  length first <> 31%nat ->
  exists st',
    prepareAndImportXMLFileCust H w file confirm st = (None, st')
    /\ alerts st' = alerts st ++ [FormatAlert]
    /\ clientes st' = clientes st
    /\ console st' = console st
    /\ errorLog st' = errorLog st.
Proof.
  intros E Hn. unfold prepareAndImportXMLFileCust. rewrite E.
  destruct (Nat.eqb_spec (length first) 31) as [|_]; [contradiction|].
  cbn [negb]. eexists. split; [reflexivity|]. repeat split.
Qed.

Lemma schema_gate_first_record_witness :
  exists st',
    prepareAndImportXMLFileCust Samples.hostAR Samples.worldSample
      {| fileName := "clientes.xml";
         entriesOf := Ok [Samples.customerNoZona "4521"; Samples.customer "4522"] |}
      true Samples.stateEmpty = (None, st')
    /\ clientes st' = clientes Samples.stateEmpty.
Proof.
  destruct (schema_gate_first_record Samples.hostAR Samples.worldSample
              {| fileName := "clientes.xml";
                 entriesOf := Ok [Samples.customerNoZona "4521";
                                  Samples.customer "4522"] |}
              true Samples.stateEmpty
              (Samples.customerNoZona "4521") [Samples.customer "4522"])
    as (st' & E & _ & Hc & _).
  - reflexivity.
  - vm_compute. discriminate.
  - exists st'. split; assumption.
Defined.

(** C9: when the first record passes the field count, the user confirms
    and the import returns rows in which some customerCode repeats an
    earlier one, prepareAndImportXMLFileCust ends in its catch branch:
    it returns 0, the last alert is the import error naming the unbound
    [sheetCust], the error goes to the console and to the error log
    (when that sheet exists), no completion summary is shown, and every
    imported row is already in the sheet, from row 2 on. *)
Theorem duplicates_end_in_catch (H : Host) (w : World) (file : XmlFile)
  (st st1 : State) (entries : list Entry) (data : list Row)
  (i j : nat) (a b : float) :
  entriesOf file = Ok entries ->
  match entries with
  | first :: _ => length first = 31%nat
  | [] => True
  end ->
  importXMLFileDataCust H entries
    (alert st (ConfirmAlert (length entries) (fileName file))) = (Ok data, st1) ->
  (i < j)%nat ->
  firstNumber <$> data !! i = Some a ->
  firstNumber <$> data !! j = Some b ->
  same_value_zero b a = true ->
  prepareAndImportXMLFileCust H w file true st
  = (Some 0,
     {| clientes := clientes st1;
        alerts := alerts st ++ [ConfirmAlert (length entries) (fileName file);
                                ImportErrorAlert "sheetCust is not defined"];
        console := console st ++ [ReferenceError "sheetCust"];
        errorLog := (fun l => l ++ [(now w, "sheetCust is not defined")])
                      <$> errorLog st |})
  /\ exists cs, clientes st1 = Some cs
       /\ forall k r, data !! k = Some r ->
            exists r', rows cs !! S k = Some r' /\ take (length r) r' = r.
Proof.
  intros E Hgate Himp Hij Hi Hj Hsame.
  assert (Hne : data <> []).
  { destruct data; [discriminate|discriminate]. }
  destruct (importXMLFileDataCust_written _ _ _ _ _ Himp Hne)
    as (_ & Ha & Hc & Hl & Hrows).
  split; [|exact Hrows].
  unfold prepareAndImportXMLFileCust. rewrite E.
  assert (Hb : match entries with
               | firstEntry :: _ => negb (length firstEntry =? 31)%nat
               | [] => false
               end = false).
  { destruct entries; [reflexivity|]. rewrite Hgate. reflexivity. }
  rewrite Hb. cbn [negb]. rewrite Himp.
  assert (Hd : (0 <? length (findDuplicatesCust (map firstNumber data)))%nat = true).
  { apply Nat.ltb_lt.
    pose proof (findDuplicatesCust_nonempty (map firstNumber data) i j a b Hij) as Hf.
    rewrite !list_lookup_fmap in Hf. specialize (Hf Hi Hj Hsame).
    destruct (findDuplicatesCust (map firstNumber data)); [congruence|simpl; lia]. }
  rewrite Hd. unfold onImportError, logErrorCust, alert.
  cbn [clientes alerts console errorLog error_message].
  rewrite Ha, Hc, Hl. cbn [alert alerts]. rewrite <- app_assoc. reflexivity.
Qed.

Lemma duplicates_end_in_catch_witness :
  exists st',
    prepareAndImportXMLFileCust Samples.hostAR Samples.worldSample
      Samples.fileDuplicated true Samples.stateEmpty = (Some 0, st')
    /\ alerts st' = [ConfirmAlert 2 "clientes.xml";
                     ImportErrorAlert "sheetCust is not defined"].
Proof.
  destruct (importXMLFileDataCust Samples.hostAR
              [Samples.customer "4521"; Samples.customer "4521"]
              (alert Samples.stateEmpty (ConfirmAlert 2 "clientes.xml")))
    as [[data|e] st1] eqn:Himp; [|vm_compute in Himp; discriminate].
  destruct (duplicates_end_in_catch Samples.hostAR Samples.worldSample
              Samples.fileDuplicated Samples.stateEmpty st1
              [Samples.customer "4521"; Samples.customer "4521"] data
              0%nat 1%nat 4521%float 4521%float) as [E _].
  - reflexivity.
  - reflexivity.
  - exact Himp.
  - lia.
  - vm_compute in Himp. injection Himp as <- _. reflexivity.
  - vm_compute in Himp. injection Himp as <- _. reflexivity.
  - reflexivity.
  - eexists. split; [exact E|]. reflexivity.
Defined.

(** ** Sortable keys *)

Lemma Z_to_string_inj (a b : Z) : Z_to_string a = Z_to_string b -> a = b.
Proof.
  unfold Z_to_string. intros E.
  assert (Hn : forall z, Z.to_int z <> Decimal.Pos Decimal.Nil
                         /\ Z.to_int z <> Decimal.Neg Decimal.Nil).
  { intros [|p|p]; simpl; split; try discriminate;
      intros [= Hp]; exact (Unsigned.to_uint_nonnil p Hp). }
  apply (f_equal NilZero.int_of_string) in E.
  rewrite !NilZero.isi in E by apply Hn.
  injection E as E. rewrite <- (DecimalZ.of_to a), <- (DecimalZ.of_to b), E.
  reflexivity.
Qed.

Lemma string_length_app (a b : string) :
  String.length (a +:+ b) = (String.length a + String.length b)%nat.
Proof. induction a; simpl; [reflexivity|congruence]. Qed.

Lemma string_app_inj_suffix (a a' b b' : string) :
  String.length b = String.length b' -> a +:+ b = a' +:+ b' -> a = a' /\ b = b'.
Proof.
  revert a'. induction a as [|c a IH]; intros [|c' a'] Hl E;
    change (String.append EmptyString ?x) with x in E; simpl in E.
  - auto.
  - apply (f_equal String.length) in E. simpl in E.
    rewrite string_length_app in E. lia.
  - apply (f_equal String.length) in E. simpl in E.
    rewrite string_length_app in E. lia.
  - injection E as -> E. destruct (IH a' Hl E) as [-> ->]. auto.
Qed.

Lemma below_100_listed n : 0 <= n < 100 -> In n (map Z.of_nat (seq 0 100)).
Proof.
  intros Hn. apply in_map_iff. exists (Z.to_nat n).
  split; [lia|]. apply in_seq. lia.
Qed.

Lemma pad2_length n : 0 <= n < 100 -> String.length (pad2 (Some n)) = 2%nat.
Proof.
  intros Hn.
  assert (Hall : forallb (fun z => (String.length (pad2 (Some z)) =? 2)%nat)
                         (map Z.of_nat (seq 0 100)) = true)
    by (vm_compute; reflexivity).
  rewrite forallb_forall in Hall.
  apply Nat.eqb_eq, Hall, below_100_listed, Hn.
Qed.

Lemma pad2_inj a b :
  0 <= a < 100 -> 0 <= b < 100 -> pad2 (Some a) = pad2 (Some b) -> a = b.
Proof.
  intros Ha Hb E.
  assert (Hall : forallb (fun x => forallb (fun y =>
             implb (String.eqb (pad2 (Some x)) (pad2 (Some y))) (x =? y))
               (map Z.of_nat (seq 0 100))) (map Z.of_nat (seq 0 100)) = true)
    by (vm_compute; reflexivity).
  rewrite forallb_forall in Hall.
  specialize (Hall a (below_100_listed a Ha)).
  rewrite forallb_forall in Hall.
  specialize (Hall b (below_100_listed b Hb)).
  rewrite E, String.eqb_refl in Hall. simpl in Hall. apply Z.eqb_eq, Hall.
Qed.

Lemma pad2_not_aN (n : Z) : 0 <= n < 100 -> pad2 (Some n) <> "aN".
Proof.
  intros Hn E. rewrite pad2_twoDigits in E by exact Hn.
  unfold Spec.twoDigits in E. injection E as E _.
  apply (f_equal nat_of_ascii) in E. unfold Spec.digitChar in E.
  rewrite nat_ascii_embedding in E.
  - change (nat_of_ascii "a") with 97%nat in E.
    assert (n / 10 < 10) by (apply Z.div_lt_upper_bound; lia). lia.
  - assert (0 <= n / 10 < 10)
      by (split; [apply Z.div_pos|apply Z.div_lt_upper_bound]; lia).
    lia.
Qed.

(** A year, a month and a day joined by a separator determine the
    three. *)
Lemma dateKey_inj (sep : ascii) (y1 y2 m1 m2 d1 d2 : Z) :
  0 <= m1 < 100 -> 0 <= m2 < 100 -> 0 <= d1 < 100 -> 0 <= d2 < 100 ->
  Z_to_string y1 +:+ String sep (pad2 (Some m1) +:+ String sep (pad2 (Some d1)))
  = Z_to_string y2 +:+ String sep (pad2 (Some m2) +:+ String sep (pad2 (Some d2))) ->
  y1 = y2 /\ m1 = m2 /\ d1 = d2.
Proof.
  intros Hm1 Hm2 Hd1 Hd2 E.
  apply string_app_inj_suffix in E as [Ey E].
  2:{ cbn [String.length]. rewrite !string_length_app. cbn [String.length].
      rewrite !pad2_length by lia. reflexivity. }
  injection E as E.
  apply string_app_inj_suffix in E as [Em E].
  2:{ cbn [String.length]. rewrite !pad2_length by lia. reflexivity. }
  injection E as Ed.
  apply Z_to_string_inj in Ey. apply pad2_inj in Em; [|lia|lia].
  apply pad2_inj in Ed; [|lia|lia]. auto.
Qed.

(** Such a key is not the one of an invalid Date. *)
Lemma dateKey_not_NaN (sep : ascii) (y m d : Z) :
  0 <= d < 100 ->
  Z_to_string y +:+ String sep (pad2 (Some m) +:+ String sep (pad2 (Some d)))
  <> "NaN" +:+ String sep ("aN" +:+ String sep "aN").
Proof.
  intros Hd E.
  apply (f_equal (fun s => string_of_list_ascii
                             (rev (firstn 2 (rev (list_ascii_of_string s)))))) in E.
  revert E.
  assert (Hlast : forall a b : string, String.length b = 2%nat ->
            string_of_list_ascii
              (rev (firstn 2 (rev (list_ascii_of_string (a +:+ String sep b))))) = b).
  { intros a b Hb. destruct b as [|c1 [|c2 [|c3 b]]]; try discriminate Hb.
    assert (El : list_ascii_of_string (a +:+ String sep (String c1 (String c2 "")))
                 = (list_ascii_of_string a ++ [sep]) ++ [c1; c2]).
    { induction a as [|c a IH]; [reflexivity|].
      change (String c a +:+ ?x) with (String c (a +:+ x)).
      cbn [list_ascii_of_string]. rewrite IH. reflexivity. }
    rewrite El, rev_app_distr. reflexivity. }
  change ("NaN" +:+ String sep ("aN" +:+ String sep "aN"))
    with (("NaN" +:+ String sep "aN") +:+ String sep "aN").
  rewrite (Hlast ("NaN" +:+ String sep "aN") "aN" eq_refl).
  replace (Z_to_string y +:+ String sep (pad2 (Some m) +:+ String sep (pad2 (Some d))))
    with ((Z_to_string y +:+ String sep (pad2 (Some m))) +:+ String sep (pad2 (Some d))).
  - rewrite Hlast by (apply pad2_length; lia). apply pad2_not_aN, Hd.
  - generalize (Z_to_string y). intros a.
    induction a as [|c a IH]; [reflexivity|].
    change (String c a +:+ ?x) with (String c (a +:+ x)).
    change (String c ?a +:+ ?x) with (String c (a +:+ x)). rewrite IH.
    reflexivity.
Qed.

Lemma formatDate_invalid_keys :
  formatDate None "sheet" = "NaN-aN-aN" /\ formatDate None "api" = "NaN/aN/aN".
Proof. split; reflexivity. Qed.

(** Instants with the same sortable key fall on the same civil day; a
    key of a Date that stays valid when moved back is not the key of one
    that does not. *)
Lemma sheetKey_inj (t1 t2 : Z) :
  Inv.kept t1 ->
  Spec.sheetKey t1 = Spec.sheetKey t2 ->
  Inv.kept t2 /\ Spec.civilDay t1 = Spec.civilDay t2.
Proof.
  unfold Spec.sheetKey, Spec.civilDay, Inv.kept. intros H1 E.
  rewrite formatDate_layout in E by exact H1.
  set (a1 := t1 - 10800000) in *.
  pose proof (MonthFromTime_range a1). pose proof (DateFromTime_range a1).
  unfold Inv.layout in E. cbn [String.eqb Ascii.eqb Bool.eqb] in E.
  destruct (Z_le_gt_dec (Z.abs (t2 - 10800000)) 8640000000000000) as [H2|H2].
  - split; [exact H2|].
    rewrite formatDate_layout in E by exact H2.
    set (a2 := t2 - 10800000) in *.
    pose proof (MonthFromTime_range a2). pose proof (DateFromTime_range a2).
    unfold Inv.layout in E. cbn [String.eqb Ascii.eqb Bool.eqb] in E.
    apply (dateKey_inj "-") in E as (Ey & Em & Ed); try lia.
    rewrite <- (MakeDay_fields a1), <- (MakeDay_fields a2).
    rewrite Ey, Ed. replace (MonthFromTime a1) with (MonthFromTime a2) by lia.
    reflexivity.
  - exfalso. rewrite formatDate_clipped in E by lia.
    rewrite (proj1 formatDate_invalid_keys) in E.
    apply (dateKey_not_NaN "-") in E; [exact E|lia].
Qed.


(** [setDate(getDate() + 1)] moves a Date forward by exactly one day. *)
Lemma nextDay_spec (H : Host) (t : Z) :
  nextDay H (Some t) = TimeClip (t + msPerDay).
Proof.
  unfold nextDay, setDate, getDate. cbn [fmap option_fmap option_map].
  f_equal. unfold UTC, MakeDate, LocalTime.
  set (lt := t + tz H).
  assert (E : MakeDay (YearFromTime lt) (MonthFromTime lt) (DateFromTime lt + 1)
              = Day lt + 1).
  { rewrite <- (MakeDay_fields lt). unfold MakeDay. lia. }
  rewrite E. pose proof (Day_TimeWithinDay lt). unfold lt in *. lia.
Qed.

(** ** The snapshot of existing rows *)

Lemma snapshot_keys (H : Host) (E : list Row) (k : string) :
  k ∈ (rev (map (fun r => (rowKey H r, r)) E)).*1 <-> k ∈ map (rowKey H) E.
Proof.
  rewrite !list_elem_of_In. unfold fmap, list_fmap.
  change (In k (map fst (rev (map (fun r => (rowKey H r, r)) E)))
          <-> In k (map (rowKey H) E)).
  rewrite !in_map_iff. split.
  - intros ([k' r] & <- & Hin). apply in_rev, in_map_iff in Hin as (r0 & [= <- <-] & Hr).
    exists r0. auto.
  - intros (r & <- & Hin). exists (rowKey H r, r). split; [reflexivity|].
    apply in_rev. rewrite rev_involutive. apply in_map_iff. eauto.
Qed.

Lemma has_existingDates (H : Host) (E : list Row) (k : string) :
  has (existingDatesOf H E) k = true <-> k ∈ map (rowKey H) E.
Proof.
  unfold has, existingDatesOf. rewrite bool_decide_eq_true.
  rewrite <- not_eq_None_Some, <- not_elem_of_list_to_map, snapshot_keys.
  split; [|auto].
  intros Hn. destruct (decide (k ∈ map (rowKey H) E)); [assumption|contradiction].
Qed.

Lemma findIndex_found {A} (p : A -> bool) (l : list A) (x : A) :
  x ∈ l -> p x = true ->
  exists i y, findIndex p l = Z.of_nat i /\ l !! i = Some y /\ p y = true.
Proof.
  induction l as [|a r IH]; intros Hin Hp.
  - inversion Hin.
  - simpl. destruct (p a) eqn:Ea.
    + exists 0%nat, a. auto.
    + apply elem_of_cons in Hin as [-> | Hin]; [congruence|].
      destruct (IH Hin Hp) as (i & y & -> & Hy & Hpy).
      exists (S i), y. split; [|auto].
      destruct (Z.ltb_spec (Z.of_nat i) 0); lia.
Qed.

(** The first cell of a prepared row is the day label. *)
Lemma prepareHistoricalRowData_label (w : World) (d : Date) (r : ApiResponse)
  (rd : Row) :
  prepareHistoricalRowData w d r = Some rd ->
  exists rest, rd = CText (formatDate d "dayColumn") :: rest.
Proof.
  unfold prepareHistoricalRowData.
  destruct (negb (truthy (data r))); [discriminate|].
  destruct (processHistoricalApiData w (data r)); [|discriminate].
  intros [= <-]. eauto.
Qed.


(** What one turn of the loop queues. *)
Lemma visitDay_cases (H : Host) (w : World) (E : list Row) (t : Z) (q : Queues) :
  let q' := visitDay H w E (Some t) q in
  match Spec.dayRow H w (store q) t with
  | None => rowsToUpdate q' = rowsToUpdate q /\ rowsToAdd q' = rowsToAdd q
  | Some rd =>
      (exists rest, rd = CText (formatDate (Some t) "dayColumn") :: rest)
      /\ ((exists i r0,
              E !! i = Some r0 /\ rowKey H r0 = Spec.sheetKey t
              /\ rowsToUpdate q'
                 = rowsToUpdate q ++ [{| row := Z.of_nat i + 1; rowData := rd |}]
              /\ rowsToAdd q' = rowsToAdd q)
          \/ ((Spec.sheetKey t ∉ map (rowKey H) E)
              /\ rowsToUpdate q' = rowsToUpdate q
              /\ rowsToAdd q' = rowsToAdd q ++ [rd]))
  end.
Proof.
  unfold visitDay, Spec.dayRow.
  destruct (fetchDataFromApis H w (Some t) "historical" (store q)) as [[r|] st'];
    [|simpl; auto].
  destruct (prepareHistoricalRowData w (Some t) r) as [rd|] eqn:Ep; [|simpl; auto].
  split; [exact (prepareHistoricalRowData_label _ _ _ _ Ep)|].
  fold (Spec.sheetKey t).
  destruct (has (existingDatesOf H E) (Spec.sheetKey t)) eqn:Eh.
  - left. apply has_existingDates in Eh.
    apply list_elem_of_fmap in Eh as (r0 & Hk & Hin).
    destruct (findIndex_found (fun r => String.eqb (rowKey H r) (Spec.sheetKey t))
                E r0 Hin) as (i & y & Ei & Hy & Hp).
    { rewrite <- Hk. apply String.eqb_refl. }
    apply String.eqb_eq in Hp.
    exists i, y. cbn [rowsToUpdate rowsToAdd]. rewrite Ei. auto.
  - right. cbn [rowsToUpdate rowsToAdd]. split; [|auto].
    intros Hin. apply has_existingDates in Hin. congruence.
Qed.

(** ** The loop *)

Lemma collectDays_invalid (fuel : nat) (H : Host) (w : World) (E : list Row)
  (e : Date) (q : Queues) :
  collectDays fuel H w E e None q = q.
Proof. destruct fuel; reflexivity. Qed.

(** The bound on the turns is never what stops the loop: with more turns
    allowed the result is the same. *)
Lemma collectDays_fuel_enough (H : Host) (w : World) (E : list Row) (e : Z)
  (extra : nat) :
  forall (fuel : nat) (t : Z) (q : Queues),
    (e - t) / msPerDay + 1 <= Z.of_nat fuel ->
    collectDays (fuel + extra) H w E (Some e) (Some t) q
    = collectDays fuel H w E (Some e) (Some t) q.
Proof.
  induction fuel as [|f IH]; intros t q Hf.
  - assert (Hlt : e < t).
    { unfold msPerDay in Hf. destruct (Z.lt_ge_cases e t); [assumption|].
      exfalso. Z.div_mod_to_equations. lia. }
    destruct extra; [reflexivity|]. simpl.
    destruct (Z.leb_spec t e); [lia|reflexivity].
  - cbn [Nat.add collectDays date_le].
    destruct (Z.leb_spec t e); [|reflexivity].
    rewrite nextDay_spec. unfold TimeClip.
    destruct (Z.abs (t + msPerDay) <=? 8640000000000000).
    + apply IH. unfold msPerDay in *.
      replace (e - (t + 86400000)) with (e - t + (-1) * 86400000) by lia.
      rewrite Z.div_add by lia. lia.
    + rewrite !collectDays_invalid. reflexivity.
Qed.


Lemma queuesOk_weaken (H : Host) (E : list Row) (b b' : Z) (q : Queues) :
  b <= b' -> Inv.queuesOk H E b q -> Inv.queuesOk H E b' q.
Proof.
  intros Hb (Hu & Ha & Hn). split; [exact Hu|]. split; [|exact Hn].
  eapply Forall_impl; [exact Ha|]. cbn. intros r (Hr & t' & Ht & Hk & Hlt).
  split; [exact Hr|]. exists t'. split; [exact Ht|]. split; [exact Hk|lia].
Qed.




(** ** Writing back *)





Lemma sortSheetByDate_length (H : Host) (sheet : Sheet) :
  length (sortSheetByDate H sheet) = length sheet.
Proof. apply Permutation_length, sortSheetByDate_Permutation. Qed.

Lemma validateDate_ok (t lo hi : Z) :
  lo <= t <= hi -> validateDate (Some t) (Some lo) (Some hi) = Ok tt.
Proof.
  intros Ht. unfold validateDate, date_gt, date_lt.
  rewrite bool_decide_eq_true_2 by eauto. cbn [negb].
  destruct (Z.ltb_spec t lo); [lia|]. destruct (Z.ltb_spec hi t); [lia|].
  reflexivity.
Qed.

Lemma dayCount_single (t : Z) : dayCount (Some t) (Some t) = 1%nat.
Proof. unfold dayCount. rewrite Z.sub_diag. reflexivity. Qed.


(** ** What the loop queues *)

Lemma prepareHistoricalRowData_width (w : World) (d : Date) (r : ApiResponse)
  (rd : Row) :
  prepareHistoricalRowData w d r = Some rd -> length rd = columnCount.
Proof.
  unfold prepareHistoricalRowData.
  destruct (negb (truthy (data r))); [discriminate|].
  destruct (processHistoricalApiData w (data r)); [|discriminate].
  intros [= <-]. reflexivity.
Qed.

Lemma row_20240305_prepared :
  Spec.dayRow Samples.hostAR Samples.worldSample Samples.emptyStore
              Samples.day_20240305 = Some Samples.row_20240305.
Proof. vm_compute. reflexivity. Qed.

Lemma dayRow_width (H : Host) (w : World) (st : Store) (t : Z) (rd : Row) :
  Spec.dayRow H w st t = Some rd -> length rd = columnCount.
Proof.
  unfold Spec.dayRow.
  destruct (fetchDataFromApis H w (Some t) "historical" st) as [[r|] ?];
    [|discriminate].
  apply prepareHistoricalRowData_width.
Qed.

Lemma visitDay_wellQueued (H : Host) (w : World) (E : list Row) (t : Z)
  (q : Queues) :
  Inv.wellQueued E q -> Inv.wellQueued E (visitDay H w E (Some t) q).
Proof.
  intros [Hu Ha].
  pose proof (visitDay_cases H w E t q) as Hc. cbv zeta in Hc.
  destruct (Spec.dayRow H w (store q) t) as [rd|] eqn:Er.
  - pose proof (dayRow_width _ _ _ _ _ Er) as Hw.
    destruct Hc as (_ & [(i & r0 & Hi & _ & Eu & Ea) | (_ & Eu & Ea)]).
    + split; [|rewrite Ea; exact Ha].
      rewrite Eu. apply Forall_app. split; [exact Hu|].
      constructor; [|constructor]. cbn [row rowData]. split; [|exact Hw].
      pose proof (lookup_lt_Some _ _ _ Hi).
      unfold Spec.inUsedRange, getLastRow. cbn [row].
      apply andb_true_intro. split; [apply Z.ltb_lt|apply Z.leb_le]; lia.
    + split; [rewrite Eu; exact Hu|].
      rewrite Ea. apply Forall_app. split; [exact Ha|].
      constructor; [exact Hw|constructor].
  - destruct Hc as [Eu Ea]. split; [rewrite Eu|rewrite Ea]; assumption.
Qed.

(** Within one run the loop never queues an update outside the used
    range of its snapshot. *)
Lemma collectDays_wellQueued (H : Host) (w : World) (E : list Row) (e : Date) :
  forall (fuel : nat) (c : Date) (q : Queues),
    Inv.wellQueued E q -> Inv.wellQueued E (collectDays fuel H w E e c q).
Proof.
  induction fuel as [|f IH]; intros c q Hq; [exact Hq|].
  cbn [collectDays]. destruct c as [t|]; [|exact Hq].
  destruct (date_le (Some t) e); [|exact Hq].
  apply IH, visitDay_wellQueued, Hq.
Qed.

(** A turn of the loop queues one row at most. *)
Lemma visitDay_queues_one (H : Host) (w : World) (E : list Row) (c : Date)
  (q : Queues) :
  (length (rowsToUpdate (visitDay H w E c q))
   + length (rowsToAdd (visitDay H w E c q))
   <= S (length (rowsToUpdate q) + length (rowsToAdd q)))%nat.
Proof.
  unfold visitDay.
  destruct (fetchDataFromApis H w c "historical" (store q)) as [[r|] st];
    cbn [rowsToUpdate rowsToAdd]; [|lia].
  destruct (prepareHistoricalRowData w c r) as [rd|];
    cbn [rowsToUpdate rowsToAdd]; [|lia].
  destruct (has _ _); cbn [rowsToUpdate rowsToAdd];
    rewrite length_app; simpl; lia.
Qed.

Lemma collectDays_queues (H : Host) (w : World) (E : list Row) (e : Date) :
  forall (fuel : nat) (c : Date) (q : Queues),
    (length (rowsToUpdate (collectDays fuel H w E e c q))
     + length (rowsToAdd (collectDays fuel H w E e c q))
     <= fuel + (length (rowsToUpdate q) + length (rowsToAdd q)))%nat.
Proof.
  induction fuel as [|k IH]; intros c q; simpl; [lia|].
  destruct (date_le c e); [|lia].
  specialize (IH (nextDay H c) (visitDay H w E c q)).
  pose proof (visitDay_queues_one H w E c q). lia.
Qed.

Lemma no_update_redirected (sheet : Sheet) (updates : list Update) :
  Forall (fun u => Spec.inUsedRange sheet u = true
                   /\ length (rowData u) = columnCount) updates ->
  List.filter (fun u => negb (Spec.inUsedRange sheet u)) updates = [].
Proof.
  induction 1 as [|x l [Hx _] _ IH]; simpl; [reflexivity|].
  rewrite Hx. exact IH.
Qed.

(** The count of turns computed from the two dates is enough. *)
Lemma dayCount_enough (H : Host) (w : World) (E : list Row) (s e : Z)
  (q : Queues) (extra : nat) :
  collectDays (dayCount (Some s) (Some e) + extra) H w E (Some e) (Some s) q
  = collectDays (dayCount (Some s) (Some e)) H w E (Some e) (Some s) q.
Proof. apply collectDays_fuel_enough. unfold dayCount. lia. Qed.

(** The two provisos of the range algorithm: a sheet without rows makes
    the run fail, and a day without API data is skipped. *)
Lemma run_on_empty_sheet (H : Host) (w : World) (st : Store) (d : Z) :
  1420070400000 <= d <= now w ->
  updateHistoricalValues H w [] (Some d) (Some d) st
  = (HistError noDataMsg, [], st).
Proof.
  intros Hd. unfold updateHistoricalValues, minDate2015.
  rewrite !validateDate_ok by lia. reflexivity.
Qed.

Lemma run_without_data :
  exists st',
    updateHistoricalValues Samples.hostAR Samples.worldOffline
      Samples.sheetHeader (Some Samples.day_20240305)
      (Some Samples.day_20240305) Samples.emptyStore
    = (HistSuccess 0 0, Samples.sheetHeader, st').
Proof. eexists. vm_compute. reflexivity. Qed.


(** ** Reconciliation of a range *)




(** The hypothesis on the store cannot be dropped: where the written
    label does not read back as a date, the second run over the same day
    appends a second row. *)
Lemma second_run_appends_when_label_unreadable :
  exists res1 sheet1 st1 res2 sheet2 st2,
    updateHistoricalValues Samples.hostTextOnly Samples.worldSample
      Samples.sheetHeader (Some Samples.day_20240305)
      (Some Samples.day_20240305) Samples.emptyStore = (res1, sheet1, st1)
    /\ updateHistoricalValues Samples.hostTextOnly Samples.worldLater sheet1
         (Some Samples.day_20240305) (Some Samples.day_20240305) st1
       = (res2, sheet2, st2)
    /\ res1 = HistSuccess 0 1 /\ res2 = HistSuccess 0 1
    /\ length sheet1 = 2%nat /\ length sheet2 = 3%nat.
Proof.
  do 6 eexists. split; [vm_compute; reflexivity|].
  split; [vm_compute; reflexivity|]. repeat split.
Qed.



(** ** A sheet edited during the run *)

Lemma updateHistoricalValues_alone (H : Host) (w : World) (sheet : Sheet)
  (s e : Date) (st : Store) :
  updateHistoricalValues H w sheet s e st
  = updateHistoricalValuesShared H w sheet sheet s e st.
Proof. reflexivity. Qed.

(** What the loop queues for a day that has data and whose key is in
    the snapshot: an update of the first row that bears the key. *)
Lemma visitDay_found (H : Host) (w : World) (E : list Row) (st : Store)
  (d : Z) (rd : Row) :
  Spec.dayRow H w st d = Some rd ->
  Spec.sheetKey d ∈ map (rowKey H) E ->
  let q := visitDay H w E (Some d)
             {| rowsToUpdate := []; rowsToAdd := []; store := st |} in
  rowsToUpdate q
  = [{| row := findIndex (fun r => String.eqb (rowKey H r) (Spec.sheetKey d)) E + 1;
        rowData := rd |}]
  /\ rowsToAdd q = [].
Proof.
  intros Hrow Hin. unfold Spec.dayRow in Hrow. unfold visitDay.
  cbn [store].
  destruct (fetchDataFromApis H w (Some d) "historical" st) as [[r|] st1];
    [|discriminate].
  rewrite Hrow. fold (Spec.sheetKey d).
  apply has_existingDates in Hin. rewrite Hin. split; reflexivity.
Qed.

(** C10: let a run of updateHistoricalValues take its snapshot of a
    sheet that holds [later] when the rows are written.  Every queued
    update whose row is not between 1 and the last row of [later] keeps
    its place in the update list and is written as a new row by the
    bulk append, so it is counted in both totals: the run reports as
    many updated rows as updates were queued, and as many added rows as
    additions were queued plus the updates redirected, while the loop
    queued at most one row per day; nothing is redirected when the
    sheet has not changed.  In particular, over a single day that has
    data and whose row in the snapshot lies below the last row of
    [later], the run reports 1 updated and 1 added row and appends the
    row to [later], where the same run on an unchanged sheet reports 1
    and 0. *)
Theorem invalid_update_counted_twice (H : Host) :
  (forall (w : World) (sheet later : Sheet) (st : Store) (s e : Z),
      sheet <> [] -> 1420070400000 <= s -> s <= e -> e <= now w ->
      let q := Spec.queued H w sheet s e st in
      let redirected :=
        List.filter (fun u => negb (Spec.inUsedRange later u)) (rowsToUpdate q) in
      exists sheet',
        updateHistoricalValuesShared H w sheet later (Some s) (Some e) st
        = (HistSuccess (length (rowsToUpdate q))
                       (length (rowsToAdd q) + length redirected),
           sheet', store q)
        /\ Forall (fun u => rowData u ∈ sheet') redirected
        /\ (length (rowsToUpdate q) + length (rowsToAdd q)
            <= dayCount (Some s) (Some e))%nat
        /\ (later = sheet -> redirected = []))
  /\ (forall (w : World) (sheet later : Sheet) (st : Store) (d : Z) (rd : Row),
         sheet <> [] -> 1420070400000 <= d <= now w ->
         Spec.dayRow H w st d = Some rd ->
         Spec.sheetKey d ∈ map (rowKey H) sheet ->
         getLastRow later
         < findIndex (fun r => String.eqb (rowKey H r) (Spec.sheetKey d)) sheet + 1 ->
         exists st',
           updateHistoricalValuesShared H w sheet later (Some d) (Some d) st
           = (HistSuccess 1 1, sortSheetByDate H (later ++ [rd]), st')
           /\ fst (fst (updateHistoricalValues H w sheet (Some d) (Some d) st))
              = HistSuccess 1 0).
Proof.
  split.
  - intros w sheet later st s e Hne Hs Hse He q redirected.
    unfold updateHistoricalValuesShared, minDate2015.
    rewrite !validateDate_ok by lia.
    unfold getSheetData, getLastRow.
    destruct (Z.ltb_spec (Z.of_nat (length sheet)) 1) as [Hlen|_].
    { destruct sheet; [congruence|simpl in Hlen; lia]. }
    fold (Spec.queued H w sheet s e st). fold q.
    destruct (writeBack_redirects H later (rowsToUpdate q) (rowsToAdd q))
      as (sheet' & -> & Hw).
    exists sheet'. split; [reflexivity|]. split; [exact Hw|]. split.
    + pose proof (collectDays_queues H w sheet (Some e)
                    (dayCount (Some s) (Some e)) (Some s)
                    {| rowsToUpdate := []; rowsToAdd := []; store := st |}) as Hq.
      cbn [rowsToUpdate rowsToAdd length] in Hq. unfold q, Spec.queued. lia.
    + intros ->. apply no_update_redirected.
      apply (collectDays_wellQueued H w sheet (Some e)).
      split; constructor.
  - intros w sheet later st d rd Hne Hd Hrow Hin Hshort.
    destruct (visitDay_found H w sheet st d rd Hrow Hin) as [Eu Ea].
    set (q0 := {| rowsToUpdate := []; rowsToAdd := []; store := st |}) in *.
    set (r := findIndex _ sheet + 1) in *.
    assert (Hlen : (Z.of_nat (length sheet) <? 1) = false).
    { apply Z.ltb_ge. destruct sheet; [congruence|simpl; lia]. }
    exists (store (visitDay H w sheet (Some d) q0)). split.
    + unfold updateHistoricalValuesShared, minDate2015.
      rewrite !validateDate_ok by lia.
      unfold getSheetData, getLastRow. rewrite Hlen.
      rewrite dayCount_single. cbn [collectDays date_le].
      rewrite Z.leb_refl. fold q0. rewrite Eu, Ea.
      unfold writeBack, applyUpdates. cbn [fold_left applyUpdate row rowData].
      destruct (Z.leb_spec r (getLastRow later)); [lia|].
      rewrite andb_false_r. cbn [app appendRows length Nat.ltb Nat.leb].
      reflexivity.
    + unfold updateHistoricalValues, minDate2015.
      rewrite !validateDate_ok by lia.
      unfold getSheetData, getLastRow. rewrite Hlen.
      rewrite dayCount_single. cbn [collectDays date_le].
      rewrite Z.leb_refl. fold q0. rewrite Eu, Ea.
      unfold writeBack, applyUpdates. cbn [fold_left applyUpdate row rowData].
      apply list_elem_of_fmap in Hin as (r0 & Hk & Hin).
      destruct (findIndex_found (fun x => String.eqb (rowKey H x) (Spec.sheetKey d))
                  sheet r0 Hin) as (i & y & Ei & Hy & _).
      { rewrite <- Hk. apply String.eqb_refl. }
      pose proof (lookup_lt_Some _ _ _ Hy) as Hlt.
      fold r. unfold r. rewrite Ei.
      destruct (Z.ltb_spec 0 (Z.of_nat i + 1)); [|lia].
      destruct (Z.leb_spec (Z.of_nat i + 1) (getLastRow sheet));
        [|unfold getLastRow in *; lia].
      reflexivity.
Qed.

(** The row of 5 March 2024 is in the snapshot; another user removes it
    before the rows are written. *)
Lemma invalid_update_counted_twice_witness :
  exists st',
    updateHistoricalValuesShared Samples.hostAR Samples.worldSample
      (Samples.sheetHeader ++ [Samples.row_20240305]) Samples.sheetHeader
      (Some Samples.day_20240305) (Some Samples.day_20240305) Samples.emptyStore
    = (HistSuccess 1 1, Samples.sheetHeader ++ [Samples.row_20240305], st').
Proof.
  destruct (proj2 (invalid_update_counted_twice Samples.hostAR)
              Samples.worldSample (Samples.sheetHeader ++ [Samples.row_20240305])
              Samples.sheetHeader Samples.emptyStore Samples.day_20240305
              Samples.row_20240305) as (st' & E & _).
  - discriminate.
  - vm_compute. split; discriminate.
  - vm_compute. reflexivity.
  - vm_compute. apply list_elem_of_In. right. left. reflexivity.
  - vm_compute. reflexivity.
  - exists st'. rewrite E. reflexivity.
Defined.

(* ================================================================== *)
(** * Part X: properties of the other actions                          *)
(* ================================================================== *)

Import Cleanup Daily Drive Cases Notions.

(** ** The cache across calls *)

(** X1 (getCachedOrFetch): After getCachedOrFetch has fetched a URL
    successfully, a later call for the same URL made less than
    cacheTime seconds afterwards returns the same text without any
    fetch, whatever the network then answers; a call made at or after
    the expiry, on a network that answers, fetches again and returns
    the new answer. *)
Theorem cache_serves_until_expiry (w w' : World) (url text : string) (ttl : Z)
  (st : Store) :
  cache_get w st url = None -> net w url = Some text ->
  exists st1,
    getCachedOrFetch w url ttl st = (Ok text, st1)
    /\ fetches st1 = fetches st ++ [url]
    /\ (now w' < now w + ttl * 1000 ->
        getCachedOrFetch w' url ttl st1 = (Ok text, st1))
    /\ (now w + ttl * 1000 <= now w' ->
        forall text', net w' url = Some text' ->
        exists st2, getCachedOrFetch w' url ttl st1 = (Ok text', st2)
                    /\ fetches st2 = fetches st ++ [url; url]).
Proof.
  intros Hc Hn. unfold getCachedOrFetch. rewrite Hc, Hn.
  eexists. split; [reflexivity|]. split; [reflexivity|].
  unfold cache_get, cache_put. cbn [cache fetches].
  rewrite lookup_insert_eq. split.
  - intros Hlt. apply Z.ltb_lt in Hlt. rewrite Hlt. reflexivity.
  - intros Hge text' Hn'.
    assert (E : (now w' <? now w + ttl * 1000) = false) by (apply Z.ltb_ge; lia).
    rewrite E, Hn'. eexists. split; [reflexivity|].
    cbn [fetches]. rewrite <- app_assoc. reflexivity.
Qed.

Lemma cache_serves_until_expiry_witness :
  exists st1,
    getCachedOrFetch Samples.worldSample Samples.url_20240305 defaultCacheTime
                     Samples.emptyStore = (Ok Samples.payloadText, st1)
    /\ fetches st1 = [Samples.url_20240305]
    /\ getCachedOrFetch Samples.worldLater Samples.url_20240305 defaultCacheTime st1
       = (Ok Samples.payloadText, st1).
Proof.
  destruct (cache_serves_until_expiry Samples.worldSample Samples.worldLater
              Samples.url_20240305 Samples.payloadText defaultCacheTime
              Samples.emptyStore) as (st1 & E1 & E2 & E3 & _);
    [reflexivity|reflexivity|].
  exists st1. split; [exact E1|]. split; [exact E2|].
  apply E3. vm_compute. reflexivity.
Defined.

(** ** What one bulk run does to the sheet and to the network *)

(** X2 (updateHistoricalValues): On a non-empty sheet and a range with
    2015-01-01 <= start <= end <= now, updateHistoricalValues always
    succeeds, whatever the API answers; the sheet grows by exactly the
    number of rows reported as added, and updated + added is at most
    the number of days of the range. *)
Theorem historical_run_accounting (H : Host) (w : World) (sheet : Sheet)
  (st : Store) (s e : Z) :
  sheet <> [] -> 1420070400000 <= s -> s <= e -> e <= now w ->
  exists (u a : nat) (sheet' : Sheet) (st' : Store),
    updateHistoricalValues H w sheet (Some s) (Some e) st
    = (HistSuccess u a, sheet', st')
    /\ length sheet' = (length sheet + a)%nat
    /\ (u + a <= dayCount (Some s) (Some e))%nat.
Proof.
  intros Hne Hs Hse He. unfold updateHistoricalValues.
  unfold minDate2015. rewrite validateDate_ok by lia.
  rewrite validateDate_ok by lia.
  assert (Hg : getSheetData sheet = Ok sheet).
  { unfold getSheetData, getLastRow. destruct sheet; [contradiction|].
    simpl length. destruct (Z.ltb_spec (Z.of_nat (S (length sheet))) 1); [lia|].
    reflexivity. }
  rewrite Hg.
  set (q0 := {| rowsToUpdate := []; rowsToAdd := []; store := st |}).
  set (q := collectDays _ H w sheet (Some e) (Some s) q0).
  assert (Hw : Inv.wellQueued sheet q).
  { apply collectDays_wellQueued. split; constructor. }
  pose proof (collectDays_queues H w sheet (Some e)
                (dayCount (Some s) (Some e)) (Some s) q0) as Hc.
  fold q in Hc. cbn [rowsToUpdate rowsToAdd q0 length] in Hc.
  unfold writeBack.
  destruct (applyUpdates_spec (rowsToUpdate q) sheet (rowsToAdd q))
    as (sheet1 & Ea & Hl).
  rewrite Ea.
  rewrite (no_update_redirected sheet (rowsToUpdate q) (proj1 Hw)). simpl map. rewrite app_nil_r.
  do 4 eexists. split; [reflexivity|]. split.
  - rewrite sortSheetByDate_length. unfold appendRows.
    destruct (rowsToAdd q) as [|r l]; simpl.
    + rewrite Hl. lia.
    + rewrite length_app, Hl. simpl. lia.
  - lia.
Qed.

Lemma historical_run_accounting_witness :
  exists (u a : nat) (sheet' : Sheet) (st' : Store),
    updateHistoricalValues Samples.hostAR Samples.worldSample Samples.sheetHeader
      (Some Samples.day_20240305) (Some Samples.day_20240305) Samples.emptyStore
    = (HistSuccess u a, sheet', st')
    /\ length sheet' = (1 + a)%nat
    /\ (u + a <= 1)%nat.
Proof.
  apply (historical_run_accounting Samples.hostAR Samples.worldSample
           Samples.sheetHeader Samples.emptyStore Samples.day_20240305
           Samples.day_20240305); [discriminate | vm_compute; discriminate ..].
Defined.

Lemma visitDay_fetches (H : Host) (w : World) (E : list Row) (t : Z)
  (q : Queues) :
  fetches (store (visitDay H w E (Some t) q)) = fetches (store q)
  \/ fetches (store (visitDay H w E (Some t) q))
     = fetches (store q) ++ [API_HISTORICAL +:+ formatDate (Some t) "api"].
Proof.
  unfold visitDay, fetchDataFromApis.
  change (String.eqb "historical" "current") with false. cbv iota.
  set (url := API_HISTORICAL +:+ _).
  assert (Hf : fetches (snd (getCachedOrFetch w url defaultCacheTime (store q)))
               = fetches (store q)
               \/ fetches (snd (getCachedOrFetch w url defaultCacheTime (store q)))
                  = fetches (store q) ++ [url]).
  { unfold getCachedOrFetch. destruct (cache_get w (store q) url); [left; reflexivity|].
    destruct (net w url); right; reflexivity. }
  destruct (getCachedOrFetch w url defaultCacheTime (store q)) as [[response|err] st'];
    cbn [snd] in Hf.
  - destruct (String.eqb response ""); [exact Hf|].
    destruct (JSON_parse H response) as [d|]; [|exact Hf].
    destruct (prepareHistoricalRowData w (Some t) _); [|exact Hf].
    destruct (has _ _); exact Hf.
  - exact Hf.
Qed.

Lemma collectDays_fetches (H : Host) (w : World) (E : list Row) (s e : Z) :
  forall (fuel : nat) (c : Date) (q : Queues),
    match c with Some t => s <= t | None => True end ->
    exists l,
      fetches (store (collectDays fuel H w E (Some e) c q))
      = fetches (store q) ++ l
      /\ (length l <= fuel)%nat /\ Forall (dayUrl s e) l.
Proof.
  induction fuel as [|k IH]; intros c q Hc; cbn [collectDays].
  - exists []. rewrite app_nil_r. repeat split; [simpl; lia|constructor].
  - destruct c as [t|]; cbn [date_le].
    2:{ exists []. rewrite app_nil_r. repeat split; [simpl; lia|constructor]. }
    destruct (Z.leb_spec t e) as [Hte|Hte].
    2:{ exists []. rewrite app_nil_r. repeat split; [simpl; lia|constructor]. }
    destruct (IH (nextDay H (Some t)) (visitDay H w E (Some t) q))
      as (l & El & Hl & Hf).
    { rewrite nextDay_spec. unfold TimeClip.
      destruct (_ <=? _); [|exact I]. unfold msPerDay. lia. }
    rewrite El.
    destruct (visitDay_fetches H w E t q) as [-> | ->].
    + exists l. repeat split; [lia|exact Hf].
    + exists ((API_HISTORICAL +:+ formatDate (Some t) "api") :: l).
      rewrite <- app_assoc. repeat split; [simpl; lia|].
      constructor; [|exact Hf]. exists t. split; [lia|reflexivity].
Qed.

(** X3 (fetchDataFromApis, updateHistoricalValues): A run of
    updateHistoricalValues performs at most one fetch per day of the
    range, each to the historical endpoint followed by the yyyy/mm/dd
    of an instant between the start and the end date; it never
    requests the current-quotes endpoint. *)
Theorem historical_run_fetches (H : Host) (w : World) (sheet : Sheet)
  (st : Store) (s e : Z) :
  exists l,
    fetches (snd (updateHistoricalValues H w sheet (Some s) (Some e) st))
    = fetches st ++ l
    /\ (length l <= dayCount (Some s) (Some e))%nat
    /\ Forall (dayUrl s e) l.
Proof.
  unfold updateHistoricalValues.
  destruct (validateDate (Some s) minDate2015 (Some (now w))).
  2:{ exists []. rewrite app_nil_r. repeat split; [simpl; lia|constructor]. }
  destruct (validateDate (Some e) (Some s) (Some (now w))).
  2:{ exists []. rewrite app_nil_r. repeat split; [simpl; lia|constructor]. }
  destruct (getSheetData sheet) as [existingData|].
  2:{ exists []. rewrite app_nil_r. repeat split; [simpl; lia|constructor]. }
  destruct (writeBack _ _ _ _) as [res sheet']. cbn [snd].
  destruct (collectDays_fetches H w existingData s e (dayCount (Some s) (Some e))
              (Some s) {| rowsToUpdate := []; rowsToAdd := []; store := st |})
    as (l & El & Hl & Hf); [lia|].
  exists l. auto.
Qed.

(** ** Keys and civil days *)

Lemma same_day_same_fields (a b : Z) :
  Day a = Day b ->
  YearFromTime a = YearFromTime b /\ MonthFromTime a = MonthFromTime b
  /\ DateFromTime a = DateFromTime b /\ WeekDay a = WeekDay b.
Proof.
  intros E. unfold WeekDay, DateFromTime, MonthFromTime, DayWithinYear, YearFromTime.
  rewrite E. auto.
Qed.

Lemma apiKey_inj (t1 t2 : Z) :
  Inv.kept t1 ->
  formatDate (Some t1) "api" = formatDate (Some t2) "api" ->
  Inv.kept t2 /\ Spec.civilDay t1 = Spec.civilDay t2.
Proof.
  unfold Spec.civilDay, Inv.kept. intros H1 E.
  rewrite formatDate_layout in E by exact H1.
  set (a1 := t1 - 10800000) in *.
  pose proof (MonthFromTime_range a1). pose proof (DateFromTime_range a1).
  unfold Inv.layout in E. cbn [String.eqb Ascii.eqb Bool.eqb] in E.
  destruct (Z_le_gt_dec (Z.abs (t2 - 10800000)) 8640000000000000) as [H2|H2].
  - split; [exact H2|].
    rewrite formatDate_layout in E by exact H2.
    set (a2 := t2 - 10800000) in *.
    pose proof (MonthFromTime_range a2). pose proof (DateFromTime_range a2).
    unfold Inv.layout in E. cbn [String.eqb Ascii.eqb Bool.eqb] in E.
    apply (dateKey_inj "/") in E as (Ey & Em & Ed); try lia.
    rewrite <- (MakeDay_fields a1), <- (MakeDay_fields a2).
    rewrite Ey, Ed. replace (MonthFromTime a1) with (MonthFromTime a2) by lia.
    reflexivity.
  - exfalso. rewrite formatDate_clipped in E by lia.
    rewrite (proj2 formatDate_invalid_keys) in E.
    apply (dateKey_not_NaN "/") in E; [exact E|lia].
Qed.

(** The Dates that are not kept when moved back all lie on one civil
    day, which no other Date lies on. *)
Lemma unkept_day (t : Z) :
  Z.abs t <= 8640000000000000 ->
  (Inv.kept t /\ -100000000 <= Day (t - 10800000))
  \/ (~ Inv.kept t /\ Day (t - 10800000) = -100000001).
Proof.
  intros Ht. unfold Inv.kept, Day, msPerDay.
  destruct (Z_le_gt_dec (-8639999989200000) t) as [Hk|Hk].
  - left. split; [lia|]. apply Z.div_le_lower_bound; lia.
  - right. split; [lia|].
    symmetry. apply (Z.div_unique_pos _ _ _ (t - 10800000 + 8640000086400000));
      lia.
Qed.

(** X4 (formatDate): formatDate gives two Dates the same 'sheet' key,
    and the same 'api' path, exactly when they fall on the same civil
    day of GMT-3; Dates of the same civil day also get the same
    'dayColumn' label. *)
Theorem keys_identify_civil_days (t1 t2 : Z) :
  Z.abs t1 <= 8640000000000000 -> Z.abs t2 <= 8640000000000000 ->
  (formatDate (Some t1) "sheet" = formatDate (Some t2) "sheet"
   <-> Day (t1 - 10800000) = Day (t2 - 10800000))
  /\ (formatDate (Some t1) "api" = formatDate (Some t2) "api"
      <-> Day (t1 - 10800000) = Day (t2 - 10800000))
  /\ (Day (t1 - 10800000) = Day (t2 - 10800000) ->
      formatDate (Some t1) "dayColumn" = formatDate (Some t2) "dayColumn").
Proof.
  intros Hv1 Hv2.
  assert (Hback : forall mode, In mode ["sheet"; "api"; "dayColumn"] ->
            Day (t1 - 10800000) = Day (t2 - 10800000) ->
            formatDate (Some t1) mode = formatDate (Some t2) mode).
  { intros mode Hm E.
    destruct (unkept_day t1 Hv1) as [[K1 D1]|[K1 D1]],
             (unkept_day t2 Hv2) as [[K2 D2]|[K2 D2]]; try lia.
    - unfold Inv.kept in K1, K2. rewrite !formatDate_layout by assumption.
      destruct (same_day_same_fields _ _ E) as (Ey & Em & Ed & Ew).
      unfold Inv.layout. rewrite Ey, Em, Ed, Ew.
      simpl in Hm. destruct Hm as [<-|[<-|[<-|[]]]]; reflexivity.
    - unfold Inv.kept in K1, K2. rewrite !formatDate_clipped by lia.
      reflexivity. }
  assert (Hforth : forall mode,
            (forall a b, Inv.kept a ->
               formatDate (Some a) mode = formatDate (Some b) mode ->
               Inv.kept b /\ Spec.civilDay a = Spec.civilDay b) ->
            formatDate (Some t1) mode = formatDate (Some t2) mode ->
            Day (t1 - 10800000) = Day (t2 - 10800000)).
  { intros mode Hinj E.
    destruct (unkept_day t1 Hv1) as [[K1 D1]|[K1 D1]].
    - exact (proj2 (Hinj t1 t2 K1 E)).
    - destruct (unkept_day t2 Hv2) as [[K2 D2]|[K2 D2]]; [|lia].
      symmetry in E. destruct (Hinj t2 t1 K2 E) as [K _]. contradiction. }
  split; [|split].
  - split; [apply Hforth; exact sheetKey_inj|apply Hback; simpl; auto].
  - split; [apply Hforth; exact apiKey_inj|apply Hback; simpl; auto].
  - apply Hback; simpl; auto.
Qed.

Lemma keys_identify_civil_days_witness :
  formatDate (Some (-8640000000000000)) "sheet"
  = formatDate (Some (-8639999990000000)) "sheet"
  /\ formatDate (Some 1710468000000) "api" = formatDate (Some 1710385200000) "api".
Proof.
  split.
  - apply (keys_identify_civil_days (-8640000000000000) (-8639999990000000));
      [lia|lia|reflexivity].
  - apply (keys_identify_civil_days 1710468000000 1710385200000);
      [lia|lia|reflexivity].
Defined.

(** ** The shapes [parseCustomDate] accepts *)

Lemma split_on_length (p : ascii -> bool) (s : string) :
  length (split_on p s) = S (length (List.filter p (list_ascii_of_string s))).
Proof.
  induction s as [|c r IH]; simpl; [reflexivity|].
  destruct (p c); simpl; [congruence|].
  destruct (split_on p r); simpl in *; congruence.
Qed.

(** X5 (parseCustomDate): parseCustomDate throws the format error
    ('Formato de fecha inválido...') exactly when the text does not
    contain one or two of the separators '/' and '-'; whenever it
    returns, the Date returned is a valid one. *)
Theorem parseCustomDate_format_error (H : Host) (w : World) (dateStr : string) :
  let n := length (List.filter is_date_sep (list_ascii_of_string dateStr)) in
  (parseCustomDate H w dateStr = Throw (Error invalidFormatMsg)
   <-> n <> 1%nat /\ n <> 2%nat)
  /\ (forall d, parseCustomDate H w dateStr = Ok d -> is_Some d).
Proof.
  intros n. unfold parseCustomDate.
  rewrite !split_on_length. fold n.
  split.
  - destruct n as [|[|[|k]]]; simpl.
    + split; [intros _; split; discriminate|reflexivity].
    + split; [|intros [? _]; congruence].
      destruct (bool_decide _); simpl; discriminate.
    + split; [|intros [_ ?]; congruence].
      destruct (bool_decide _); simpl; discriminate.
    + split; [intros _; split; discriminate|reflexivity].
  - intros d. destruct (_ || _); [discriminate|].
    destruct (bool_decide (is_Some _)) eqn:E; simpl; [|discriminate].
    intros [= <-]. apply bool_decide_eq_true in E. exact E.
Qed.

(** ** Row removal *)

Lemma scan_from_bottom (H : Host) (l : list Row) :
  forall off : nat,
    fold_left (scanRow H) (rev (imap (fun i r => ((off + i)%nat, r)) l)) (∅, [])
    = (list_to_set (map (rowKey H) l), rev (repeatedBelow H off l)).
Proof.
  induction l as [|x l IH]; intros off; [reflexivity|].
  rewrite imap_cons. cbn [rev]. rewrite fold_left_app. cbn [fold_left].
  rewrite (imap_ext _ (fun i r => ((S off + i)%nat, r))).
  2:{ intros i r _. cbn. f_equal. lia. }
  rewrite IH. unfold scanRow. cbn [fst snd repeatedBelow map list_to_set].
  rewrite Nat.add_0_r.
  destruct (decide (rowKey H x ∈ map (rowKey H) l)) as [Hin|Hin].
  - rewrite !bool_decide_eq_true_2; [|exact Hin|apply elem_of_list_to_set, Hin].
    cbn [app rev]. f_equal.
    apply set_eq. intros k. rewrite elem_of_union, elem_of_singleton.
    rewrite !elem_of_list_to_set. split; [auto|]. intros [->|?]; assumption.
  - rewrite !bool_decide_eq_false_2;
      [|exact Hin|rewrite elem_of_list_to_set; exact Hin].
    reflexivity.
Qed.

Lemma duplicateRows_top_down (H : Host) (header : Row) (rest : list Row) :
  rev (duplicateRows H (header :: rest)) = repeatedBelow H 1 rest.
Proof.
  unfold duplicateRows, fromBottom. rewrite imap_cons. cbn [drop].
  rewrite (imap_ext _ (fun i r => ((1 + i)%nat, r))) by reflexivity.
  rewrite drop_0, scan_from_bottom. cbn [snd]. apply rev_involutive.
Qed.

Lemma repeatedBelow_cons (H : Host) (off : nat) (r : Row) (rest : list Row) :
  repeatedBelow H off (r :: rest)
  = (if bool_decide (rowKey H r ∈ map (rowKey H) rest)
     then [Z.of_nat off + 1] else [])
    ++ repeatedBelow H (S off) rest.
Proof. reflexivity. Qed.

Lemma repeatedBelow_skip (H : Host) (A R R' : list Row) :
  forall off : nat,
    NoDup (map (rowKey H) (A ++ R')) ->
    (forall k, k ∈ map (rowKey H) R -> k ∈ map (rowKey H) R') ->
    repeatedBelow H off (A ++ R) = repeatedBelow H (off + length A) R.
Proof.
  induction A as [|a A IH]; intros off Hnd Hsub; cbn [app length].
  - rewrite Nat.add_0_r. reflexivity.
  - cbn [repeatedBelow]. cbn [app map] in Hnd. apply NoDup_cons in Hnd as [Ha Hnd].
    rewrite bool_decide_eq_false_2.
    + cbn [app]. rewrite (IH (S off) Hnd Hsub). f_equal. lia.
    + rewrite map_app, elem_of_app in *. intros [?|?]; [tauto|].
      apply Ha. right. auto.
Qed.

Lemma repeatedBelow_none (H : Host) (l : list Row) (off : nat) :
  NoDup (map (rowKey H) l) -> repeatedBelow H off l = [].
Proof.
  intros Hnd. rewrite <- (app_nil_r l).
  rewrite (repeatedBelow_skip H l [] []); [reflexivity| |auto].
  rewrite app_nil_r. exact Hnd.
Qed.

Lemma deleteRow_within (g : Grid) (r : Z) :
  1 <= r <= height g -> 2 <= height g ->
  deleteRow g r = Ok {| used := delete (Z.to_nat (r - 1)) (used g);
                        height := height g - 1 |}.
Proof.
  intros Hr Hh. unfold deleteRow.
  destruct (Z.ltb_spec r 1); [lia|].
  destruct (Z.ltb_spec (height g) r); [lia|].
  destruct (Z.leb_spec (height g) 1); [lia|]. reflexivity.
Qed.

(** Two deletions in ascending order: the second row number is applied
    to a sheet whose rows have already moved up by one. *)
Lemma deleteEach_two (g : Grid) (header x y z : Row) (A B C : list Row) :
  used g = header :: A ++ x :: B ++ y :: z :: C ->
  Z.of_nat (length (used g)) <= height g ->
  deleteEach g [Z.of_nat (length A) + 2;
                Z.of_nat (length A + length B) + 3]
  = ({| used := header :: A ++ B ++ y :: C; height := height g - 2 |}, None).
Proof.
  intros Hu Hh. rewrite Hu in Hh. cbn [length] in Hh.
  rewrite !length_app in Hh. cbn [length] in Hh. rewrite !length_app in Hh.
  cbn [length] in Hh.
  cbn [deleteEach]. rewrite deleteRow_within by lia.
  rewrite deleteRow_within by (cbn [height]; lia).
  cbn [used height]. f_equal. f_equal; [|lia].
  rewrite Hu.
  replace (Z.to_nat (Z.of_nat (length A) + 2 - 1)) with (length (header :: A))
    by (cbn [length]; lia).
  change (header :: A ++ x :: B ++ y :: z :: C)
    with ((header :: A) ++ x :: B ++ y :: z :: C).
  rewrite delete_middle.
  replace (Z.to_nat (Z.of_nat (length A + length B) + 3 - 1))
    with (length ((header :: A) ++ B ++ [y])).
  2:{ cbn [length app]. rewrite !length_app. cbn [length]. lia. }
  replace ((header :: A) ++ B ++ y :: z :: C)
    with (((header :: A) ++ B ++ [y]) ++ z :: C).
  2:{ rewrite <- !app_assoc. reflexivity. }
  rewrite delete_middle. rewrite <- !app_assoc. reflexivity.
Qed.

(** X6 (removeDuplicateDates): When no two rows below the header share
    a date key, removeDuplicateDates leaves the sheet as it is and
    reports 0 rows; when exactly one row has a key that occurs again
    further down, that row alone is removed and 1 is reported (the
    grid being at least as high as the used range). *)
Theorem removeDuplicateDates_at_most_one (H : Host) (g : Grid) (header : Row) :
  Z.of_nat (length (used g)) <= height g ->
  (forall rest, used g = header :: rest -> NoDup (map (rowKey H) rest) ->
     removeDuplicateDates H (Some g) = ([Removed 0], Some g))
  /\ (forall A B x, used g = header :: A ++ x :: B ->
        NoDup (map (rowKey H) (A ++ B)) ->
        rowKey H x ∈ map (rowKey H) B ->
        removeDuplicateDates H (Some g)
        = ([Removed 1],
           Some {| used := header :: A ++ B; height := height g - 1 |})).
Proof.
  intros Hh. split.
  - intros rest Hu Hnd. unfold removeDuplicateDates.
    rewrite Hu, duplicateRows_top_down, (repeatedBelow_none H rest 1 Hnd).
    assert (Ed : duplicateRows H (header :: rest) = []).
    { rewrite <- (rev_involutive (duplicateRows H (header :: rest))),
        duplicateRows_top_down, (repeatedBelow_none H rest 1 Hnd). reflexivity. }
    rewrite Ed. reflexivity.
  - intros A B x Hu Hnd Hx. unfold removeDuplicateDates.
    assert (Er : rev (duplicateRows H (used g)) = [Z.of_nat (length A) + 2]).
    { rewrite Hu, duplicateRows_top_down.
      rewrite (repeatedBelow_skip H A (x :: B) B 1 Hnd).
      2:{ intros k Hk. cbn [map] in Hk. apply elem_of_cons in Hk as [->|?]; auto. }
      rewrite repeatedBelow_cons, bool_decide_eq_true_2 by exact Hx.
      rewrite repeatedBelow_none.
      2:{ rewrite map_app in Hnd. apply NoDup_app in Hnd. tauto. }
      cbn [app]. f_equal. lia. }
    rewrite Er.
    assert (El : length (duplicateRows H (used g)) = 1%nat).
    { rewrite <- length_rev, Er. reflexivity. }
    rewrite El. cbn [deleteEach].
    rewrite Hu in Hh. cbn [length] in Hh. rewrite length_app in Hh.
    cbn [length] in Hh.
    rewrite deleteRow_within by lia.
    rewrite Hu.
    replace (Z.to_nat (Z.of_nat (length A) + 2 - 1)) with (length (header :: A))
      by (cbn [length]; lia).
    change (header :: A ++ x :: B) with ((header :: A) ++ x :: B).
    rewrite delete_middle. reflexivity.
Qed.

(** X7 (removeDuplicateDates): removeDuplicateDates deletes the
    collected row numbers in ascending order, so the second number is
    applied after the rows have moved up: with two rows x and y (x
    above y) to remove and a row z right below y, it removes x and z
    and keeps y, reporting 2 rows removed. *)
Theorem removeDuplicateDates_shifted (H : Host) (g : Grid) (header x y z : Row)
  (A B C : list Row) :
  used g = header :: A ++ x :: B ++ y :: z :: C ->
  Z.of_nat (length (used g)) <= height g ->
  NoDup (map (rowKey H) (A ++ B ++ z :: C)) ->
  rowKey H x ∈ map (rowKey H) (B ++ y :: z :: C) ->
  rowKey H y ∈ map (rowKey H) (z :: C) ->
  removeDuplicateDates H (Some g)
  = ([Removed 2],
     Some {| used := header :: A ++ B ++ y :: C; height := height g - 2 |}).
Proof.
  intros Hu Hh Hnd Hx Hy. unfold removeDuplicateDates.
  assert (Hsub : forall k, k ∈ map (rowKey H) (y :: z :: C) ->
                           k ∈ map (rowKey H) (z :: C)).
  { intros k Hk. cbn [map] in Hk. apply elem_of_cons in Hk as [->|?]; auto. }
  assert (Er : rev (duplicateRows H (used g))
               = [Z.of_nat (length A) + 2; Z.of_nat (length A + length B) + 3]).
  { rewrite Hu, duplicateRows_top_down.
    rewrite (repeatedBelow_skip H A (x :: B ++ y :: z :: C) (B ++ z :: C) 1 Hnd).
    2:{ intros k Hk. cbn [map] in Hk. apply elem_of_cons in Hk as [->|Hk].
        - rewrite map_app, elem_of_app in Hx. rewrite map_app, elem_of_app.
          destruct Hx as [?|Hx]; [auto|]. right. apply Hsub, Hx.
        - rewrite map_app, elem_of_app in Hk. rewrite map_app, elem_of_app.
          destruct Hk as [?|Hk]; [auto|]. right. apply Hsub, Hk. }
    rewrite repeatedBelow_cons, bool_decide_eq_true_2 by exact Hx.
    rewrite map_app in Hnd. apply NoDup_app in Hnd as (_ & _ & Hnd).
    rewrite (repeatedBelow_skip H B (y :: z :: C) (z :: C) _ Hnd Hsub).
    rewrite repeatedBelow_cons, bool_decide_eq_true_2 by exact Hy.
    rewrite map_app in Hnd. apply NoDup_app in Hnd as (_ & _ & Hnd).
    rewrite (repeatedBelow_none H (z :: C) _ Hnd).
    cbn [app]. f_equal; [lia|]. f_equal. lia. }
  rewrite Er.
  assert (El : length (duplicateRows H (used g)) = 2%nat).
  { rewrite <- length_rev, Er. reflexivity. }
  rewrite El, (deleteEach_two g header x y z A B C Hu Hh). reflexivity.
Qed.

Lemma range_scan_from_bottom (p : Row -> bool) (l : list Row) :
  forall off : nat,
    fold_left (fun rowsToDelete (ir : nat * Row) =>
                 if p (snd ir) then rowsToDelete ++ [Z.of_nat (fst ir) + 1]
                 else rowsToDelete)
              (rev (imap (fun i r => ((off + i)%nat, r)) l)) []
    = rev (passing p off l).
Proof.
  induction l as [|x l IH]; intros off; [reflexivity|].
  rewrite imap_cons. cbn [rev]. rewrite fold_left_app. cbn [fold_left].
  rewrite (imap_ext _ (fun i r => ((S off + i)%nat, r))).
  2:{ intros i r _. cbn. f_equal. lia. }
  rewrite IH. cbn [fst snd passing]. rewrite Nat.add_0_r.
  destruct (p x); cbn [app rev]; reflexivity.
Qed.

Lemma rowsInRange_top_down (H : Host) (s e : Date) (header : Row)
  (rest : list Row) :
  rev (rowsInRange H s e (header :: rest)) = passing (inRange H s e) 1 rest.
Proof.
  unfold rowsInRange, fromBottom. rewrite imap_cons. cbn [drop].
  rewrite (imap_ext _ (fun i r => ((1 + i)%nat, r))) by reflexivity.
  rewrite drop_0, range_scan_from_bottom. apply rev_involutive.
Qed.

Lemma passing_none (p : Row -> bool) (l : list Row) :
  forall off : nat, Forall (fun r => p r = false) l -> passing p off l = [].
Proof.
  induction l as [|x l IH]; intros off Hl; [reflexivity|].
  apply Forall_cons in Hl as [Hx Hl]. cbn [passing]. rewrite Hx.
  apply IH, Hl.
Qed.

Lemma passing_skip (p : Row -> bool) (A R : list Row) :
  forall off : nat,
    Forall (fun r => p r = false) A ->
    passing p off (A ++ R) = passing p (off + length A) R.
Proof.
  induction A as [|a A IH]; intros off HA; cbn [app length].
  - rewrite Nat.add_0_r. reflexivity.
  - apply Forall_cons in HA as [Ha HA]. cbn [passing]. rewrite Ha.
    cbn [app]. rewrite (IH (S off) HA). f_equal. lia.
Qed.

(** X8 (deleteExistingRows): deleteExistingRows removes the only row
    dated within the range when there is one; when two adjacent rows
    x, y lie within the range and the row z below them does not, it
    removes x and z and keeps y, because it deletes in ascending order
    of row numbers computed beforehand. *)
Theorem deleteExistingRows_adjacent (H : Host) (g : Grid) (s e : Date)
  (header x : Row) (A : list Row) :
  Z.of_nat (length (used g)) <= height g ->
  Forall (fun r => inRange H s e r = false) A ->
  inRange H s e x = true ->
  (forall C, used g = header :: A ++ x :: C ->
     Forall (fun r => inRange H s e r = false) C ->
     deleteExistingRows H g s e
     = ({| used := header :: A ++ C; height := height g - 1 |}, None))
  /\ (forall y z C, used g = header :: A ++ x :: y :: z :: C ->
        inRange H s e y = true ->
        Forall (fun r => inRange H s e r = false) (z :: C) ->
        deleteExistingRows H g s e
        = ({| used := header :: A ++ y :: C; height := height g - 2 |}, None)).
Proof.
  intros Hh HA Hx. split.
  - intros C Hu HC. unfold deleteExistingRows.
    rewrite Hu at 1. rewrite rowsInRange_top_down, (passing_skip _ A _ 1 HA).
    cbn [passing]. rewrite Hx, (passing_none _ C _ HC). cbn [app deleteEach].
    rewrite Hu in Hh. cbn [length] in Hh. rewrite length_app in Hh.
    cbn [length] in Hh.
    rewrite deleteRow_within by lia. rewrite Hu.
    replace (Z.to_nat (Z.of_nat (1 + length A) + 1 - 1))
      with (length (header :: A)) by (cbn [length]; lia).
    change (header :: A ++ x :: C) with ((header :: A) ++ x :: C).
    rewrite delete_middle. reflexivity.
  - intros y z C Hu Hy HC. unfold deleteExistingRows.
    rewrite Hu at 1. rewrite rowsInRange_top_down, (passing_skip _ A _ 1 HA).
    cbn [passing]. apply Forall_cons in HC as [Hz HC].
    rewrite Hx, Hy, Hz, (passing_none _ C _ HC). cbn [app].
    replace (Z.of_nat (1 + length A) + 1) with (Z.of_nat (length A) + 2) by lia.
    replace (Z.of_nat (S (1 + length A)) + 1)
      with (Z.of_nat (length A + length (@nil Row)) + 3) by (cbn [length]; lia).
    apply (deleteEach_two g header x y z A [] C Hu Hh).
Qed.

Lemma removeDuplicateDates_at_most_one_witness :
  removeDuplicateDates Samples.hostAR (Some Cases.gridThreeDays)
  = ([Removed 0], Some Cases.gridThreeDays)
  /\ removeDuplicateDates Samples.hostAR (Some Cases.gridOneRepeat)
     = ([Removed 1],
        Some {| used := [Samples.headerRow;
                         Cases.dated Samples.day_20240305 "980,00";
                         Cases.dated Samples.day_20240304 "975,00"];
                height := 999 |}).
Proof.
  split.
  - apply (proj1 (removeDuplicateDates_at_most_one Samples.hostAR
                    Cases.gridThreeDays Samples.headerRow
                    ltac:(vm_compute; discriminate))
                 (tl (used Cases.gridThreeDays)) eq_refl).
    apply (bool_decide_unpack _). vm_compute. exact I.
  - apply (proj2 (removeDuplicateDates_at_most_one Samples.hostAR
                    Cases.gridOneRepeat Samples.headerRow
                    ltac:(vm_compute; discriminate))
                 [] [Cases.dated Samples.day_20240305 "980,00";
                     Cases.dated Samples.day_20240304 "975,00"]
                 (Cases.dated Samples.day_20240304 "970,00") eq_refl).
    + apply (bool_decide_unpack _). vm_compute. exact I.
    + apply (bool_decide_unpack _). vm_compute. exact I.
Defined.

Lemma removeDuplicateDates_shifted_witness :
  removeDuplicateDates Samples.hostAR (Some Cases.gridInterleaved)
  = ([Removed 2],
     Some {| used := [Samples.headerRow;
                      Cases.dated Samples.day_20240305 "980,00";
                      Cases.dated Samples.day_20240305 "985,00"];
             height := 998 |}).
Proof.
  apply (removeDuplicateDates_shifted Samples.hostAR Cases.gridInterleaved
           Samples.headerRow
           (Cases.dated Samples.day_20240304 "970,00")
           (Cases.dated Samples.day_20240305 "980,00")
           (Cases.dated Samples.day_20240304 "975,00")
           [] [] [Cases.dated Samples.day_20240305 "985,00"]).
  - reflexivity.
  - vm_compute. discriminate.
  - apply (bool_decide_unpack _). vm_compute. exact I.
  - apply (bool_decide_unpack _). vm_compute. exact I.
  - apply (bool_decide_unpack _). vm_compute. exact I.
Defined.

Lemma deleteExistingRows_adjacent_witness :
  deleteExistingRows Samples.hostAR Cases.gridThreeDays
    (Some Samples.day_20240304) (Some Samples.day_20240305)
  = ({| used := [Samples.headerRow; Cases.dated Samples.day_20240305 "980,00"];
        height := 998 |}, None).
Proof.
  apply (proj2 (deleteExistingRows_adjacent Samples.hostAR Cases.gridThreeDays
                  (Some Samples.day_20240304) (Some Samples.day_20240305)
                  Samples.headerRow (Cases.dated Samples.day_20240304 "970,00") []
                  ltac:(vm_compute; discriminate) ltac:(constructor) eq_refl)
               (Cases.dated Samples.day_20240305 "980,00")
               (Cases.dated Cases.day_20240306 "990,00") [] eq_refl eq_refl).
  repeat constructor.
Defined.

(** ** Decimal texts *)

Lemma allFrom_spec (p : Z -> bool) (n : nat) :
  forall lo, allFrom p lo n = true ->
  forall z, lo <= z < lo + Z.of_nat n -> p z = true.
Proof.
  induction n as [|k IH]; intros lo Hall z Hz; [lia|].
  cbn [allFrom] in Hall. apply andb_true_iff in Hall as [H0 Hall].
  destruct (Z.eq_dec z lo) as [->|Hne]; [exact H0|].
  apply (IH (lo + 1) Hall). lia.
Qed.

Lemma scan_digits_acc (u : Decimal.uint) :
  forall (a : positive) (n : Z),
    scan_digits (NilEmpty.string_of_uint u) (Z.pos a) n
    = (Z.pos (Pos.of_uint_acc u a), n + Z.of_nat (Decimal.nb_digits u), "").
Proof.
  induction u as [|u IH|u IH|u IH|u IH|u IH|u IH|u IH|u IH|u IH|u IH];
    intros a n; cbn [NilEmpty.string_of_uint scan_digits Pos.of_uint_acc
                     Decimal.nb_digits];
    [f_equal; f_equal; lia|..];
    (match goal with
     | |- context [is_digit ?c] =>
         change (is_digit c) with true; cbv iota;
         let v := eval vm_compute in (digit_val c) in
         change (digit_val c) with v
     end;
     match goal with
     | |- scan_digits _ ?acc ?m = _ =>
         match type of (IH 1%positive 0) with _ => idtac end;
         lazymatch goal with
         | |- scan_digits _ _ _ = (Z.pos (Pos.of_uint_acc _ ?b), _, _) =>
             replace acc with (Z.pos b) by lia
         end
     end;
     rewrite IH; f_equal; f_equal; lia).
Qed.

Lemma scan_digits_uint (u : Decimal.uint) :
  forall n : Z,
    scan_digits (NilEmpty.string_of_uint u) 0 n
    = (Z.of_N (Pos.of_uint u), n + Z.of_nat (Decimal.nb_digits u), "").
Proof.
  induction u as [|u IH|u IH|u IH|u IH|u IH|u IH|u IH|u IH|u IH|u IH];
    intros n; cbn [NilEmpty.string_of_uint scan_digits Pos.of_uint
                   Decimal.nb_digits Z.of_N];
    [f_equal; f_equal; lia| |..].
  1: { change (is_digit "0") with true; cbv iota.
       change (10 * 0 + digit_val "0") with 0.
       rewrite IH. f_equal; f_equal; lia. }
  all: match goal with
       | |- context [is_digit ?c] =>
           change (is_digit c) with true; cbv iota;
           let v := eval vm_compute in (10 * 0 + digit_val c) in
           change (10 * 0 + digit_val c) with v
       end.
  all: rewrite scan_digits_acc; f_equal; f_equal; lia.
Qed.

Lemma digits_uint (u : Decimal.uint) :
  digitsOnly (NilEmpty.string_of_uint u) = true.
Proof.
  unfold digitsOnly.
  induction u; cbn [NilEmpty.string_of_uint list_ascii_of_string forallb];
    [reflexivity|..]; rewrite IHu; reflexivity.
Qed.

Lemma Z_to_string_pos (p : positive) :
  Z_to_string (Z.pos p) = NilEmpty.string_of_uint (Pos.to_uint p)
  /\ (0 < Decimal.nb_digits (Pos.to_uint p))%nat.
Proof.
  unfold Z_to_string. cbn [Z.to_int NilZero.string_of_int].
  pose proof (DecimalPos.Unsigned.to_uint_nonnil p) as Hn.
  destruct (Pos.to_uint p); [congruence|..];
    (split; [reflexivity|cbn [Decimal.nb_digits]; lia]).
Qed.

(** The decimal text of a positive integer is scanned back entirely. *)
Lemma scan_Z_to_string (p : positive) :
  exists n, 0 < n
    /\ scan_digits (Z_to_string (Z.pos p)) 0 0 = (Z.pos p, n, "").
Proof.
  destruct (Z_to_string_pos p) as [-> Hn].
  rewrite scan_digits_uint, DecimalPos.Unsigned.of_to. eexists. split; [|reflexivity]. lia.
Qed.

Lemma digits_Z_to_string (y : Z) : 0 <= y -> digitsOnly (Z_to_string y) = true.
Proof.
  destruct y as [|p|p]; [reflexivity| |lia]. intros _.
  destruct (Z_to_string_pos p) as [-> _]. apply digits_uint.
Qed.

Lemma digit_not (c0 : ascii) :
  is_digit c0 = false -> forall c, is_digit c = true -> Ascii.eqb c c0 = false.
Proof.
  intros H0 c Hc. destruct (Ascii.eqb_spec c c0) as [->|]; [congruence|reflexivity].
Qed.

Lemma digit_first (c : ascii) :
  is_digit c = true ->
  is_space c = false /\ Ascii.eqb c "-" = false /\ Ascii.eqb c "+" = false
  /\ Ascii.eqb "I" c = false /\ Ascii.eqb c "." = false
  /\ Ascii.eqb c "x" = false /\ Ascii.eqb c "X" = false
  /\ Ascii.eqb c "o" = false /\ Ascii.eqb c "O" = false
  /\ Ascii.eqb c "b" = false /\ Ascii.eqb c "B" = false.
Proof.
  intros Hc.
  assert (Hs : is_space c = false).
  { destruct (is_space c) eqn:E; [|reflexivity].
    unfold is_digit, is_space in *.
    set (n := nat_of_ascii c) in *. clearbody n.
    apply andb_true_iff in Hc as [H1 H2].
    apply Nat.leb_le in H1, H2.
    apply orb_true_iff in E as [E|E];
      [apply orb_true_iff in E as [E|E];
       [apply andb_true_iff in E as [E1 E2]; apply Nat.leb_le in E1, E2; lia
       |apply Nat.eqb_eq in E; lia]
      |apply Nat.eqb_eq in E; lia]. }
  rewrite (Ascii.eqb_sym "I" c).
  repeat split; try exact Hs;
    match goal with
    | |- Ascii.eqb c ?k = false => apply (digit_not k eq_refl c Hc)
    end.
Qed.

(** [parseInt(s, 10)] of the decimal text of a positive integer. *)
Lemma parseInt10_Z_to_string (p : positive) :
  parseInt10 (Z_to_string (Z.pos p)) = Z2F (Z.pos p).
Proof.
  destruct (scan_Z_to_string p) as (n & Hn & Hscan).
  pose proof (digits_Z_to_string (Z.pos p) ltac:(lia)) as Hd.
  unfold parseInt10.
  destruct (Z_to_string (Z.pos p)) as [|c r] eqn:Es.
  { cbn in Hscan. injection Hscan as ? ?. lia. }
  unfold digitsOnly in Hd. cbn [list_ascii_of_string forallb] in Hd.
  apply andb_true_iff in Hd as [Hc _].
  destruct (digit_first c Hc) as (Hsp & Hm & Hp & _).
  cbn [trim_start]. rewrite Hsp.
  assert (Hsign : scan_sign (String c r) = (false, String c r)).
  { unfold scan_sign. apply Ascii.eqb_neq in Hm, Hp.
    destruct c as [[] [] [] [] [] [] [] []]; try reflexivity; congruence. }
  rewrite Hsign, Hscan.
  destruct (n =? 0) eqn:E; [apply Z.eqb_eq in E; lia|reflexivity].
Qed.

Lemma trim_start_digits (s : string) : digitsOnly s = true -> trim_start s = s.
Proof.
  destruct s as [|c r]; [reflexivity|]. unfold digitsOnly.
  cbn [list_ascii_of_string forallb trim_start]. intros Hd.
  apply andb_true_iff in Hd as [Hc _].
  destruct (digit_first c Hc) as (-> & _). reflexivity.
Qed.

Lemma rev_string_digits (s : string) :
  digitsOnly s = true -> digitsOnly (rev_string s) = true.
Proof.
  unfold digitsOnly, rev_string. rewrite list_ascii_of_string_of_list_ascii.
  rewrite !forallb_forall. intros Hd c Hc. apply Hd, in_rev, Hc.
Qed.

Lemma rev_string_involutive (s : string) : rev_string (rev_string s) = s.
Proof.
  unfold rev_string.
  rewrite list_ascii_of_string_of_list_ascii, rev_involutive.
  apply string_of_list_ascii_of_string.
Qed.

Lemma trim_digits (s : string) : digitsOnly s = true -> trim s = s.
Proof.
  intros Hd. unfold trim. rewrite (trim_start_digits s Hd).
  rewrite (trim_start_digits _ (rev_string_digits s Hd)).
  apply rev_string_involutive.
Qed.

(** [Number(s)] of the decimal text of a positive integer. *)
Lemma Number_str_Z_to_string (p : positive) :
  Number_str (Z_to_string (Z.pos p)) = Z2F (Z.pos p).
Proof.
  destruct (scan_Z_to_string p) as (n & Hn & Hscan).
  pose proof (digits_Z_to_string (Z.pos p) ltac:(lia)) as Hd.
  unfold Number_str. rewrite (trim_digits _ Hd).
  assert (Hdec : scan_decimal (Z_to_string (Z.pos p)) = Some (Z2F (Z.pos p), "")).
  { unfold scan_decimal.
    destruct (Z_to_string (Z.pos p)) as [|c r] eqn:Es.
    { cbn in Hscan. injection Hscan as ? ?. lia. }
    unfold digitsOnly in Hd. cbn [list_ascii_of_string forallb] in Hd.
    apply andb_true_iff in Hd as [Hc _].
    destruct (digit_first c Hc) as (_ & Hm & Hp & Hi & _).
    assert (Hsign : scan_sign (String c r) = (false, String c r)).
    { unfold scan_sign. apply Ascii.eqb_neq in Hm, Hp.
      destruct c as [[] [] [] [] [] [] [] []]; try reflexivity; congruence. }
    rewrite Hsign. cbn [strip_prefix]. rewrite Hi, Hscan.
    destruct (n =? 0) eqn:E; [apply Z.eqb_eq in E; lia|].
    cbn [negb scan_exponent]. unfold dec2float, Z2F.
    change (0 <=? 0 - 0) with true. cbv iota.
    replace (Z.pos p * 10 ^ (0 - 0)) with (Z.pos p) by lia. reflexivity. }
  destruct (Z_to_string (Z.pos p)) as [|c r] eqn:Es.
  { discriminate Hdec. }
  assert (Hgen : match scan_decimal (String c r) with
                 | Some (f, EmptyString) => f
                 | _ => NaN
                 end = Z2F (Z.pos p)) by (rewrite Hdec; reflexivity).
  unfold digitsOnly in Hd. cbn [list_ascii_of_string forallb] in Hd.
  apply andb_true_iff in Hd as [Hc Hr].
  destruct r as [|c' r'].
  - destruct c as [[] [] [] [] [] [] [] []]; exact Hgen.
  - cbn [forallb] in Hr. apply andb_true_iff in Hr as [Hc' _].
    destruct (digit_first c' Hc') as (_ & _ & _ & _ & _ & -> & -> & -> & -> & -> & ->).
    destruct c as [[] [] [] [] [] [] [] []]; exact Hgen.
Qed.

(** The years from 100 to 9999 are Numbers that convert back exactly. *)
Lemma year_floats (y : Z) :
  100 <= y <= 9999 ->
  F2Z (Z2F y) = Some y /\ (Z2F y <? 100)%float = false.
Proof.
  assert (Hall : allFrom (fun y => bool_decide (F2Z (Z2F y) = Some y)
                                   && negb (Z2F y <? 100)%float)
                         100 (Z.to_nat 9900) = true)
    by (vm_compute; reflexivity).
  intros Hy. pose proof (allFrom_spec _ _ _ Hall y ltac:(lia)) as E.
  cbv beta in E. apply andb_true_iff in E as [E1 E2].
  apply bool_decide_eq_true in E1. apply negb_true_iff in E2. auto.
Qed.

(** ** Reading a padded decimal text *)

Lemma uint_of_zeros (k : nat) (s : string) :
  NilEmpty.uint_of_string (zeros k +:+ s)
  = Nat.iter k Decimal.D0 <$> NilEmpty.uint_of_string s.
Proof.
  induction k as [|k IH].
  - change (zeros 0 +:+ s) with s. destruct (NilEmpty.uint_of_string s); reflexivity.
  - change (zeros (S k) +:+ s) with (String "0" (zeros k +:+ s)).
    cbn [NilEmpty.uint_of_string]. rewrite IH.
    destruct (NilEmpty.uint_of_string s); reflexivity.
Qed.

Lemma of_uint_zeros (k : nat) (u : Decimal.uint) :
  Z.of_uint (Nat.iter k Decimal.D0 u) = Z.of_uint u.
Proof. induction k as [|k IH]; [reflexivity|exact IH]. Qed.

Lemma readZ_pad (k : nat) (y : Z) :
  0 <= y -> readZ (pad_left k (Z_to_string y)) = y.
Proof.
  intros Hy. unfold readZ, pad_left.
  assert (E : exists u, Z_to_string y = NilEmpty.string_of_uint u
                        /\ u <> Decimal.Nil /\ Z.of_uint u = y).
  { destruct y as [|p|p]; [|clear Hy|lia].
    - exists (Decimal.D0 Decimal.Nil). repeat split. discriminate.
    - exists (Pos.to_uint p). destruct (Z_to_string_pos p) as [E _].
      split; [exact E|]. split; [apply DecimalPos.Unsigned.to_uint_nonnil|].
      unfold Z.of_uint. rewrite DecimalPos.Unsigned.of_to. reflexivity. }
  destruct E as (u & -> & Hu & Ey).
  set (k' := (k - String.length (NilEmpty.string_of_uint u))%nat). clearbody k'.
  assert (En : NilZero.uint_of_string (zeros k' +:+ NilEmpty.string_of_uint u)
               = NilEmpty.uint_of_string (zeros k' +:+ NilEmpty.string_of_uint u)).
  { destruct k' as [|k'].
    - change (zeros 0 +:+ ?x) with x.
      destruct u; [congruence|..]; reflexivity.
    - reflexivity. }
  rewrite En, uint_of_zeros, NilEmpty.usu. cbn [fmap option_fmap option_map].
  rewrite of_uint_zeros. exact Ey.
Qed.

(** ** Calendar days and [toDateString] *)

Lemma below_listed (n z : Z) :
  0 <= z < n -> In z (map Z.of_nat (seq 0 (Z.to_nat n))).
Proof.
  intros Hz. apply in_map_iff. exists (Z.to_nat z).
  split; [lia|]. apply in_seq. lia.
Qed.

Lemma DayFromYear_mono (a b : Z) : a <= b -> DayFromYear a <= DayFromYear b.
Proof. unfold DayFromYear. intros Hab. Z.div_mod_to_equations. lia. Qed.

Lemma YearFromTime_bounds (lt : Z) :
  fourDigitYear lt -> 0 <= YearFromTime lt <= 9999.
Proof.
  unfold fourDigitYear, YearFromTime. intros Hlt.
  pose proof (YearFromDay_spec (Day lt)) as [Hlo Hhi].
  assert (Hd : -719528 <= Day lt < 2932897).
  { unfold Day, msPerDay. Z.div_mod_to_equations. lia. }
  split.
  - destruct (Z.le_gt_cases 0 (YearFromDay (Day lt))) as [|Hneg]; [assumption|].
    pose proof (DayFromYear_mono (YearFromDay (Day lt) + 1) 0 ltac:(lia)) as Hm.
    change (DayFromYear 0) with (-719528) in Hm. lia.
  - destruct (Z.le_gt_cases (YearFromDay (Day lt)) 9999) as [|Hbig]; [assumption|].
    pose proof (DayFromYear_mono 10000 (YearFromDay (Day lt)) ltac:(lia)) as Hm.
    change (DayFromYear 10000) with 2932897 in Hm. lia.
Qed.

Lemma string_app_inj_prefix (a a' b b' : string) :
  String.length a = String.length a' -> a +:+ b = a' +:+ b' -> a = a' /\ b = b'.
Proof.
  revert a'. induction a as [|c a IH]; intros [|c' a'] Hl E;
    try discriminate Hl.
  - auto.
  - injection Hl as Hl. injection E as -> E.
    destruct (IH a' Hl E) as [-> ->]. auto.
Qed.

Lemma year_text_inj (a b : Z) :
  0 <= a <= 9999 -> 0 <= b <= 9999 ->
  pad_left 4 (Z_to_string a) = pad_left 4 (Z_to_string b) -> a = b.
Proof.
  intros Ha Hb E. apply (f_equal readZ) in E.
  rewrite !readZ_pad in E by lia. exact E.
Qed.

Lemma day_text (n : Z) :
  0 <= n < 100 -> pad_left 2 (Z_to_string n) = pad2 (Some n).
Proof.
  assert (Hall : forallb (fun y => String.eqb (pad_left 2 (Z_to_string y))
                                              (pad2 (Some y)))
                         (map Z.of_nat (seq 0 (Z.to_nat 100))) = true)
    by (vm_compute; reflexivity).
  rewrite forallb_forall in Hall.
  intros Hn. apply String.eqb_eq, Hall, below_listed. lia.
Qed.

Lemma name_inj (names : list string) (n : nat) :
  length names = n ->
  forallb (fun i => forallb (fun j =>
     implb (String.eqb (nth i names "") (nth j names "")) (i =? j)%nat)
       (seq 0 n)) (seq 0 n) = true ->
  forall a b : Z, 0 <= a < Z.of_nat n -> 0 <= b < Z.of_nat n ->
    nth (Z.to_nat a) names "" = nth (Z.to_nat b) names "" -> a = b.
Proof.
  intros _ Hall a b Ha Hb E. rewrite forallb_forall in Hall.
  specialize (Hall (Z.to_nat a) ltac:(apply in_seq; lia)).
  rewrite forallb_forall in Hall.
  specialize (Hall (Z.to_nat b) ltac:(apply in_seq; lia)).
  rewrite E, String.eqb_refl in Hall. simpl in Hall.
  apply Nat.eqb_eq in Hall. lia.
Qed.

Lemma name_length (names : list string) (n : nat) (a : Z) :
  forallb (fun i => (String.length (nth i names "") =? 3)%nat) (seq 0 n) = true ->
  0 <= a < Z.of_nat n -> String.length (nth (Z.to_nat a) names "") = 3%nat.
Proof.
  intros Hall Ha. rewrite forallb_forall in Hall.
  apply Nat.eqb_eq, Hall, in_seq. lia.
Qed.

Lemma toDateString_same_day (tz t1 t2 : Z) :
  Day (t1 + tz) = Day (t2 + tz) ->
  toDateString tz (Some t1) = toDateString tz (Some t2).
Proof.
  intros E. unfold toDateString, LocalTime.
  destruct (same_day_same_fields _ _ E) as (-> & -> & -> & ->). reflexivity.
Qed.

Lemma toDateString_inj (tz t1 t2 : Z) :
  fourDigitYear (t1 + tz) -> fourDigitYear (t2 + tz) ->
  toDateString tz (Some t1) = toDateString tz (Some t2) ->
  Day (t1 + tz) = Day (t2 + tz).
Proof.
  intros H1 H2. unfold toDateString, LocalTime.
  set (a1 := t1 + tz) in *. set (a2 := t2 + tz) in *.
  apply YearFromTime_bounds in H1, H2.
  pose proof (MonthFromTime_range a1). pose proof (MonthFromTime_range a2).
  pose proof (DateFromTime_range a1). pose proof (DateFromTime_range a2).
  pose proof (WeekDay_range a1). pose proof (WeekDay_range a2).
  destruct (Z.ltb_spec (YearFromTime a1) 0); [lia|].
  destruct (Z.ltb_spec (YearFromTime a2) 0); [lia|].
  change ("" +:+ ?x) with x.
  rewrite !Z.abs_eq by lia.
  pose proof (name_length dayNames 7 (WeekDay a1) eq_refl ltac:(lia)) as Lw1.
  pose proof (name_length dayNames 7 (WeekDay a2) eq_refl ltac:(lia)) as Lw2.
  pose proof (name_length monthNames 12 (MonthFromTime a1) eq_refl ltac:(lia)) as Lm1.
  pose proof (name_length monthNames 12 (MonthFromTime a2) eq_refl ltac:(lia)) as Lm2.
  pose proof (name_inj monthNames 12 eq_refl eq_refl (MonthFromTime a1)
                (MonthFromTime a2) ltac:(lia) ltac:(lia)) as Hm.
  set (w1 := nth (Z.to_nat (WeekDay a1)) dayNames "") in *.
  set (w2 := nth (Z.to_nat (WeekDay a2)) dayNames "") in *.
  set (m1 := nth (Z.to_nat (MonthFromTime a1)) monthNames "") in *.
  set (m2 := nth (Z.to_nat (MonthFromTime a2)) monthNames "") in *.
  clearbody w1 w2 m1 m2.
  intros E.
  apply string_app_inj_prefix in E as [_ E]; [|congruence].
  change (" " +:+ ?x) with (String " " x) in E. injection E as E.
  apply string_app_inj_prefix in E as [Em E]; [|congruence].
  change (" " +:+ ?x) with (String " " x) in E. injection E as E.
  rewrite !day_text in E by lia.
  apply string_app_inj_prefix in E as [Ed E].
  2:{ rewrite !pad2_length by lia. reflexivity. }
  change (" " +:+ ?x) with (String " " x) in E. injection E as Ey.
  apply year_text_inj in Ey; [|lia|lia].
  apply pad2_inj in Ed; [|lia|lia].
  rewrite <- (MakeDay_fields a1), <- (MakeDay_fields a2).
  rewrite Ey, Ed, (Hm Em). reflexivity.
Qed.

Lemma plausible_local (tz t : Z) :
  plausible tz t ->
  fourDigitYear (t + tz) /\ fourDigitYear (t - msPerDay + tz).
Proof. unfold plausible, fourDigitYear, msPerDay. lia. Qed.

Lemma TimeClip_ok (t : Z) : Z.abs t <= 8640000000000000 -> TimeClip t = Some t.
Proof.
  intros Ht. unfold TimeClip. destruct (Z.leb_spec (Z.abs t) 8640000000000000);
    [reflexivity|lia].
Qed.

Lemma dayBefore_spec (H : Host) (t : Z) :
  dayBefore H (Some t) = TimeClip (t - msPerDay).
Proof.
  unfold dayBefore, setDate, getDate. cbn [fmap option_fmap option_map].
  f_equal. unfold UTC, MakeDate, LocalTime.
  set (lt := t + tz H).
  assert (E : MakeDay (YearFromTime lt) (MonthFromTime lt) (DateFromTime lt - 1)
              = Day lt - 1).
  { rewrite <- (MakeDay_fields lt). unfold MakeDay. lia. }
  rewrite E. pose proof (Day_TimeWithinDay lt). unfold lt in *. lia.
Qed.

Lemma startOfDay_spec (tz t : Z) :
  startOfDay tz (Some t) = TimeClip (Day (t + tz) * msPerDay - tz).
Proof.
  unfold startOfDay, UTC, MakeDate, MakeTime, LocalTime. f_equal. lia.
Qed.

Lemma Day_mono (a b : Z) : a <= b -> Day a <= Day b.
Proof. unfold Day, msPerDay. intros. Z.div_mod_to_equations. lia. Qed.

Lemma Day_minus_one (a : Z) : Day (a - msPerDay) = Day a - 1.
Proof.
  replace (a - msPerDay) with (a + (-1) * msPerDay) by lia.
  rewrite Day_add_days. lia.
Qed.

Lemma invalid_text_differs (tz t : Z) :
  toDateString tz None <> toDateString tz (Some t).
Proof.
  unfold toDateString.
  pose proof (WeekDay_range (LocalTime tz t)) as Hw.
  pose proof (name_length dayNames 7 _ eq_refl Hw) as Lw.
  set (w1 := nth _ dayNames _) in *. clearbody w1.
  destruct w1 as [|c1 [|c2 [|c3 [|c4 r]]]]; try discriminate Lw.
  intros E. apply (f_equal (String.get 3)) in E. discriminate E.
Qed.

Lemma calendar_day_tests_parts (H : Host) (w : World) (t : Z) :
  plausible (tz H) (now w) -> plausible (tz H) t ->
  (isToday H w (Some t) = true <-> Day (t + tz H) = Day (now w + tz H))
  /\ (isYesterday H w (Some t) = true
      <-> Day (t + tz H) = Day (now w + tz H) - 1)
  /\ isToday H w None = false /\ isYesterday H w None = false.
Proof.
  intros Hn Ht.
  destruct (plausible_local _ _ Hn) as [Hn1 Hn2].
  destruct (plausible_local _ _ Ht) as [Ht1 _].
  assert (Ey : dayBefore H (Some (now w)) = Some (now w - msPerDay)).
  { rewrite dayBefore_spec. apply TimeClip_ok.
    unfold plausible, msPerDay in *. lia. }
  unfold isToday, isYesterday. rewrite Ey.
  repeat split.
  - intros E. apply String.eqb_eq in E. apply toDateString_inj; assumption.
  - intros E. apply String.eqb_eq, toDateString_same_day, E.
  - intros E. apply String.eqb_eq in E. apply toDateString_inj in E; [|assumption..].
    rewrite E. replace (now w - msPerDay + tz H) with (now w + tz H - msPerDay) by lia.
    apply Day_minus_one.
  - intros E. apply String.eqb_eq, toDateString_same_day.
    replace (now w - msPerDay + tz H) with (now w + tz H - msPerDay) by lia.
    rewrite Day_minus_one. exact E.
  - apply String.eqb_neq, invalid_text_differs.
  - apply String.eqb_neq, invalid_text_differs.
Qed.

(** X9 (isToday, isYesterday): For instants from 1970 to the year 9999
    and a zone within a day of UTC, isToday holds exactly for the
    dates on the local calendar day of the current instant and
    isYesterday exactly for those on the day before; both are false
    for an invalid Date. *)
Theorem calendar_day_tests (H : Host) (w : World) (t : Z) :
  plausible (tz H) (now w) -> plausible (tz H) t ->
  (isToday H w (Some t) = true <-> Day (t + tz H) = Day (now w + tz H))
  /\ (isYesterday H w (Some t) = true
      <-> Day (t + tz H) = Day (now w + tz H) - 1)
  /\ isToday H w None = false /\ isYesterday H w None = false.
Proof. apply calendar_day_tests_parts. Qed.

(** ** The daily update, case by case *)

Ltac run_action :=
  unfold mbind, mret, Action_bind, Action_ret, notify, lift, readSheet,
    writeSheet, fetchData;
  cbn [sheetOf storeOf shown].

Lemma getSheetData_nonempty (sheet : Sheet) :
  sheet <> [] -> getSheetData sheet = Ok sheet.
Proof.
  intros Hne. unfold getSheetData, getLastRow. destruct sheet; [contradiction|].
  simpl length. destruct (Z.ltb_spec (Z.of_nat (S (length sheet))) 1); [lia|].
  reflexivity.
Qed.

(** X10 (handleHistoricalUpdate, handleTodayUpdate,
    handleYesterdayUpdate, updateDollarsUntilToday): When the user
    does not answer YES, updateDollarsUntilToday shows exactly one
    dialog (the question, or the error alert on an empty sheet) and
    leaves the sheet and the cache untouched: nothing is fetched or
    written before the confirmation. *)
Theorem nothing_before_confirmation (H : Host) (K : Clock) (w : World)
  (sheet : Sheet) (st : Store) :
  exists n : Notice,
    updateDollarsUntilToday H K w false (Some sheet) st = ([n], Some sheet, st).
Proof.
  unfold updateDollarsUntilToday, dispatch. run_action.
  destruct sheet as [|r0 rest].
  - eexists. reflexivity.
  - rewrite getSheetData_nonempty by discriminate.
    destruct (isToday H w _).
    + unfold handleTodayUpdate. run_action. eexists. reflexivity.
    + destruct (isYesterday H w _).
      * unfold handleYesterdayUpdate. run_action. eexists. reflexivity.
      * unfold handleHistoricalUpdate. run_action. eexists. reflexivity.
Qed.

Lemma dolarRow_shape (H : Host) (K : Clock) (w : World) (values : Values)
  (date : Date) (rowData : Row) :
  dolarRow H K w values date = Ok rowData ->
  length rowData = columnCount
  /\ exists rest, rowData = CText (formatDate date "dayColumn") :: rest.
Proof.
  unfold dolarRow. destruct (newDateOfVal K (fechaActualizacion values));
    [|discriminate].
  cbn [bind]. intros [= <-]. split; [reflexivity|]. eexists. reflexivity.
Qed.

Lemma putRow_last (sheet : Sheet) (data : Row) :
  sheet <> [] ->
  putRow sheet (Z.of_nat (length sheet)) data
  = Ok (setRow sheet (Z.of_nat (length sheet)) data).
Proof.
  intros Hne. unfold putRow, getLastRow.
  destruct sheet as [|r0 rest]; [contradiction|].
  destruct (Z.ltb_spec (Z.of_nat (length (r0 :: rest))) 1);
    [simpl length in *; lia|].
  rewrite Z.leb_refl. reflexivity.
Qed.

Lemma putRow_next (sheet : Sheet) (data : Row) :
  putRow sheet (Z.of_nat (length sheet) + 1) data = Ok (sheet ++ [data]).
Proof.
  unfold putRow, getLastRow.
  destruct (Z.ltb_spec (Z.of_nat (length sheet) + 1) 1); [lia|].
  destruct (Z.leb_spec (Z.of_nat (length sheet) + 1) (Z.of_nat (length sheet)));
    [lia|].
  replace (Z.of_nat (length sheet) + 1 - Z.of_nat (length sheet) - 1) with 0 by lia.
  reflexivity.
Qed.

(** X11 (handleTodayUpdate, updateDolarData, updateDollarsUntilToday):
    When the last row is dated on today's local calendar day and the
    current API answers, a confirmed updateDollarsUntilToday
    overwrites the first 15 cells of the last row with the row built
    from the current quotes; the row count and every other row are
    unchanged. *)
Theorem today_rewrites_last_row (H : Host) (K : Clock) (w : World)
  (sheet : Sheet) (st st1 : Store) (t : Z) (r : ApiResponse) (values : Values)
  (rowData : Row) :
  sheet <> [] ->
  plausible (tz H) (now w) -> plausible (tz H) t ->
  newDateOfCell H (lastCell sheet) = Some t ->
  Day (t + tz H) = Day (now w + tz H) ->
  fetchDataFromApis H w (Some (now w)) "current" st = (Some r, st1) ->
  processCurrentApiData H w (data r) = Ok values ->
  dolarRow H K w values (Some (now w)) = Ok rowData ->
  let sheet' := setRow sheet (Z.of_nat (length sheet)) rowData in
  updateDollarsUntilToday H K w true (Some sheet) st
  = ([AskToday; TodayUpdated], Some sheet', st1)
  /\ length sheet' = length sheet
  /\ (forall i, (S i < length sheet)%nat -> sheet' !! i = sheet !! i)
  /\ (exists old, last sheet = Some old
                  /\ last sheet' = Some (rowData ++ drop columnCount old)).
Proof.
  intros Hne Hn Ht Hlast Hday Hf Hp Hrow sheet'.
  destruct (calendar_day_tests_parts H w t Hn Ht) as (Htoday & _).
  split.
  - unfold updateDollarsUntilToday, dispatch. run_action.
    rewrite getSheetData_nonempty by exact Hne.
    rewrite Hlast, (proj2 Htoday Hday).
    unfold handleTodayUpdate. run_action. rewrite Hf. cbn [storeOf sheetOf shown].
    rewrite Hp. unfold updateDolarData. run_action.
    rewrite Hrow, putRow_last by exact Hne. reflexivity.
  - split; [apply setRow_length|]. split.
    + intros i Hi. unfold sheet', setRow. apply list_lookup_alter_ne. lia.
    + destruct (dolarRow_shape _ _ _ _ _ _ Hrow) as [Hlen _].
      destruct (last sheet) as [old|] eqn:El.
      2:{ apply last_None in El. contradiction. }
      exists old. split; [reflexivity|].
      rewrite last_lookup in El |- *. unfold sheet'.
      rewrite setRow_length. unfold setRow.
      replace (Z.to_nat (Z.of_nat (length sheet) - 1)) with (pred (length sheet))
        by lia.
      rewrite list_lookup_alter_eq, El. cbn. rewrite Hlen. reflexivity.
Qed.

(** X12 (handleYesterdayUpdate, updateDolarData,
    updateDollarsUntilToday): When the last row is dated on
    yesterday's local calendar day, a confirmed
    updateDollarsUntilToday appends exactly one row of 15 cells,
    labelled with today's date and built from the historical API's
    answer for the instant 24 hours before now. *)
Theorem yesterday_appends_today (H : Host) (K : Clock) (w : World)
  (sheet : Sheet) (st st1 : Store) (t : Z) (r : ApiResponse) (values : Values)
  (rowData : Row) :
  sheet <> [] ->
  plausible (tz H) (now w) -> plausible (tz H) t ->
  newDateOfCell H (lastCell sheet) = Some t ->
  Day (t + tz H) = Day (now w + tz H) - 1 ->
  fetchDataFromApis H w (Some (now w - msPerDay)) "historical" st = (Some r, st1) ->
  processHistoricalApiData w (data r) = Ok values ->
  dolarRow H K w values (Some (now w)) = Ok rowData ->
  updateDollarsUntilToday H K w true (Some sheet) st
  = ([AskYesterday; YesterdayAdded], Some (sheet ++ [rowData]), st1)
  /\ length rowData = columnCount
  /\ exists rest, rowData = CText (formatDate (Some (now w)) "dayColumn") :: rest.
Proof.
  intros Hne Hn Ht Hlast Hday Hf Hp Hrow.
  destruct (calendar_day_tests_parts H w t Hn Ht) as (Htoday & Hyest & _).
  split; [|exact (dolarRow_shape _ _ _ _ _ _ Hrow)].
  unfold updateDollarsUntilToday, dispatch. run_action.
  rewrite getSheetData_nonempty by exact Hne.
  rewrite Hlast.
  assert (Hnot : isToday H w (Some t) = false).
  { apply not_true_is_false. intros E. apply Htoday in E. lia. }
  rewrite Hnot, (proj2 Hyest Hday).
  unfold handleYesterdayUpdate. run_action.
  rewrite dayBefore_spec, TimeClip_ok
    by (unfold plausible, msPerDay in *; lia).
  rewrite Hf. cbn [storeOf sheetOf shown].
  rewrite Hp. unfold updateDolarData. run_action.
  rewrite Hrow, putRow_next. reflexivity.
Qed.

(** X13 (handleHistoricalUpdate, updateDollarsUntilToday): When the
    last row is dated from 1970 on and before 2015-01-01 (today being
    2015-01-04 or later), a confirmed updateDollarsUntilToday shows
    the historical-update error and stops: no row is written and
    nothing is fetched, not even today's quotes. *)
Theorem too_old_to_update (H : Host) (K : Clock) (w : World)
  (sheet : Sheet) (st : Store) (t : Z) :
  sheet <> [] ->
  plausible (tz H) (now w) -> plausible (tz H) t ->
  newDateOfCell H (lastCell sheet) = Some t ->
  t < 1420070400000 -> 1420070400000 + 3 * msPerDay <= now w ->
  exists detail,
    updateDollarsUntilToday H K w true (Some sheet) st
    = ([AskHistorical (formatDate (Some t) "verbose"); HistoricalFailed detail],
       Some sheet, st).
Proof.
  intros Hne Hn Ht Hlast Hold Hnow.
  destruct (calendar_day_tests_parts H w t Hn Ht) as (Htoday & Hyest & _).
  assert (Hdays : Day (t + tz H) + 2 <= Day (now w + tz H)).
  { rewrite <- (Day_add_days (t + tz H) 2). apply Day_mono.
    unfold msPerDay in *. lia. }
  assert (Hnot : isToday H w (Some t) = false).
  { apply not_true_is_false. intros E. apply Htoday in E. lia. }
  assert (Hnoy : isYesterday H w (Some t) = false).
  { apply not_true_is_false. intros E. apply Hyest in E. lia. }
  unfold updateDollarsUntilToday, dispatch. run_action.
  rewrite getSheetData_nonempty by exact Hne.
  rewrite Hlast, Hnot, Hnoy.
  unfold handleHistoricalUpdate. run_action.
  rewrite startOfDay_spec.
  pose proof (Day_TimeWithinDay (now w + tz H)) as Hd.
  assert (Hr : 0 <= TimeWithinDay (now w + tz H) < msPerDay)
    by (apply Z.mod_pos_bound; reflexivity).
  rewrite TimeClip_ok by (unfold plausible, msPerDay in *; lia).
  rewrite dayBefore_spec.
  rewrite TimeClip_ok by (unfold plausible, msPerDay in *; lia).
  assert (Hlt : date_lt (Some t)
                  (Some (Day (now w + tz H) * msPerDay - tz H - msPerDay)) = true).
  { cbn [date_lt]. apply Z.ltb_lt.
    pose proof (Day_TimeWithinDay (t + tz H)) as Hdt.
    assert (0 <= TimeWithinDay (t + tz H) < msPerDay)
      by (apply Z.mod_pos_bound; reflexivity).
    nia. }
  rewrite Hlt. unfold runHistorical. cbn [sheetOf storeOf shown].
  assert (Hv : exists m, validateDate (Some t) minDate2015 (Some (now w))
                         = Throw (Error m) /\ m <> "").
  { unfold validateDate. cbn [negb]. rewrite bool_decide_eq_true_2 by eauto.
    cbn [negb]. unfold minDate2015. cbn [date_lt].
    destruct (Z.ltb_spec t 1420070400000); [|lia]. cbn [orb].
    eexists. split; [reflexivity|]. discriminate. }
  destruct Hv as (m & Hv & Hm).
  unfold updateHistoricalValues. rewrite Hv. cbn [error_message].
  apply String.eqb_neq in Hm. rewrite Hm.
  run_action. eexists. reflexivity.
Qed.

Lemma fetchDataFromApis_current (H : Host) (w : World) (d : Date) (st st1 : Store)
  (r : option ApiResponse) :
  fetchDataFromApis H w d "current" st = (r, st1) ->
  fetches st1 = fetches st \/ fetches st1 = fetches st ++ [API_CURRENT].
Proof.
  unfold fetchDataFromApis. change (String.eqb "current" "current") with true.
  cbv iota.
  assert (Hf : fetches (snd (getCachedOrFetch w API_CURRENT defaultCacheTime st))
               = fetches st
               \/ fetches (snd (getCachedOrFetch w API_CURRENT defaultCacheTime st))
                  = fetches st ++ [API_CURRENT]).
  { unfold getCachedOrFetch. destruct (cache_get w st API_CURRENT);
      [left; reflexivity|].
    destruct (net w API_CURRENT); right; reflexivity. }
  destruct (getCachedOrFetch w API_CURRENT defaultCacheTime st)
    as [[response|err] st']; cbn [snd] in Hf.
  - destruct (String.eqb response ""); [intros [= _ <-]; exact Hf|].
    destruct (JSON_parse H response); intros [= _ <-]; exact Hf.
  - intros [= _ <-]. exact Hf.
Qed.

(** X14 (handleHistoricalUpdate, updateDollarsUntilToday): When the
    first cell of the last row does not read as a date (a sheet
    holding only its header, for instance), a confirmed
    updateDollarsUntilToday asks with the label 'undefined aN de
    undefined de NaN', fetches no historical day, and appends one row
    for today from the current quotes. *)
Theorem unreadable_last_date_skips_history (H : Host) (K : Clock) (w : World)
  (sheet : Sheet) (st st1 : Store) (r : ApiResponse) (values : Values)
  (rowData : Row) :
  sheet <> [] ->
  plausible (tz H) (now w) ->
  newDateOfCell H (lastCell sheet) = None ->
  let today := Some (Day (now w + tz H) * msPerDay - tz H) in
  fetchDataFromApis H w today "current" st = (Some r, st1) ->
  processCurrentApiData H w (data r) = Ok values ->
  dolarRow H K w values today = Ok rowData ->
  updateDollarsUntilToday H K w true (Some sheet) st
  = ([AskHistorical "undefined aN de undefined de NaN"; UpToToday],
     Some (sheet ++ [rowData]), st1)
  /\ (fetches st1 = fetches st \/ fetches st1 = fetches st ++ [API_CURRENT]).
Proof.
  intros Hne Hn Hlast today Hf Hp Hrow.
  split; [|exact (fetchDataFromApis_current _ _ _ _ _ _ Hf)].
  destruct (calendar_day_tests_parts H w 0 Hn) as (_ & _ & Hnot & Hnoy).
  { unfold plausible, msPerDay in *. lia. }
  unfold updateDollarsUntilToday, dispatch. run_action.
  rewrite getSheetData_nonempty by exact Hne.
  rewrite Hlast, Hnot, Hnoy.
  unfold handleHistoricalUpdate. run_action.
  rewrite startOfDay_spec.
  pose proof (Day_TimeWithinDay (now w + tz H)) as Hd.
  assert (Hr : 0 <= TimeWithinDay (now w + tz H) < msPerDay)
    by (apply Z.mod_pos_bound; reflexivity).
  rewrite TimeClip_ok by (unfold plausible, msPerDay in *; lia).
  cbn [date_lt storeOf sheetOf shown]. fold today. rewrite Hf.
  cbn [storeOf sheetOf shown].
  rewrite Hp. unfold updateDolarData. run_action.
  unfold getLastRow. rewrite Hrow, putRow_next. reflexivity.
Qed.

Lemma calendar_day_tests_witness :
  isToday Samples.hostAR worldOpen (Some day_20240314) = true
  /\ isYesterday Samples.hostAR worldOpen (Some day_20240313) = true
  /\ isYesterday Samples.hostAR worldOpen (Some day_20240314) = false.
Proof.
  assert (Hn : plausible (tz Samples.hostAR) (now worldOpen))
    by (unfold plausible; vm_compute; repeat split; discriminate).
  destruct (calendar_day_tests Samples.hostAR worldOpen day_20240314 Hn)
    as (H1 & H2 & _);
    [unfold plausible; vm_compute; repeat split; discriminate|].
  destruct (calendar_day_tests Samples.hostAR worldOpen day_20240313 Hn)
    as (_ & H3 & _);
    [unfold plausible; vm_compute; repeat split; discriminate|].
  split; [apply H1; reflexivity|]. split; [apply H3; reflexivity|].
  apply not_true_is_false. intros E. apply H2 in E. vm_compute in E. discriminate E.
Defined.

Lemma today_rewrites_last_row_witness :
  exists sheet' st1,
    updateDollarsUntilToday Samples.hostAR clockOpen worldOpen true
      (Some (sheetUntil day_20240314)) Samples.emptyStore
    = ([AskToday; TodayUpdated], Some sheet', st1)
    /\ length sheet' = 2%nat
    /\ sheet' !! 0%nat = Some Samples.headerRow.
Proof.
  destruct (fetchDataFromApis Samples.hostAR worldOpen (Some (now worldOpen))
              "current" Samples.emptyStore) as [[r|] st1] eqn:Ef;
    [|vm_compute in Ef; discriminate].
  assert (Er : data r = Samples.payload)
    by (vm_compute in Ef; injection Ef as <- _; reflexivity).
  destruct (processCurrentApiData Samples.hostAR worldOpen (data r))
    as [values|] eqn:Ep; [|rewrite Er in Ep; vm_compute in Ep; discriminate].
  destruct (dolarRow Samples.hostAR clockOpen worldOpen values (Some (now worldOpen)))
    as [rowData|] eqn:Erow.
  2:{ unfold dolarRow in Erow.
      destruct (newDateOfVal clockOpen (fechaActualizacion values)) eqn:En;
        [discriminate|].
      rewrite Er in Ep. vm_compute in Ep. injection Ep as <-.
      vm_compute in En. discriminate. }
  destruct (today_rewrites_last_row Samples.hostAR clockOpen worldOpen
              (sheetUntil day_20240314) Samples.emptyStore st1 day_20240314
              r values rowData) as (E & Hl & Hi & _).
  - discriminate.
  - unfold plausible. vm_compute. repeat split; discriminate.
  - unfold plausible. vm_compute. repeat split; discriminate.
  - reflexivity.
  - reflexivity.
  - exact Ef.
  - exact Ep.
  - exact Erow.
  - eexists _, st1. split; [exact E|]. split; [exact Hl|].
    rewrite (Hi 0%nat); [reflexivity|simpl; lia].
Defined.

Lemma yesterday_appends_today_witness :
  exists rowData st1,
    updateDollarsUntilToday Samples.hostAR clockOpen worldOpen true
      (Some (sheetUntil day_20240313)) Samples.emptyStore
    = ([AskYesterday; YesterdayAdded],
       Some (sheetUntil day_20240313 ++ [rowData]), st1)
    /\ fetches st1 = [url_20240313]
    /\ cell0 rowData = CText "Jueves 14/03/2024".
Proof.
  destruct (fetchDataFromApis Samples.hostAR worldOpen
              (Some (now worldOpen - msPerDay)) "historical" Samples.emptyStore)
    as [[r|] st1] eqn:Ef; [|vm_compute in Ef; discriminate].
  assert (Er : data r = Samples.payload /\ fetches st1 = [url_20240313])
    by (vm_compute in Ef; injection Ef as <- <-; split; reflexivity).
  destruct Er as [Er Efs].
  destruct (processHistoricalApiData worldOpen (data r))
    as [values|] eqn:Ep; [|rewrite Er in Ep; vm_compute in Ep; discriminate].
  destruct (dolarRow Samples.hostAR clockOpen worldOpen values (Some (now worldOpen)))
    as [rowData|] eqn:Erow.
  2:{ unfold dolarRow in Erow.
      destruct (newDateOfVal clockOpen (fechaActualizacion values)) eqn:En;
        [discriminate|].
      rewrite Er in Ep. vm_compute in Ep. injection Ep as <-.
      vm_compute in En. discriminate. }
  destruct (yesterday_appends_today Samples.hostAR clockOpen worldOpen
              (sheetUntil day_20240313) Samples.emptyStore st1 day_20240313
              r values rowData) as (E & _ & rest & Hrest).
  - discriminate.
  - unfold plausible. vm_compute. repeat split; discriminate.
  - unfold plausible. vm_compute. repeat split; discriminate.
  - reflexivity.
  - reflexivity.
  - exact Ef.
  - exact Ep.
  - exact Erow.
  - exists rowData, st1. split; [exact E|]. split; [exact Efs|].
    rewrite Hrest. reflexivity.
Defined.

Lemma too_old_to_update_witness :
  exists detail,
    updateDollarsUntilToday Samples.hostAR clockOpen worldOpen true
      (Some (sheetUntil day_20140602)) Samples.emptyStore
    = ([AskHistorical "Lunes 02 de Junio de 2014"; HistoricalFailed detail],
       Some (sheetUntil day_20140602), Samples.emptyStore).
Proof.
  apply (too_old_to_update Samples.hostAR clockOpen worldOpen
           (sheetUntil day_20140602) Samples.emptyStore day_20140602).
  - discriminate.
  - unfold plausible. vm_compute. repeat split; discriminate.
  - unfold plausible. vm_compute. repeat split; discriminate.
  - reflexivity.
  - reflexivity.
  - vm_compute. discriminate.
Defined.

Lemma unreadable_last_date_skips_history_witness :
  exists rowData st1,
    updateDollarsUntilToday Samples.hostAR clockOpen worldOpen true
      (Some Samples.sheetHeader) Samples.emptyStore
    = ([AskHistorical "undefined aN de undefined de NaN"; UpToToday],
       Some [Samples.headerRow; rowData], st1)
    /\ fetches st1 = [API_CURRENT].
Proof.
  set (today := Some (Day (now worldOpen + tz Samples.hostAR) * msPerDay
                      - tz Samples.hostAR)).
  destruct (fetchDataFromApis Samples.hostAR worldOpen today "current"
              Samples.emptyStore) as [[r|] st1] eqn:Ef;
    [|vm_compute in Ef; discriminate].
  assert (Er : data r = Samples.payload /\ fetches st1 = [API_CURRENT])
    by (vm_compute in Ef; injection Ef as <- <-; split; reflexivity).
  destruct Er as [Er Efs].
  destruct (processCurrentApiData Samples.hostAR worldOpen (data r))
    as [values|] eqn:Ep; [|rewrite Er in Ep; vm_compute in Ep; discriminate].
  destruct (dolarRow Samples.hostAR clockOpen worldOpen values today)
    as [rowData|] eqn:Erow.
  2:{ unfold dolarRow in Erow.
      destruct (newDateOfVal clockOpen (fechaActualizacion values)) eqn:En;
        [discriminate|].
      rewrite Er in Ep. vm_compute in Ep. injection Ep as <-.
      vm_compute in En. discriminate. }
  destruct (unreadable_last_date_skips_history Samples.hostAR clockOpen worldOpen
              Samples.sheetHeader Samples.emptyStore st1 r values rowData)
    as (E & _).
  - discriminate.
  - unfold plausible. vm_compute. repeat split; discriminate.
  - reflexivity.
  - exact Ef.
  - exact Ep.
  - exact Erow.
  - exists rowData, st1. split; [exact E|exact Efs].
Defined.

(** ** Reading back what was printed *)

Lemma split_on_digits (p : ascii -> bool) (a : string) :
  (forall c, is_digit c = true -> p c = false) ->
  digitsOnly a = true ->
  split_on p a = [a]
  /\ forall (c : ascii) (r : string), p c = true ->
       split_on p (a +:+ String c r) = a :: split_on p r.
Proof.
  intros Hp. unfold digitsOnly. induction a as [|x a IH]; cbn [list_ascii_of_string forallb].
  - intros _. split; [reflexivity|]. intros c r Hc.
    change ("" +:+ String c r) with (String c r). cbn [split_on]. rewrite Hc.
    reflexivity.
  - intros Hd. apply andb_true_iff in Hd as [Hx Hd].
    destruct (IH Hd) as [E1 E2]. split.
    + cbn [split_on]. rewrite (Hp x Hx), E1. reflexivity.
    + intros c r Hc.
      change (String x a +:+ String c r) with (String x (a +:+ String c r)).
      cbn [split_on]. rewrite (Hp x Hx), (E2 c r Hc). reflexivity.
Qed.

Lemma digit_not_date_sep (c : ascii) : is_digit c = true -> is_date_sep c = false.
Proof.
  intros Hc. unfold is_date_sep.
  rewrite (digit_not "/" eq_refl c Hc), (digit_not "-" eq_refl c Hc). reflexivity.
Qed.

Lemma reads_two_all (n : Z) : 0 <= n < 100 -> reads_two n = true.
Proof.
  assert (Hall : forallb reads_two (map Z.of_nat (seq 0 (Z.to_nat 100))) = true)
    by (vm_compute; reflexivity).
  rewrite forallb_forall in Hall. intros Hn. apply Hall, below_listed. lia.
Qed.

Lemma reads_two_facts (n : Z) :
  0 <= n < 100 ->
  digitsOnly (pad2 (Some n)) = true
  /\ F2Z (parseInt10 (pad2 (Some n))) = Some n
  /\ F2Z (parseInt10 (pad2 (Some n)) - 1)%float = Some (n - 1)
  /\ F2Z (Number_str (pad2 (Some n))) = Some n
  /\ F2Z (Number_str (pad2 (Some n)) - 1)%float = Some (n - 1)
  /\ F2Z (Number_str (pad2 (Some n)) + 12)%float = Some (n + 12)
  /\ (Number_str (pad2 (Some n)) <? 12)%float = (n <? 12)
  /\ (Number_str (pad2 (Some n)) =? 12)%float = (n =? 12).
Proof.
  intros Hn. pose proof (reads_two_all n Hn) as E. unfold reads_two in E.
  repeat (apply andb_true_iff in E as [E ?]).
  repeat match goal with
         | X : bool_decide _ = true |- _ => apply bool_decide_eq_true in X
         | X : Bool.eqb _ _ = true |- _ => apply Bool.eqb_prop in X
         end.
  repeat split; assumption.
Qed.

Lemma reads_year_facts (y : Z) :
  100 <= y <= 9999 ->
  digitsOnly (Z_to_string y) = true
  /\ F2Z (parseInt10 (Z_to_string y)) = Some y
  /\ (parseInt10 (Z_to_string y) <? 100)%float = false
  /\ F2Z (Number_str (Z_to_string y)) = Some y.
Proof.
  intros Hy. destruct (year_floats y Hy) as [E1 E2].
  destruct y as [|p|p]; try lia.
  rewrite parseInt10_Z_to_string, Number_str_Z_to_string.
  split; [apply digits_Z_to_string; lia|auto].
Qed.

Lemma Day_bounds (a : Z) :
  100 <= YearFromTime a <= 9999 -> -700000 <= Day a < 3000000.
Proof.
  unfold YearFromTime. intros Hy.
  pose proof (YearFromDay_spec (Day a)) as [Hlo Hhi].
  pose proof (DayFromYear_mono 100 (YearFromDay (Day a)) ltac:(lia)) as H1.
  pose proof (DayFromYear_mono (YearFromDay (Day a) + 1) 10000 ltac:(lia)) as H2.
  let v := eval vm_compute in (DayFromYear 100) in
  change (DayFromYear 100) with v in H1.
  let v := eval vm_compute in (DayFromYear 10000) in
  change (DayFromYear 10000) with v in H2.
  lia.
Qed.

(** X15 (formatDate, parseCustomDate): In a script time zone of GMT-3,
    what formatDate prints in its default dd/mm/yyyy format for an
    instant of a civil year from 100 to 9999 is read by
    parseCustomDate as the midnight of that same civil day, which
    formatDate prints identically. *)
Theorem printed_date_reads_back (H : Host) (w : World) (t : Z) :
  tz H = -10800000 ->
  100 <= YearFromTime (t - 10800000) <= 9999 ->
  let midnight := Day (t - 10800000) * msPerDay + 10800000 in
  parseCustomDate H w (formatDate (Some t) "") = Ok (Some midnight)
  /\ formatDate (Some midnight) "" = formatDate (Some t) "".
Proof.
  intros Htz Hy midnight.
  pose proof (Day_bounds _ Hy) as Hday.
  assert (Hk : Z.abs (t - 10800000) <= 8640000000000000).
  { unfold Day, msPerDay in Hday. Z.div_mod_to_equations. lia. }
  assert (Hk' : Z.abs (midnight - 10800000) <= 8640000000000000).
  { unfold midnight, msPerDay. lia. }
  split.
  - rewrite formatDate_layout by exact Hk. set (a := t - 10800000) in *.
    unfold Inv.layout. cbn [String.eqb Ascii.eqb Bool.eqb].
    pose proof (MonthFromTime_range a) as Hm.
    pose proof (DateFromTime_range a) as Hd.
    destruct (reads_two_facts (DateFromTime a) ltac:(lia))
      as (Dd & Pd & _).
    destruct (reads_two_facts (MonthFromTime a + 1) ltac:(lia))
      as (Dm & _ & Pm & _).
    destruct (reads_year_facts (YearFromTime a) Hy) as (Dy & Py & Ly & _).
    set (dd := pad2 (Some (DateFromTime a))) in *.
    set (mm := pad2 (Some (MonthFromTime a + 1))) in *.
    set (yy := Z_to_string (YearFromTime a)) in *.
    unfold parseCustomDate.
    change (dd +:+ "/" +:+ mm +:+ "/" +:+ yy)
      with (dd +:+ String "/" (mm +:+ String "/" yy)).
    rewrite (proj2 (split_on_digits is_date_sep dd digit_not_date_sep Dd) "/"%char _ eq_refl).
    rewrite (proj2 (split_on_digits is_date_sep mm digit_not_date_sep Dm) "/"%char _ eq_refl).
    rewrite (proj1 (split_on_digits is_date_sep yy digit_not_date_sep Dy)).
    cbn [length Nat.ltb Nat.leb orb Nat.eqb nth]. rewrite Ly.
    unfold new_Date_ymd, new_Date_fields. rewrite Py, Pm, Pd.
    change (F2Z PrimFloat.zero) with (Some 0).
    replace (MonthFromTime a + 1 - 1) with (MonthFromTime a) by lia.
    destruct (Z.leb_spec (YearFromTime a) 99); [lia|].
    rewrite andb_false_r, MakeDay_fields.
    unfold UTC, MakeDate, MakeTime. rewrite Htz.
    rewrite TimeClip_ok by (unfold msPerDay, msPerHour, msPerMinute, msPerSecond; lia).
    rewrite bool_decide_eq_true_2 by eauto. cbn [negb].
    unfold midnight. do 2 f_equal.
    unfold msPerDay, msPerHour, msPerMinute, msPerSecond. lia.
  - rewrite (formatDate_layout t) by exact Hk.
    rewrite (formatDate_layout midnight) by exact Hk'. unfold midnight.
    replace (Day (t - 10800000) * msPerDay + 10800000 - 10800000)
      with (0 + Day (t - 10800000) * msPerDay) by lia.
    assert (E : Day (0 + Day (t - 10800000) * msPerDay) = Day (t - 10800000)).
    { rewrite Day_add_days. reflexivity. }
    destruct (same_day_same_fields _ _ E) as (Ey & Em & Ed & Ew).
    unfold Inv.layout. cbn [String.eqb Ascii.eqb Bool.eqb].
    rewrite Ey, Em, Ed. reflexivity.
Qed.

Lemma printed_date_reads_back_witness :
  formatDate (Some Samples.instant_20240315_0200) "" = "14/03/2024"
  /\ parseCustomDate Samples.hostAR Samples.worldSample "14/03/2024"
     = Ok (Some 1710385200000)
  /\ formatDate (Some 1710385200000) "" = "14/03/2024".
Proof.
  destruct (printed_date_reads_back Samples.hostAR Samples.worldSample
              Samples.instant_20240315_0200) as [E1 E2].
  - reflexivity.
  - vm_compute. split; discriminate.
  - split; [reflexivity|]. split; [exact E1|exact E2].
Defined.

Lemma split_on_free (p : ascii -> bool) (a : string) :
  free p a = true ->
  split_on p a = [a]
  /\ forall (c : ascii) (r : string), p c = true ->
       split_on p (a +:+ String c r) = a :: split_on p r.
Proof.
  unfold free. induction a as [|x a IH]; cbn [list_ascii_of_string forallb].
  - intros _. split; [reflexivity|]. intros c r Hc.
    change ("" +:+ String c r) with (String c r). cbn [split_on]. rewrite Hc.
    reflexivity.
  - intros Hd. apply andb_true_iff in Hd as [Hx Hd].
    apply negb_true_iff in Hx.
    destruct (IH Hd) as [E1 E2]. split.
    + cbn [split_on]. rewrite Hx, E1. reflexivity.
    + intros c r Hc.
      change (String x a +:+ String c r) with (String x (a +:+ String c r)).
      cbn [split_on]. rewrite Hx, (E2 c r Hc). reflexivity.
Qed.

Lemma free_app (p : ascii -> bool) (a b : string) :
  free p (a +:+ b) = free p a && free p b.
Proof.
  unfold free. induction a as [|x a IH].
  - reflexivity.
  - change (String x a +:+ b) with (String x (a +:+ b)).
    cbn [list_ascii_of_string forallb]. rewrite IH, andb_assoc. reflexivity.
Qed.

Lemma digits_free (p : ascii -> bool) (s : string) :
  (forall c, is_digit c = true -> p c = false) ->
  digitsOnly s = true -> free p s = true.
Proof.
  intros Hp. unfold digitsOnly, free.
  induction (list_ascii_of_string s) as [|c l IH]; cbn [forallb]; [reflexivity|].
  intros Hd. apply andb_true_iff in Hd as [Hc Hd].
  rewrite (Hp c Hc), (IH Hd). reflexivity.
Qed.

Lemma string_app_assoc (a b c : string) : (a +:+ b) +:+ c = a +:+ (b +:+ c).
Proof.
  induction a as [|x a IH]; [reflexivity|].
  change (String x a +:+ ?r) with (String x (a +:+ r)). rewrite <- IH.
  reflexivity.
Qed.

(** X16 (convertToDateTime): For a text 'dd/MM/yyyy hh:mm:ss a.m.' or
    '... p.m.' (two-digit fields, year 100 to 9999, either letter
    case), convertToDateTime returns new Date(yyyy, MM - 1, dd, H, mm,
    ss) in local time, where H is hh + 12 for p.m. with hh < 12, 0 for
    12 a.m., and hh otherwise. *)
Theorem convertToDateTime_twelve_hour (H : Host) (d mo y h mi s : Z)
  (period : string) :
  0 <= d < 100 -> 0 <= mo < 100 -> 100 <= y <= 9999 ->
  0 <= h < 100 -> 0 <= mi < 100 -> 0 <= s < 100 ->
  In period ["a.m."; "p.m."; "A.M."; "P.M."] ->
  let two (n : Z) := pad2 (Some n) in
  let text := two d +:+ "/" +:+ two mo +:+ "/" +:+ Z_to_string y +:+ " "
              +:+ two h +:+ ":" +:+ two mi +:+ ":" +:+ two s +:+ " " +:+ period in
  let pm := String.eqb (toLowerCase period) "p.m." in
  let h24 := if pm then (if h <? 12 then h + 12 else h)
             else (if h =? 12 then 0 else h) in
  convertToDateTime H (Some text)
  = Some (TimeClip (UTC (tz H) (MakeDate (MakeDay y (mo - 1) d)
                                         (MakeTime h24 mi s 0)))).
Proof.
  intros Hd Hmo Hy Hh Hmi Hs Hp two text pm h24.
  subst text two. cbv beta.
  destruct (reads_two_facts d Hd) as (Dd & _ & _ & Nd & _).
  destruct (reads_two_facts mo Hmo) as (Dmo & _ & _ & _ & Nmo & _).
  destruct (reads_year_facts y Hy) as (Dy & _ & _ & Ny).
  destruct (reads_two_facts h Hh) as (Dh & _ & _ & Nh & _ & Nh12 & Lh & Eh).
  destruct (reads_two_facts mi Hmi) as (Dmi & _ & _ & Nmi & _).
  destruct (reads_two_facts s Hs) as (Ds & _ & _ & Ns & _).
  set (sp := fun c => Ascii.eqb c " ").
  set (sl := fun c => Ascii.eqb c "/").
  set (co := fun c => Ascii.eqb c ":").
  assert (Hsp : forall c, is_digit c = true -> sp c = false)
    by (apply digit_not; reflexivity).
  assert (Hsl : forall c, is_digit c = true -> sl c = false)
    by (apply digit_not; reflexivity).
  assert (Hco : forall c, is_digit c = true -> co c = false)
    by (apply digit_not; reflexivity).
  set (datePart := pad2 (Some d) +:+ "/" +:+ pad2 (Some mo) +:+ "/" +:+ Z_to_string y).
  set (timePart := pad2 (Some h) +:+ ":" +:+ pad2 (Some mi) +:+ ":" +:+ pad2 (Some s)).
  assert (Fd : free sp datePart = true).
  { unfold datePart.
    rewrite !free_app, (digits_free sp (pad2 (Some d)) Hsp Dd),
      (digits_free sp (pad2 (Some mo)) Hsp Dmo), (digits_free sp _ Hsp Dy).
    reflexivity. }
  assert (Ft : free sp timePart = true).
  { unfold timePart.
    rewrite !free_app, (digits_free sp (pad2 (Some h)) Hsp Dh),
      (digits_free sp (pad2 (Some mi)) Hsp Dmi), (digits_free sp (pad2 (Some s)) Hsp Ds).
    reflexivity. }
  assert (Fp : free sp period = true).
  { simpl in Hp. destruct Hp as [<-|[<-|[<-|[<-|[]]]]]; reflexivity. }
  assert (Et : pad2 (Some d) +:+ "/" +:+ pad2 (Some mo) +:+ "/" +:+ Z_to_string y
               +:+ " " +:+ pad2 (Some h) +:+ ":" +:+ pad2 (Some mi) +:+ ":"
               +:+ pad2 (Some s) +:+ " " +:+ period
               = datePart +:+ String " " (timePart +:+ String " " period)).
  { unfold datePart, timePart.
    rewrite !string_app_assoc. reflexivity. }
  unfold convertToDateTime.
  rewrite Et.
  assert (Hne : String.eqb (datePart +:+ String " " (timePart +:+ String " " period)) "" = false).
  { unfold datePart.
    assert (E2 : String.length (pad2 (Some d)) = 2%nat) by (apply pad2_length; lia).
    destruct (pad2 (Some d)) as [|c0 r0]; [discriminate E2|]. reflexivity. }
  rewrite Hne.
  fold sp.
  rewrite (proj2 (split_on_free sp datePart Fd) " "%char _ eq_refl).
  rewrite (proj2 (split_on_free sp timePart Ft) " "%char _ eq_refl).
  rewrite (proj1 (split_on_free sp period Fp)).
  fold sl co. unfold datePart, timePart.
  change (pad2 (Some d) +:+ "/" +:+ pad2 (Some mo) +:+ "/" +:+ Z_to_string y)
    with (pad2 (Some d) +:+ String "/" (pad2 (Some mo) +:+ String "/" (Z_to_string y))).
  change (pad2 (Some h) +:+ ":" +:+ pad2 (Some mi) +:+ ":" +:+ pad2 (Some s))
    with (pad2 (Some h) +:+ String ":" (pad2 (Some mi) +:+ String ":" (pad2 (Some s)))).
  rewrite (proj2 (split_on_free sl (pad2 (Some d)) (digits_free sl _ Hsl Dd)) "/"%char _ eq_refl).
  rewrite (proj2 (split_on_free sl (pad2 (Some mo)) (digits_free sl _ Hsl Dmo)) "/"%char _ eq_refl).
  rewrite (proj1 (split_on_free sl (Z_to_string y) (digits_free sl _ Hsl Dy))).
  rewrite (proj2 (split_on_free co (pad2 (Some h)) (digits_free co _ Hco Dh)) ":"%char _ eq_refl).
  rewrite (proj2 (split_on_free co (pad2 (Some mi)) (digits_free co _ Hco Dmi)) ":"%char _ eq_refl).
  rewrite (proj1 (split_on_free co (pad2 (Some s)) (digits_free co _ Hco Ds))).
  cbn [map nth_num nth]. f_equal.
  unfold new_Date_fields.
  rewrite Lh, Eh, Ny, Nmo, Nd, Nmi, Ns.
  assert (Ea : F2Z (if String.eqb (toLowerCase period) "p.m." && (h <? 12)
                    then (Number_str (pad2 (Some h)) + 12)%float
                    else if String.eqb (toLowerCase period) "a.m." && (h =? 12)
                         then PrimFloat.zero else Number_str (pad2 (Some h)))
               = Some h24).
  { unfold h24, pm. simpl in Hp.
    destruct Hp as [<-|[<-|[<-|[<-|[]]]]];
      cbn [toLowerCase lower_char String.eqb Ascii.eqb Bool.eqb andb];
      change (String.eqb (toLowerCase ?x) ?y)
        with (String.eqb (toLowerCase x) y);
      repeat match goal with
             | |- context [String.eqb (toLowerCase ?x) ?y] =>
                 let b := eval vm_compute in (String.eqb (toLowerCase x) y) in
                 change (String.eqb (toLowerCase x) y) with b
             end;
      cbn [andb]; destruct (h <? 12), (h =? 12); assumption || reflexivity. }
  rewrite Ea.
  destruct (Z.leb_spec y 99); [lia|]. rewrite andb_false_r. reflexivity.
Qed.

Lemma convertToDateTime_twelve_hour_witness :
  convertToDateTime Samples.hostAR (Some "15/03/2024 02:30:00 p.m.")
  = Some (Some 1710523800000)
  /\ convertToDateTime Samples.hostAR (Some "15/03/2024 12:05:09 A.M.")
     = Some (Some 1710471909000).
Proof.
  split.
  - refine (convertToDateTime_twelve_hour Samples.hostAR 15 3 2024 2 30 0 "p.m."
              _ _ _ _ _ _ _); [lia..|simpl; tauto].
  - refine (convertToDateTime_twelve_hour Samples.hostAR 15 3 2024 12 5 9 "A.M."
              _ _ _ _ _ _ _); [lia..|simpl; tauto].
Defined.

(** ** SameValueZero is an equivalence *)

Lemma same_value_zero_class (a b : float) :
  same_value_zero a b = true <-> svz_class a = svz_class b.
Proof.
  unfold same_value_zero, svz_class, PrimFloat.is_nan.
  rewrite !FloatAxioms.eqb_spec.
  destruct (Prim2SF a) as [sa|sa| |sa ma ea], (Prim2SF b) as [sb|sb| |sb mb eb];
    cbn; rewrite ?Z.compare_refl, ?Pos.compare_cont_refl;
    repeat match goal with
           | |- context [if ?s then _ else _] => is_var s; destruct s
           end; cbn;
    try (split; [reflexivity || discriminate | reflexivity || discriminate]).
  all: change (PosDef.Pos.compare_cont Eq ma mb) with (Pos.compare ma mb).
  all: destruct (Z.compare_spec ea eb) as [->|Hlt|Hgt];
    [destruct (Pos.compare_spec ma mb) as [->|Hm|Hm]|..]; cbn;
    (split; [reflexivity || discriminate | try reflexivity; intros [= ]; lia]).
Qed.

Lemma svz_refl a : same_value_zero a a = true.
Proof. apply same_value_zero_class. reflexivity. Qed.

Lemma svz_sym a b : same_value_zero a b = same_value_zero b a.
Proof.
  apply eq_true_iff_eq. rewrite !same_value_zero_class. split; congruence.
Qed.

Lemma svz_trans a b c :
  same_value_zero a b = true -> same_value_zero b c = true ->
  same_value_zero a c = true.
Proof. rewrite !same_value_zero_class. congruence. Qed.

Lemma mem_class (v : float) (l : list float) :
  mem v l = true <-> svz_class v ∈ map svz_class l.
Proof.
  unfold mem. rewrite existsb_exists, list_elem_of_In, in_map_iff.
  split.
  - intros (x & Hx & E). exists x. apply same_value_zero_class in E. auto.
  - intros (x & E & Hx). exists x. split; [exact Hx|].
    apply same_value_zero_class. congruence.
Qed.

Lemma svz_class_set_key (v : float) : svz_class (set_key v) = svz_class v.
Proof.
  symmetry. apply same_value_zero_class. rewrite svz_set_key. apply svz_refl.
Qed.

(** What the scan returns: the classes recorded before, and the classes
    met when already seen. *)
Lemma scanDuplicates_classes (vs : list float) :
  forall (seen dups : list float) (c : spec_float),
    c ∈ map svz_class (scanDuplicates vs seen dups)
    <-> c ∈ map svz_class dups
        \/ exists j b, vs !! j = Some b /\ svz_class b = c
             /\ (c ∈ map svz_class seen
                 \/ exists i a, (i < j)%nat /\ vs !! i = Some a /\ svz_class a = c).
Proof.
  induction vs as [|v r IH]; intros seen dups c; cbn [scanDuplicates].
  - split; [auto|]. intros [?|(j & b & Hj & _)]; [assumption|].
    rewrite lookup_nil in Hj. discriminate.
  - destruct (mem v seen) eqn:Hs.
    + rewrite IH. apply mem_class in Hs.
      assert (Hd : c ∈ map svz_class
                         (if mem v dups then dups else dups ++ [set_key v])
                   <-> c ∈ map svz_class dups \/ c = svz_class v).
      { destruct (mem v dups) eqn:Hm.
        - apply mem_class in Hm. split; [auto|]. intros [?| ->]; assumption.
        - rewrite map_app, elem_of_app. cbn [map].
          rewrite svz_class_set_key, list_elem_of_singleton. reflexivity. }
      rewrite Hd. split.
      * intros [[?| ->]|(j & b & Hj & Hb & Hc)].
        -- auto.
        -- right. exists 0%nat, v. cbn. auto.
        -- right. exists (S j), b. split; [exact Hj|]. split; [exact Hb|].
           destruct Hc as [?|(i & a & Hi & Ha & Hac)]; [auto|].
           right. exists (S i), a. split; [lia|]. auto.
      * intros [?|(j & b & Hj & Hb & Hc)]; [auto|].
        destruct j as [|j]; cbn in Hj.
        -- injection Hj as ->. left. right. congruence.
        -- destruct Hc as [?|(i & a & Hi & Ha & Hac)].
           ++ right. exists j, b. auto.
           ++ destruct i as [|i]; cbn in Ha.
              ** injection Ha as ->. right. exists j, b.
                 split; [exact Hj|]. split; [exact Hb|]. left. congruence.
              ** right. exists j, b. split; [exact Hj|]. split; [exact Hb|].
                 right. exists i, a. split; [lia|]. auto.
    + rewrite IH. rewrite map_app. cbn [map]. rewrite svz_class_set_key.
      assert (Hns : svz_class v ∉ map svz_class seen).
      { intros Hin. apply mem_class in Hin. congruence. }
      split.
      * intros [?|(j & b & Hj & Hb & Hc)]; [auto|].
        right. exists (S j), b. split; [exact Hj|]. split; [exact Hb|].
        rewrite elem_of_app, list_elem_of_singleton in Hc.
        destruct Hc as [[?| ->]|(i & a & Hi & Ha & Hac)].
        -- auto.
        -- right. exists 0%nat, v. split; [lia|]. cbn. auto.
        -- right. exists (S i), a. split; [lia|]. auto.
      * intros [?|(j & b & Hj & Hb & Hc)]; [auto|].
        destruct j as [|j]; cbn in Hj.
        -- injection Hj as ->. destruct Hc as [Hc|(i & a & Hi & _)]; [|lia].
           subst c. contradiction.
        -- right. exists j, b. split; [exact Hj|]. split; [exact Hb|].
           rewrite elem_of_app, list_elem_of_singleton.
           destruct Hc as [?|(i & a & Hi & Ha & Hac)]; [auto|].
           destruct i as [|i]; cbn in Ha.
           ++ injection Ha as ->. left. right. congruence.
           ++ right. exists i, a. split; [lia|]. auto.
Qed.

Lemma scanDuplicates_distinct (vs : list float) :
  forall (seen dups : list float),
    NoDup (map svz_class dups) ->
    NoDup (map svz_class (scanDuplicates vs seen dups)).
Proof.
  induction vs as [|v r IH]; intros seen dups Hd; cbn [scanDuplicates];
    [exact Hd|].
  destruct (mem v seen); [|apply IH, Hd].
  apply IH. destruct (mem v dups) eqn:Hm; [exact Hd|].
  rewrite map_app. cbn [map]. rewrite svz_class_set_key.
  apply NoDup_app. split; [exact Hd|].
  split; [|apply NoDup_singleton].
  intros c Hc Hv. apply list_elem_of_singleton in Hv. subst c.
  apply mem_class in Hc. congruence.
Qed.

Lemma findDuplicatesCust_mem (values : list float) (v : float) :
  mem v (findDuplicatesCust values) = true
  <-> exists i j a b, (i < j)%nat /\ values !! i = Some a
        /\ values !! j = Some b
        /\ same_value_zero v a = true /\ same_value_zero v b = true.
Proof.
  unfold findDuplicatesCust.
  rewrite mem_class, scanDuplicates_classes. cbn [map].
  split.
  - intros [Hin|(j & b & Hj & Hb & [Hin|(i & a & Hi & Ha & Hac)])];
      [inversion Hin|inversion Hin|].
    exists i, j, a, b. rewrite !same_value_zero_class. auto.
  - intros (i & j & a & b & Hi & Ha & Hb & Hva & Hvb).
    apply same_value_zero_class in Hva, Hvb.
    right. exists j, b. split; [exact Hb|]. split; [congruence|].
    right. exists i, a. split; [exact Hi|]. split; [exact Ha|]. congruence.
Qed.

Lemma findDuplicatesCust_none (values : list float) :
  (forall i j a b, (i < j)%nat -> values !! i = Some a -> values !! j = Some b ->
                   same_value_zero a b = false) ->
  findDuplicatesCust values = [].
Proof.
  intros Hd. destruct (findDuplicatesCust values) as [|v l] eqn:E; [reflexivity|].
  assert (Hm : mem v (findDuplicatesCust values) = true).
  { rewrite E. unfold mem. cbn. rewrite svz_refl. reflexivity. }
  apply findDuplicatesCust_mem in Hm as (i & j & a & b & Hij & Ha & Hb & Hva & Hvb).
  pose proof (Hd i j a b Hij Ha Hb).
  assert (same_value_zero a b = true)
    by (apply (svz_trans a v b); [rewrite svz_sym|]; assumption).
  congruence.
Qed.

(** X17 (findDuplicatesCust): findDuplicatesCust returns exactly the
    values that occur at two positions at least (compared as a Set
    does, so NaN equals NaN and -0 equals 0), and lists none of them
    twice. *)
Theorem findDuplicatesCust_exact (values : list float) :
  (forall v : float,
      mem v (findDuplicatesCust values) = true
      <-> exists i j a b, (i < j)%nat /\ values !! i = Some a
            /\ values !! j = Some b
            /\ same_value_zero v a = true /\ same_value_zero v b = true)
  /\ (forall i j a b, (i < j)%nat ->
        findDuplicatesCust values !! i = Some a ->
        findDuplicatesCust values !! j = Some b ->
        same_value_zero a b = false).
Proof.
  split; [apply findDuplicatesCust_mem|].
  unfold findDuplicatesCust.
  intros i j a b Hij Ha Hb.
  pose proof (scanDuplicates_distinct values [] [] NoDup_nil_2) as Hnd.
  destruct (same_value_zero a b) eqn:E; [|reflexivity].
  apply same_value_zero_class in E.
  assert (Hi : map svz_class (scanDuplicates values [] []) !! i
               = Some (svz_class a)).
  { change (map svz_class ?l) with (svz_class <$> l).
    rewrite list_lookup_fmap, Ha. reflexivity. }
  assert (Hj : map svz_class (scanDuplicates values [] []) !! j
               = Some (svz_class a)).
  { change (map svz_class ?l) with (svz_class <$> l).
    rewrite list_lookup_fmap, Hb, E. reflexivity. }
  pose proof (NoDup_lookup _ _ _ _ Hnd Hi Hj). lia.
Qed.

(** ** The import, record by record *)

Lemma rowOfEntry_cases (H : Host) (e : Entry) :
  (exists name, name ∈ flagNames /\ getChildText e name = None
                /\ rowOfEntry H e = Throw TypeError)
  \/ (Forall (fun name => is_Some (getChildText e name)) flagNames
      /\ exists r, rowOfEntry H e = Ok r /\ length r = 31%nat
                   /\ firstNumber r = codeOf e).
Proof.
  unfold rowOfEntry, flagNames, convertToBoolean.
  destruct (getChildText e "ControlaCredito") eqn:E1; cbn [bind].
  2:{ left. exists "ControlaCredito". split; [apply list_elem_of_In; simpl; tauto|]. split; [assumption|reflexivity]. }
  destruct (getChildText e "SF_Moroso") eqn:E2; cbn [bind].
  2:{ left. exists "SF_Moroso". split; [apply list_elem_of_In; simpl; tauto|]. split; [assumption|reflexivity]. }
  destruct (getChildText e "SF_Engestionjudicial") eqn:E3; cbn [bind].
  2:{ left. exists "SF_Engestionjudicial". split; [apply list_elem_of_In; simpl; tauto|]. split; [assumption|reflexivity]. }
  destruct (getChildText e "SF_Incobrable") eqn:E4; cbn [bind].
  2:{ left. exists "SF_Incobrable". split; [apply list_elem_of_In; simpl; tauto|]. split; [assumption|reflexivity]. }
  destruct (getChildText e "Habilitado") eqn:E5; cbn [bind].
  2:{ left. exists "Habilitado". split; [apply list_elem_of_In; simpl; tauto|]. split; [assumption|reflexivity]. }
  right. split.
  - repeat constructor; rewrite ?E1, ?E2, ?E3, ?E4, ?E5; eexists; reflexivity.
  - eexists. split; [reflexivity|]. split; reflexivity.
Qed.

Lemma mapEntries_complete (H : Host) (entries : list Entry) :
  Forall (fun e => Forall (fun name => is_Some (getChildText e name)) flagNames)
         entries ->
  exists data, mapEntries H entries = Ok data
    /\ length data = length entries
    /\ map firstNumber data = map codeOf entries
    /\ forall k e, entries !! k = Some e ->
         exists r, data !! k = Some r /\ rowOfEntry H e = Ok r
                   /\ length r = 31%nat.
Proof.
  induction 1 as [|e l He _ IH]; cbn [mapEntries].
  - exists []. repeat split. intros k e Hk. rewrite lookup_nil in Hk. discriminate.
  - destruct (rowOfEntry_cases H e) as [(name & Hn & Hnone & _)|(_ & r & Er & Hl & Hc)].
    { rewrite Forall_forall in He. apply He in Hn. rewrite Hnone in Hn.
      destruct Hn; discriminate. }
    destruct IH as (data & Ed & Hlen & Hcodes & Hrows).
    rewrite Er, Ed. cbn [bind]. exists (r :: data).
    split; [reflexivity|]. split; [simpl; congruence|].
    split; [simpl; congruence|].
    intros [|k] e' Hk; cbn in Hk |- *.
    + injection Hk as <-. eauto.
    + apply Hrows, Hk.
Qed.

Lemma mapEntries_incomplete (H : Host) (entries : list Entry) (e : Entry)
  (name : string) :
  e ∈ entries -> name ∈ flagNames -> getChildText e name = None ->
  mapEntries H entries = Throw TypeError.
Proof.
  intros Hin Hn Hnone. induction Hin as [e l|e e' l _ IH]; cbn [mapEntries].
  - destruct (rowOfEntry_cases H e) as [(_ & _ & _ & ->)|(Hall & _)];
      [reflexivity|].
    rewrite Forall_forall in Hall. apply Hall in Hn. rewrite Hnone in Hn.
    destruct Hn; discriminate.
  - rewrite (IH Hnone).
    destruct (rowOfEntry_cases H e') as [(_ & _ & _ & ->)|(_ & r & -> & _)];
      reflexivity.
Qed.

(** X18 (convertToBoolean, importXMLFileDataCust,
    prepareAndImportXMLFileCust): If any record of a confirmed import
    lacks one of the five boolean fields (ControlaCredito, SF_Moroso,
    SF_Engestionjudicial, SF_Incobrable, Habilitado), no record is
    written and 0 is returned with the error alert, but columns A to Q
    of the existing rows have already been cleared. *)
Theorem import_aborts_after_clearing (H : Host) (w : World) (file : XmlFile)
  (st : State) (entries : list Entry) (e : Entry) (name : string) :
  entriesOf file = Ok entries ->
  match entries with
  | first :: _ => length first = 31%nat
  | [] => True
  end ->
  e ∈ entries -> name ∈ flagNames -> getChildText e name = None ->
  prepareAndImportXMLFileCust H w file true st
  = (Some 0,
     {| clientes := Some (clearedSheet st);
        alerts := alerts st ++ [ConfirmAlert (length entries) (fileName file);
                                ImportErrorAlert "TypeError"];
        console := console st ++ [TypeError];
        errorLog := (fun l => l ++ [(now w, "TypeError")]) <$> errorLog st |}).
Proof.
  intros Ef H31 Hin Hn Hnone. unfold prepareAndImportXMLFileCust. rewrite Ef.
  assert (Hb : match entries with
               | firstEntry :: _ => negb (length firstEntry =? 31)%nat
               | [] => false
               end = false).
  { destruct entries; [reflexivity|]. rewrite H31. reflexivity. }
  rewrite Hb. cbn [negb].
  unfold importXMLFileDataCust.
  rewrite (mapEntries_incomplete H entries e name Hin Hn Hnone).
  unfold onImportError, logErrorCust, alert, withSheet, clearedSheet.
  cbn [clientes alerts console errorLog error_message].
  rewrite <- app_assoc. reflexivity.
Qed.

Lemma import_aborts_after_clearing_witness :
  exists st',
    prepareAndImportXMLFileCust Samples.hostAR Samples.worldSample fileNoFlag
      true Samples.stateEmpty = (Some 0, st')
    /\ alerts st' = [ConfirmAlert 2 "clientes.xml"; ImportErrorAlert "TypeError"].
Proof.
  eexists. split.
  - apply (import_aborts_after_clearing Samples.hostAR Samples.worldSample
             fileNoFlag Samples.stateEmpty
             [Samples.customer "4521"; customerNoHabilitado "4522"]
             (customerNoHabilitado "4522") "Habilitado").
    + reflexivity.
    + reflexivity.
    + apply list_elem_of_In. simpl. auto.
    + apply list_elem_of_In. simpl. tauto.
    + reflexivity.
  - reflexivity.
Defined.

(** X19 (importXMLFileDataCust, prepareAndImportXMLFileCust): A
    confirmed import of a file without records clears columns A to Q
    of the existing rows, shows 'No hay datos para importar.' and then
    the completion alert with 0 records and 0 duplicates, and returns
    0. *)
Theorem import_of_empty_file (H : Host) (w : World) (file : XmlFile)
  (st : State) :
  entriesOf file = Ok [] ->
  prepareAndImportXMLFileCust H w file true st
  = (Some 0,
     {| clientes := Some (clearedSheet st);
        alerts := alerts st ++ [ConfirmAlert 0 (fileName file); NoDataAlert;
                                CompletedAlert 0 0];
        console := console st;
        errorLog := errorLog st |}).
Proof.
  intros Ef. unfold prepareAndImportXMLFileCust. rewrite Ef. cbn [negb length].
  unfold importXMLFileDataCust. cbn [mapEntries length Nat.ltb Nat.leb].
  unfold alert, withSheet, clearedSheet.
  cbn [clientes alerts console errorLog findDuplicatesCust scanDuplicates map length
       Nat.ltb Nat.leb].
  rewrite <- !app_assoc. reflexivity.
Qed.

Lemma import_of_empty_file_witness :
  exists st',
    prepareAndImportXMLFileCust Samples.hostAR Samples.worldSample
      {| fileName := "vacio.xml"; entriesOf := Ok [] |} true stateThree
    = (Some 0, st')
    /\ alerts st' = [ConfirmAlert 0 "vacio.xml"; NoDataAlert; CompletedAlert 0 0]
    /\ (rows <$> clientes st')
       = Some [[CText "CodCliente"];
               replicate 17 CEmpty ++ replicate 14 (CText "x");
               replicate 17 CEmpty ++ replicate 14 (CText "x");
               replicate 17 CEmpty ++ replicate 14 (CText "x")].
Proof.
  eexists. split; [|split].
  - apply (import_of_empty_file Samples.hostAR Samples.worldSample
             {| fileName := "vacio.xml"; entriesOf := Ok [] |} stateThree).
    reflexivity.
  - reflexivity.
  - reflexivity.
Defined.

(** ** Rows below the imported block *)

Lemma dropBlankPrefix_drop (l : list Row) :
  exists j, dropBlankPrefix l = drop j l
            /\ forall i r, l !! i = Some r -> (i < j)%nat -> blankRow r = true.
Proof.
  induction l as [|x l (j & E & Hb)]; cbn [dropBlankPrefix].
  - exists 0%nat. split; [reflexivity|]. intros; lia.
  - destruct (blankRow x) eqn:Ex.
    + exists (S j). split; [exact E|].
      intros [|i] r Hi Hlt; cbn in Hi.
      * congruence.
      * apply (Hb i r Hi). lia.
    + exists 0%nat. split; [reflexivity|]. intros; lia.
Qed.

Lemma trimBlankRows_take (l : list Row) :
  exists m, trimBlankRows l = take m l
            /\ forall i r, l !! i = Some r -> blankRow r = false -> (i < m)%nat.
Proof.
  unfold trimBlankRows.
  destruct (dropBlankPrefix_drop (rev l)) as (j & E & Hb). rewrite E.
  exists (length l - j)%nat. split.
  - rewrite skipn_rev, rev_involutive. reflexivity.
  - intros i r Hi Hr.
    destruct (Nat.lt_ge_cases i (length l - j)) as [|Hge]; [assumption|].
    pose proof (lookup_lt_Some _ _ _ Hi) as Hlt.
    assert (Hrev : rev l !! (length l - S i)%nat = Some r).
    { assert (Er : rev l = reverse l) by (unfold reverse; apply rev_alt).
      rewrite Er. apply reverse_lookup_Some. split; [|lia].
      replace (length l - S (length l - S i))%nat with i by lia. exact Hi. }
    rewrite (Hb _ _ Hrev) in Hr; [discriminate|lia].
Qed.

Lemma overwrite_beyond (data olds : list Row) (k : nat) :
  (length data <= k)%nat -> overwrite olds data !! k = olds !! k.
Proof.
  revert olds k. induction data as [|d ds IH]; intros olds k Hk;
    cbn [overwrite]; [reflexivity|].
  destruct k as [|k]; [simpl in Hk; lia|].
  destruct olds as [|o os]; cbn.
  - rewrite IH by (simpl in Hk; lia). reflexivity.
  - apply IH. simpl in Hk. lia.
Qed.

(** X20 (importXMLFileDataCust): After importXMLFileDataCust has
    written n records, an older row below row n + 1 that holds content
    to the right of column Q is still there with that content (only
    its columns A to Q are blank), so the sheet keeps more than n + 1
    rows. *)
Theorem stale_columns_survive (H : Host) (entries : list Entry)
  (st st1 : State) (data : list Row) (cs : CustSheet) (header : Row)
  (rest : list Row) (k : nat) (r : Row) :
  importXMLFileDataCust H entries st = (Ok data, st1) ->
  data <> [] ->
  clientes st = Some cs -> rows cs = header :: rest ->
  (length data <= k)%nat -> rest !! k = Some r ->
  blankRow (clearAQ r) = false ->
  exists cs1, clientes st1 = Some cs1
    /\ rows cs1 !! S k = Some (clearAQ r)
    /\ (length data + 1 < length (rows cs1))%nat.
Proof.
  intros Ei Hd Hc Hrows Hk Hr Hb. unfold importXMLFileDataCust in Ei.
  rewrite Hc, Hrows in Ei.
  assert (Hlast : (1 <? getLastRow (header :: rest)) = true).
  { apply Z.ltb_lt. unfold getLastRow. pose proof (lookup_lt_Some _ _ _ Hr).
    simpl length. lia. }
  rewrite Hlast in Ei. cbn [rows maxRows] in Ei.
  destruct (mapEntries H entries) as [data'|]; [|discriminate].
  destruct (0 <? length data')%nat eqn:El; [|injection Ei as <- _; congruence].
  injection Ei as <- <-. unfold withSheet. cbn [clientes rows].
  eexists. split; [reflexivity|].
  assert (Hs : setValuesFromRow2 (clearContentA2Q (header :: rest)) data' !! S k
               = Some (clearAQ r)).
  { unfold clearContentA2Q.
    destruct (trimBlankRows_take (header :: map clearAQ rest)) as (m & -> & Hm).
    assert (Hin : (header :: map clearAQ rest) !! S k = Some (clearAQ r)).
    { change ((header :: map clearAQ rest) !! S k)
        with ((clearAQ <$> rest) !! k).
      rewrite list_lookup_fmap, Hr. reflexivity. }
    pose proof (Hm _ _ Hin Hb) as Hlt.
    destruct m as [|m]; [lia|].
    change (take (S m) (header :: map clearAQ rest))
      with (header :: take m (clearAQ <$> rest)).
    unfold setValuesFromRow2.
    change ((header :: ?l) !! S k) with (l !! k).
    rewrite overwrite_beyond by exact Hk.
    rewrite lookup_take_lt by lia.
    rewrite list_lookup_fmap, Hr. reflexivity. }
  cbn [rows]. split; [exact Hs|].
  apply lookup_lt_Some in Hs. unfold clearContentA2Q in Hs. lia.
Qed.

Lemma stale_columns_survive_witness :
  exists cs1 data st1,
    importXMLFileDataCust Samples.hostAR [Samples.customer "4521"] stateThree
    = (Ok data, st1)
    /\ clientes st1 = Some cs1
    /\ rows cs1 !! 3%nat = Some (replicate 17 CEmpty ++ replicate 14 (CText "x"))
    /\ (length data + 1 < length (rows cs1))%nat.
Proof.
  destruct (importXMLFileDataCust Samples.hostAR [Samples.customer "4521"] stateThree)
    as [[data|] st1] eqn:E; [|vm_compute in E; discriminate].
  assert (El : length data = 1%nat).
  { vm_compute in E. injection E as <- _. reflexivity. }
  destruct (stale_columns_survive Samples.hostAR [Samples.customer "4521"]
              stateThree st1 data
              {| rows := [[CText "CodCliente"]; oldRow 1; oldRow 2; oldRow 3];
                 maxRows := 4 |}
              [CText "CodCliente"] [oldRow 1; oldRow 2; oldRow 3] 2%nat (oldRow 3))
    as (cs1 & Hc & Hr & Hl).
  - exact E.
  - destruct data; [discriminate|discriminate].
  - reflexivity.
  - reflexivity.
  - rewrite El. lia.
  - reflexivity.
  - reflexivity.
  - exists cs1, data, st1. split; [reflexivity|]. split; [exact Hc|].
    split; [exact Hr|exact Hl].
Defined.

(** X21 (importXMLFileDataCust, prepareAndImportXMLFileCust): If the
    first record has 31 children, every record has the five boolean
    fields and no two records have the same customer code, a confirmed
    import returns the number of records, shows the confirmation and
    the completion alert with 0 duplicates, writes record k into row k
    + 2 (31 cells), and leaves no grid row below the last used row. *)
Theorem import_without_duplicates (H : Host) (w : World) (file : XmlFile)
  (st : State) (entries : list Entry) :
  entriesOf file = Ok entries ->
  match entries with
  | first :: _ => length first = 31%nat
  | [] => False
  end ->
  Forall (fun e => Forall (fun name => is_Some (getChildText e name)) flagNames)
         entries ->
  (forall i j a b, (i < j)%nat -> entries !! i = Some a -> entries !! j = Some b ->
                   same_value_zero (codeOf a) (codeOf b) = false) ->
  exists st' cs',
    prepareAndImportXMLFileCust H w file true st
    = (Some (Z.of_nat (length entries)), st')
    /\ alerts st' = alerts st ++ [ConfirmAlert (length entries) (fileName file);
                                  CompletedAlert (length entries) 0]
    /\ console st' = console st /\ errorLog st' = errorLog st
    /\ clientes st' = Some cs'
    /\ (forall k e, entries !! k = Some e ->
          exists r r', rowOfEntry H e = Ok r /\ rows cs' !! S k = Some r'
                       /\ take 31 r' = r)
    /\ maxRows cs' <= getLastRow (rows cs').
Proof.
  intros Ef H31 Hflags Hcodes.
  destruct (mapEntries_complete H entries Hflags) as (data & Ed & Hlen & Hfn & Hrows).
  assert (Hne : data <> []).
  { destruct entries; [contradiction|]. destruct data; [discriminate|discriminate]. }
  unfold prepareAndImportXMLFileCust. rewrite Ef.
  assert (Hb : match entries with
               | firstEntry :: _ => negb (length firstEntry =? 31)%nat
               | [] => false
               end = false).
  { destruct entries; [reflexivity|]. rewrite H31. reflexivity. }
  rewrite Hb. cbn [negb].
  set (st0 := alert st (ConfirmAlert (length entries) (fileName file))).
  destruct (importXMLFileDataCust H entries st0) as [[imported|e] st1] eqn:Ei.
  2:{ unfold importXMLFileDataCust in Ei. rewrite Ed in Ei.
      destruct (0 <? length data)%nat; discriminate. }
  assert (Eimp : imported = data).
  { unfold importXMLFileDataCust in Ei. rewrite Ed in Ei.
    destruct (0 <? length data)%nat eqn:El; [congruence|].
    destruct data; [contradiction|discriminate]. }
  subst imported.
  destruct (importXMLFileDataCust_written H entries st0 st1 data Ei Hne)
    as (_ & Ha & Hco & Hel & cs & Hcs & Hw).
  assert (Hnd : findDuplicatesCust (map firstNumber data) = []).
  { apply findDuplicatesCust_none. rewrite Hfn. intros i j a b Hij Ha' Hb'.
    change (map codeOf entries) with (codeOf <$> entries) in Ha', Hb'.
    rewrite list_lookup_fmap in Ha', Hb'.
    destruct (entries !! i) as [ea|] eqn:Ea; [|discriminate].
    destruct (entries !! j) as [eb|] eqn:Eb; [|discriminate].
    injection Ha' as <-. injection Hb' as <-. eauto. }
  rewrite Hnd. cbn [length Nat.ltb Nat.leb].
  exists (alert st1 (CompletedAlert (length data) 0)), cs.
  split; [rewrite Hlen; reflexivity|].
  split.
  { unfold alert at 1. cbn [alerts]. rewrite Ha. unfold st0, alert. cbn [alerts].
    rewrite <- app_assoc, Hlen. reflexivity. }
  split; [exact Hco|]. split; [exact Hel|]. split; [exact Hcs|].
  split.
  - intros k e Hk. destruct (Hrows k e Hk) as (r & Hr & Er & Hl).
    destruct (Hw k r Hr) as (r' & Hr' & Ht). rewrite Hl in Ht. eauto.
  - unfold importXMLFileDataCust in Ei. rewrite Ed in Ei.
    destruct (0 <? length data)%nat; [|destruct data; [contradiction|discriminate]].
    injection Ei as <-. unfold withSheet in Hcs. cbn [clientes] in Hcs.
    injection Hcs as <-. cbn [rows maxRows].
    match goal with
    | |- (if ?c then _ else _) <= _ => destruct c eqn:Ec
    end; [lia|apply Z.ltb_ge in Ec; lia].
Qed.

Lemma import_without_duplicates_witness :
  exists st',
    prepareAndImportXMLFileCust Samples.hostAR Samples.worldSample fileTwo true
                                Samples.stateEmpty = (Some 2, st')
    /\ alerts st' = [ConfirmAlert 2 "clientes.xml"; CompletedAlert 2 0].
Proof.
  destruct (import_without_duplicates Samples.hostAR Samples.worldSample fileTwo
              Samples.stateEmpty
              [Samples.customer "4521"; Samples.customer "4522"])
    as (st' & cs' & E & Ha & _).
  - reflexivity.
  - reflexivity.
  - repeat constructor; eexists; reflexivity.
  - intros [|[|i]] [|[|[|j]]] a b Hij Ha Hb; cbn in Ha, Hb; try lia;
      try discriminate.
    injection Ha as <-. injection Hb as <-. vm_compute. reflexivity.
  - exists st'. split; [exact E|exact Ha].
Defined.

(** ** Choosing the file *)

Lemma latest_fold (rest : list DriveFile) :
  forall (done : list DriveFile) (best : DriveFile) (i : nat),
    done !! i = Some best ->
    (forall j g, done !! j = Some g ->
                 lastUpdated g <= lastUpdated best
                 /\ (lastUpdated g = lastUpdated best -> (j <= i)%nat)) ->
    exists i',
      (done ++ rest) !! i'
      = Some (fold_left (fun a b => if lastUpdated b <? lastUpdated a then a else b)
                        rest best)
      /\ forall j g, (done ++ rest) !! j = Some g ->
           lastUpdated g
           <= lastUpdated (fold_left (fun a b => if lastUpdated b <? lastUpdated a
                                                 then a else b) rest best)
           /\ (lastUpdated g
               = lastUpdated (fold_left (fun a b => if lastUpdated b <? lastUpdated a
                                                    then a else b) rest best)
               -> (j <= i')%nat).
Proof.
  induction rest as [|b rest IH]; intros done best i Hi Hmax; cbn [fold_left].
  - exists i. rewrite app_nil_r. split; assumption.
  - replace (done ++ b :: rest) with ((done ++ [b]) ++ rest)
      by (rewrite <- app_assoc; reflexivity).
    pose proof (lookup_lt_Some _ _ _ Hi) as Hlt.
    destruct (Z.ltb_spec (lastUpdated b) (lastUpdated best)) as [Hb|Hb].
    + apply (IH (done ++ [b]) best i).
      * rewrite lookup_app_l by exact Hlt. exact Hi.
      * intros j g Hj. apply lookup_app_Some in Hj as [Hj|[Hge Hj]].
        -- apply Hmax, Hj.
        -- apply list_lookup_singleton_Some in Hj as [_ <-]. lia.
    + apply (IH (done ++ [b]) b (length done)).
      * rewrite lookup_app_r by lia. rewrite Nat.sub_diag. reflexivity.
      * intros j g Hj. apply lookup_app_Some in Hj as [Hj|[Hge Hj]].
        -- pose proof (lookup_lt_Some _ _ _ Hj). destruct (Hmax j g Hj). lia.
        -- apply list_lookup_singleton_Some in Hj as [Hj0 <-]. lia.
Qed.

(** X22 (getLatestFileCust): getLatestFileCust throws on an empty
    list; otherwise it returns a file of the list that no file of the
    list is more recent than, the last such file when several share
    the latest date. *)
Theorem getLatestFileCust_latest :
  getLatestFileCust [] = Throw TypeError
  /\ forall (first : DriveFile) (rest : list DriveFile),
       exists f i, getLatestFileCust (first :: rest) = Ok f
         /\ (first :: rest) !! i = Some f
         /\ forall j g, (first :: rest) !! j = Some g ->
              lastUpdated g <= lastUpdated f
              /\ (lastUpdated g = lastUpdated f -> (j <= i)%nat).
Proof.
  split; [reflexivity|]. intros first rest.
  unfold getLatestFileCust.
  destruct (latest_fold rest [first] first 0%nat eq_refl) as (i & Hi & Hmax).
  { intros j g Hj. apply list_lookup_singleton_Some in Hj as [-> <-]. lia. }
  eexists _, i. split; [reflexivity|]. split; [exact Hi|exact Hmax].
Qed.

(** ** The identifier in a share link *)

Lemma takeNonSlash_app (id rest : string) :
  noSlash id -> takeNonSlash (id +:+ String "/" rest) = id.
Proof.
  unfold noSlash. induction id as [|c id IH]; intros Hn.
  - reflexivity.
  - cbn [list_ascii_of_string] in Hn. apply Forall_cons in Hn as [Hc Hn].
    change (String c id +:+ ?x) with (String c (id +:+ x)).
    cbn [takeNonSlash].
    apply Ascii.eqb_neq in Hc. rewrite Hc. f_equal. apply IH, Hn.
Qed.

Lemma takeNonSlash_all (id : string) : noSlash id -> takeNonSlash id = id.
Proof.
  unfold noSlash. induction id as [|c id IH]; intros Hn; cbn [takeNonSlash]; [reflexivity|].
  cbn [list_ascii_of_string] in Hn. apply Forall_cons in Hn as [Hc Hn].
  apply Ascii.eqb_neq in Hc. rewrite Hc. f_equal. apply IH, Hn.
Qed.

Lemma matchFileId_noSlash (s : string) : noSlash s -> matchFileId s = None.
Proof.
  unfold noSlash. induction s as [|c s IH]; intros Hn; [reflexivity|].
  cbn [list_ascii_of_string] in Hn. apply Forall_cons in Hn as [Hc Hn].
  cbn [matchFileId strip_prefix]. apply Ascii.eqb_neq in Hc.
  rewrite Ascii.eqb_sym, Hc. apply IH, Hn.
Qed.

Lemma takeNonSlash_noSlash (s : string) : noSlash (takeNonSlash s).
Proof.
  unfold noSlash. induction s as [|c s IH]; cbn [takeNonSlash]; [constructor|].
  destruct (Ascii.eqb_spec c "/"); cbn [list_ascii_of_string]; [constructor|].
  constructor; assumption.
Qed.

Lemma takeNonSlash_split (s : string) :
  exists post, s = takeNonSlash s +:+ post
               /\ (post = "" \/ exists r, post = String "/" r).
Proof.
  induction s as [|c s (post & E & Hp)]; cbn [takeNonSlash].
  - exists "". auto.
  - destruct (Ascii.eqb_spec c "/") as [->|Hc].
    + exists (String "/" s). split; [reflexivity|]. right. eauto.
    + exists post. split; [|exact Hp].
      change (String c ?a +:+ ?x) with (String c (a +:+ x)). congruence.
Qed.

Lemma strip_prefix_split (p s rest : string) :
  strip_prefix p s = Some rest -> s = p +:+ rest.
Proof.
  revert s. induction p as [|a p IH]; intros s; cbn.
  - intros [= ->]. reflexivity.
  - destruct s as [|b s]; [discriminate|].
    destruct (Ascii.eqb_spec a b) as [->|]; [|discriminate].
    intros E. change (String b p +:+ rest) with (String b (p +:+ rest)).
    f_equal. apply IH, E.
Qed.

(** X23 (getFileFromUserCust): The identifier getFileFromUserCust
    extracts from a URL is a non-empty text without '/', found right
    after a '/d/' and ending at the next '/' or at the end; from
    'https://drive.google.com/file/d/ID/view?usp=sharing' it extracts
    ID, and a link of the form '.../open?id=ID' matches nothing. *)
Theorem matchFileId_extracts :
  (forall s id, matchFileId s = Some id ->
     id <> "" /\ noSlash id
     /\ exists pre post, s = pre +:+ "/d/" +:+ id +:+ post
          /\ (post = "" \/ exists r, post = String "/" r))
  /\ (forall id, id <> "" -> noSlash id ->
        matchFileId ("https://drive.google.com/file/d/" +:+ id
                     +:+ "/view?usp=sharing") = Some id
        /\ matchFileId ("https://drive.google.com/open?id=" +:+ id) = None).
Proof.
  split.
  - induction s as [|c s IH]; intros id; [discriminate|].
    cbn [matchFileId].
    assert (Hrec : matchFileId s = Some id ->
              id <> "" /\ noSlash id
              /\ exists pre post, String c s = pre +:+ "/d/" +:+ id +:+ post
                   /\ (post = "" \/ exists r, post = String "/" r)).
    { intros E. destruct (IH id E) as (Hne & Hns & pre & post & -> & Hp).
      split; [exact Hne|]. split; [exact Hns|].
      exists (String c pre), post. split; [reflexivity|exact Hp]. }
    destruct (strip_prefix "/d/" (String c s)) as [rest|] eqn:Es; [|exact Hrec].
    destruct (String.eqb_spec (takeNonSlash rest) "") as [|Hne]; [exact Hrec|].
    intros [= <-]. split; [exact Hne|]. split; [apply takeNonSlash_noSlash|].
    apply strip_prefix_split in Es.
    destruct (takeNonSlash_split rest) as (post & E & Hp).
    exists "", post. split; [|exact Hp]. rewrite Es. cbn. rewrite <- E.
    reflexivity.
  - intros id Hne Hns. split.
    + change ("https://drive.google.com/file/d/" +:+ id +:+ "/view?usp=sharing")
        with ("https://drive.google.com/file" +:+ "/d/" +:+ id
              +:+ String "/" "view?usp=sharing").
      change (matchFileId ("https://drive.google.com/file" +:+ ?x))
        with (matchFileId x).
      change (matchFileId ("/d/" +:+ ?x))
        with (if String.eqb (takeNonSlash x) "" then matchFileId ("d/" +:+ x)
              else Some (takeNonSlash x)).
      rewrite (takeNonSlash_app id "view?usp=sharing" Hns).
      destruct (String.eqb_spec id ""); [contradiction|reflexivity].
    + change (matchFileId ("https://drive.google.com/open?id=" +:+ id))
        with (matchFileId id).
      apply matchFileId_noSlash, Hns.
Qed.

(** ** The selection prompt and the whole action *)

(** X24 (getFileFromUserCust): getFileFromUserCust returns a file only
    if some non-empty answer holds an identifier that DriveApp
    resolves to that file (the list of folder files is not consulted);
    it returns null only on an empty answer, after the cancellation
    alert; every other answer gets one alert and a new prompt. *)
Theorem getFileFromUserCust_ends (D : DriveApp) (answers : list string) :
  forall (shown : list Dialog) (pick : Pick),
    getFileFromUserCust D answers = (shown, pick) ->
    match pick with
    | Chosen file =>
        exists url id, url ∈ answers /\ url <> ""
          /\ matchFileId url = Some id /\ getFileById D id = Some file
          /\ (CancelledAlert ∉ shown)
    | Cancelled => "" ∈ answers /\ last shown = Some CancelledAlert
    | Waiting => ("" ∉ answers) /\ length shown = length answers
    end.
Proof.
  induction answers as [|fileUrl more IH]; intros shown pick;
    cbn [getFileFromUserCust].
  - intros [= <- <-]. split; [apply not_elem_of_nil|reflexivity].
  - destruct (String.eqb_spec fileUrl "") as [->|Hne].
    { intros [= <- <-]. split; [left|reflexivity]. }
    assert (Hrec : forall (a : Dialog) (shown' : list Dialog),
              a <> CancelledAlert ->
              getFileFromUserCust D more = (shown', pick) ->
              match pick with
              | Chosen file =>
                  exists url id, url ∈ fileUrl :: more /\ url <> ""
                    /\ matchFileId url = Some id /\ getFileById D id = Some file
                    /\ (CancelledAlert ∉ a :: shown')
              | Cancelled => "" ∈ fileUrl :: more
                             /\ last (a :: shown') = Some CancelledAlert
              | Waiting => ("" ∉ fileUrl :: more)
                           /\ length (a :: shown') = length (fileUrl :: more)
              end).
    { intros a shown' Ha E. specialize (IH shown' pick E).
      destruct pick as [file| |].
      - destruct IH as (url & id & Hin & Hu & Hm & Hg & Hc).
        exists url, id. split; [right; exact Hin|]. repeat split; try assumption.
        rewrite not_elem_of_cons. auto.
      - destruct IH as [Hin Hl]. split; [right; exact Hin|].
        destruct shown' as [|b l]; [discriminate|exact Hl].
      - destruct IH as [Hin Hl]. split; [|simpl; congruence].
        rewrite not_elem_of_cons. auto. }
    destruct (matchFileId fileUrl) as [id|] eqn:Em.
    + destruct (getFileById D id) as [file|] eqn:Eg.
      * intros [= <- <-]. exists fileUrl, id.
        split; [left|]. repeat split; try assumption. apply not_elem_of_nil.
      * destruct (getFileFromUserCust D more) as [shown' pick'].
        intros [= <- <-]. apply Hrec; [discriminate|reflexivity].
    + destruct (getFileFromUserCust D more) as [shown' pick'].
      intros [= <- <-]. apply Hrec; [discriminate|reflexivity].
Qed.

Lemma latest_of_filtered (p : DriveFile -> bool) (all : list DriveFile)
  (f : DriveFile) :
  getLatestFileCust (List.filter p all) = Ok f ->
  f ∈ all /\ p f = true
  /\ forall g, g ∈ all -> p g = true -> lastUpdated g <= lastUpdated f.
Proof.
  destruct (List.filter p all) as [|first rest] eqn:Ef; [discriminate|].
  intros E. unfold getLatestFileCust in E. injection E as E.
  destruct (latest_fold rest [first] first 0%nat eq_refl) as (i & Hi & Hmax).
  { intros j g Hj. apply list_lookup_singleton_Some in Hj as [-> <-]. lia. }
  rewrite E in Hi, Hmax. cbn [app] in Hi, Hmax. rewrite <- Ef in Hi, Hmax.
  assert (Hin : In f (List.filter p all)).
  { apply list_elem_of_In, list_elem_of_lookup. eauto. }
  apply filter_In in Hin as [Hin Hp].
  split; [apply list_elem_of_In, Hin|]. split; [exact Hp|].
  intros g Hg Hpg.
  assert (Hgin : In g (List.filter p all))
    by (apply filter_In; split; [apply list_elem_of_In, Hg|exact Hpg]).
  apply list_elem_of_In, list_elem_of_lookup in Hgin as [j Hj].
  apply (Hmax j g Hj).
Qed.

(** X25 (getFilesFromFolderCust, getLatestFileCust, importCustomers):
    When the first dialog of importCustomers is not answered NO (it is
    answered YES or closed), either the folder holds no file whose
    name ends in '.xml' and only the error alert is shown, or
    prepareAndImportXMLFileCust runs on a '.xml' file of the folder
    that no other '.xml' file of the folder is more recent than. *)
Theorem importCustomers_takes_latest (H : Host) (w : World) (D : DriveApp)
  (answer : Button) (answers : list string) (confirm : bool) (st : State)
  (all : list DriveFile) :
  filesOfFolder D CUST_FOLDER_ID = Some all ->
  answer <> NO ->
  (Forall (fun g => endsWith (getName g) ".xml" = false) all
   /\ importCustomers H w D answer answers confirm st
      = ([NoFilesAlert], Stopped, st))
  \/ exists f, f ∈ all /\ endsWith (getName f) ".xml" = true
       /\ (forall g, g ∈ all -> endsWith (getName g) ".xml" = true ->
                     lastUpdated g <= lastUpdated f)
       /\ importCustomers H w D answer answers confirm st
          = ([OfferLatest (getName f)],
             Returned (fst (prepareAndImportXMLFileCust H w (xml f) confirm st)),
             snd (prepareAndImportXMLFileCust H w (xml f) confirm st)).
Proof.
  intros Hall Hans. unfold importCustomers, getFilesFromFolderCust.
  rewrite Hall.
  set (p := fun file => endsWith (getName file) ".xml").
  destruct (List.filter p all) as [|first rest] eqn:Ef.
  - left. split; [|reflexivity].
    apply Forall_forall. intros g Hg.
    destruct (p g) eqn:Epg; [|exact Epg].
    assert (Hin : In g (List.filter p all))
      by (apply filter_In; split; [apply list_elem_of_In, Hg|exact Epg]).
    rewrite Ef in Hin. destruct Hin.
  - right. rewrite <- Ef.
    destruct (getLatestFileCust (List.filter p all)) as [f|e] eqn:El.
    2:{ rewrite Ef in El. discriminate. }
    destruct (latest_of_filtered p all f El) as (Hin & Hp & Hmax).
    exists f. split; [exact Hin|]. split; [exact Hp|]. split; [exact Hmax|].
    rewrite Ef at 1. cbn [length Nat.eqb].
    destruct (prepareAndImportXMLFileCust H w (xml f) confirm st) as [r st'].
    destruct answer; [reflexivity|contradiction|reflexivity].
Qed.

Lemma getFileFromUserCust_ends_witness :
  getFileFromUserCust driveSample
    ["https://drive.google.com/open?id=1AbC";
     "https://drive.google.com/file/d/9ZzZ/view";
     "https://drive.google.com/file/d/1AbC/view?usp=sharing"]
  = ([InvalidUrlAlert; FileErrorAlert], Chosen fileFebruary)
  /\ exists url id, url <> "" /\ matchFileId url = Some id
       /\ getFileById driveSample id = Some fileFebruary.
Proof.
  split; [reflexivity|].
  destruct (getFileFromUserCust_ends driveSample
              ["https://drive.google.com/open?id=1AbC";
               "https://drive.google.com/file/d/9ZzZ/view";
               "https://drive.google.com/file/d/1AbC/view?usp=sharing"]
              [InvalidUrlAlert; FileErrorAlert] (Chosen fileFebruary) eq_refl)
    as (url & id & _ & Hu & Hm & Hg & _).
  exists url, id. auto.
Defined.

Lemma importCustomers_takes_latest_witness :
  exists st',
    importCustomers Samples.hostAR Samples.worldSample driveSample CLOSE [] true
                    Samples.stateEmpty
    = ([OfferLatest "clientes_marzo.xml"], Returned (Some 2), st').
Proof.
  destruct (importCustomers_takes_latest Samples.hostAR Samples.worldSample
              driveSample CLOSE [] true Samples.stateEmpty
              [fileFebruary; fileNotes; fileMarch] eq_refl)
    as [[Hnone _]|(f & Hin & Hx & Hmax & E)].
  - discriminate.
  - apply Forall_cons in Hnone as [Hf _]. vm_compute in Hf. discriminate Hf.
  - eexists. rewrite E.
    assert (Ef : f = fileMarch).
    { apply elem_of_cons in Hin as [->|Hin]; [|apply elem_of_cons in Hin as [->|Hin]].
      - specialize (Hmax fileMarch).
        assert (Hle : lastUpdated fileMarch <= lastUpdated fileFebruary).
        { apply Hmax; [do 2 right; left|reflexivity]. }
        vm_compute in Hle. contradiction Hle. reflexivity.
      - vm_compute in Hx. discriminate Hx.
      - apply list_elem_of_singleton in Hin. exact Hin. }
    rewrite Ef. reflexivity.
Defined.
